(** * ETH price tracker: the data and state logic of [src/App.tsx]

    A shallow embedding of the React component [App]: its state slices, the
    three fetch routines ([fetchEthPrice], [fetchChartData],
    [fetchHistoricalData]), the mount effect, the derived statistics
    ([minPrice], [maxPrice], [avgPrice]) and the part of the view that
    chooses what the historical section shows.

    How the program is modelled:
    - a JS [number] is an IEEE 754 binary64 value: [spec_float] with the
      binary64 parameters, whose operations compute;
    - a response body is a parsed JSON value; the Quote body is read with
      the property reads of the source, the market-chart body is taken at
      the type the source reads it at;
    - the body of an [async] routine is a function in a state and
      exception monad over the [useState] slices and the console; a state
      setter is the write it schedules;
    - the component over time is a transition system whose events are the
      mount, the interval tick, the clicks and the settling of a request in
      flight; a routine runs from one suspension point to the next in one
      turn, as on the single event loop. *)

From Stdlib Require Import ZArith List Bool String Ascii Lia QArith Qpower.
From Stdlib Require Import Floats.SpecFloat DecimalString.
Import ListNotations.

Local Open Scope Z_scope.

(* ===================================================================== *)
(** * JavaScript numbers                                                  *)
(* ===================================================================== *)

Module JsNumber.

Definition prec : Z := 53.
Definition emax : Z := 1024.

(** A JS [number]: a binary64 value. *)
Definition number : Type := spec_float.

(** The values of [spec_float] that are binary64 numbers. *)
Definition is_number (x : number) : bool := valid_binary prec emax x.

Definition pos_zero : number := S754_zero false.
Definition neg_zero : number := S754_zero true.
Definition pos_infinity : number := S754_infinity false.
Definition neg_infinity : number := S754_infinity true.
Definition NaN : number := S754_nan.

Definition is_nan (x : number) : bool :=
  match x with S754_nan => true | _ => false end.

Definition is_finite (x : number) : bool :=
  match x with S754_zero _ | S754_finite _ _ _ => true | _ => false end.

Definition is_pos_zero (x : number) : bool :=
  match x with S754_zero false => true | _ => false end.

Definition is_neg_zero (x : number) : bool :=
  match x with S754_zero true => true | _ => false end.

(** The operators [+], [*], [/], [<], [<=] on numbers. *)
Definition add (x y : number) : number := SFadd prec emax x y.
Definition mul (x y : number) : number := SFmul prec emax x y.
Definition div (x y : number) : number := SFdiv prec emax x y.
Definition ltb (x y : number) : bool := SFltb x y.
Definition leb (x y : number) : bool := SFleb x y.

(** An integer as a number (exact below 2^53; array lengths and the
    integer literals of the source are far below). *)
Definition of_Z (z : Z) : number := binary_normalize prec emax z 0 false.
Definition of_nat (n : nat) : number := of_Z (Z.of_nat n).

(** [Math.min(...args)] on numbers (ECMA-262, 21.3.2.25): start from
    [+Infinity]; a NaN argument makes the result NaN; [-0] is below [+0]. *)
Fixpoint min_loop (lowest : number) (coerced : list number) : number :=
  match coerced with
  | [] => lowest
  | n :: rest =>
      if is_nan n then NaN
      else
        let lowest1 := if is_neg_zero n && is_pos_zero lowest then neg_zero else lowest in
        let lowest2 := if ltb n lowest1 then n else lowest1 in
        min_loop lowest2 rest
  end.

Definition Math_min (args : list number) : number := min_loop pos_infinity args.

(** [Math.max(...args)] (ECMA-262, 21.3.2.24): start from [-Infinity];
    a NaN argument makes the result NaN; [+0] is above [-0]. *)
Fixpoint max_loop (highest : number) (coerced : list number) : number :=
  match coerced with
  | [] => highest
  | n :: rest =>
      if is_nan n then NaN
      else
        let highest1 := if is_pos_zero n && is_neg_zero highest then pos_zero else highest in
        let highest2 := if ltb highest1 n then n else highest1 in
        max_loop highest2 rest
  end.

Definition Math_max (args : list number) : number := max_loop neg_infinity args.

(** [Math.round(x)] (ECMA-262, 21.3.2.28): the integral number closest to
    [x], ties towards [+Infinity]; NaN, the infinities and integral values
    are returned as they are; a result of zero keeps the sign of [x]. *)
Definition Math_round (x : number) : number :=
  match x with
  | S754_finite s m e =>
      if 0 <=? e then x
      else
        let k := Z.pow 2 (- e) in
        let v := cond_Zopp s (Zpos m) in
        let n := Z.div (2 * v + k) (2 * k) in
        binary_normalize prec emax n 0 s
  | _ => x
  end.

End JsNumber.
Import JsNumber.

(* ===================================================================== *)
(** * Data model (the interfaces of the source)                           *)
(* ===================================================================== *)

(** [interface PriceData { usd: number; usd_24h_change: number }] *)
Record PriceData := mkPriceData {
  usd : number;
  usd_24h_change : number
}.

(** [interface ChartData { timestamp: number; price: number; date?: string }] *)
Record ChartData := mkChartData {
  timestamp : number;
  price : number;
  date : option string
}.

(** [interface HistoricalData { date: string; price: number }] *)
Record HistoricalData := mkHistoricalData {
  hdate : string;
  hprice : number
}.

(* ===================================================================== *)
(** * Array methods used by the source                                    *)
(* ===================================================================== *)

(** [arr.reduce(f, init)]: a left-to-right fold from [init]. *)
Definition reduce {A B : Type} (f : B -> A -> B) (init : B) (arr : list A) : B :=
  fold_left f arr init.

(** [arr.filter((x, idx) => p(x, idx))]: the callback also sees the index. *)
Fixpoint filter_from {A : Type} (p : A -> nat -> bool) (idx : nat) (arr : list A) : list A :=
  match arr with
  | [] => []
  | x :: rest =>
      if p x idx then x :: filter_from p (S idx) rest
      else filter_from p (S idx) rest
  end.

Definition filter_idx {A : Type} (p : A -> nat -> bool) (arr : list A) : list A :=
  filter_from p 0%nat arr.

(* ===================================================================== *)
(** * Derived statistics (App.tsx, lines 122-124)                         *)
(* ===================================================================== *)

(** [chartData.length > 0 ? Math.min(...chartData.map(d => d.price)) : 0] *)
Definition minPrice (chartData : list ChartData) : number :=
  if (0 <? List.length chartData)%nat then Math_min (map price chartData) else of_Z 0.

(** [chartData.length > 0 ? Math.max(...chartData.map(d => d.price)) : 0] *)
Definition maxPrice (chartData : list ChartData) : number :=
  if (0 <? List.length chartData)%nat then Math_max (map price chartData) else of_Z 0.

(** [chartData.length > 0
       ? chartData.reduce((sum, d) => sum + d.price, 0) / chartData.length : 0] *)
Definition avgPrice (chartData : list ChartData) : number :=
  if (0 <? List.length chartData)%nat
  then div (reduce (fun sum d => add sum (price d)) (of_Z 0) chartData)
           (of_nat (List.length chartData))
  else of_Z 0.

(* ===================================================================== *)
(** * Values read from a response body                                    *)
(* ===================================================================== *)

(** What [response.json()] resolves with: a parsed JSON text.  [JUndefined]
    is never parsed but is what reading a missing property gives. *)
#[local] Set Warnings "-register-all".
Inductive JSValue : Type :=
| JUndefined
| JNull
| JBool (b : bool)
| JNumber (x : number)
| JString (s : string)
| JArray (items : list JSValue)
| JObject (fields : list (string * JSValue)).

(** The value bound to [key] in a parsed object (keys are unique there),
    [undefined] when there is none. *)
Fixpoint own_property (key : string) (fields : list (string * JSValue)) : JSValue :=
  match fields with
  | [] => JUndefined
  | (k, v) :: rest => if String.eqb k key then v else own_property key rest
  end.

(** [v.key] for a key that is no array index, no [length] and no method of
    a prototype (the source reads [ethereum], [usd], [usd_24h_change]):
    reading from [undefined] or [null] throws a TypeError ([None]); an
    object gives its own property; every other value gives [undefined]. *)
Definition get (v : JSValue) (key : string) : option JSValue :=
  match v with
  | JUndefined | JNull => None
  | JObject fields => Some (own_property key fields)
  | _ => Some JUndefined
  end.

(** The shape the source declares for the quote payload,
    [{ ethereum: PriceData }]. *)
Definition as_quote_payload (data : JSValue) : option PriceData :=
  match get data "ethereum" with
  | Some eth =>
      match get eth "usd", get eth "usd_24h_change" with
      | Some (JNumber u), Some (JNumber c) => Some (mkPriceData u c)
      | _, _ => None
      end
  | None => None
  end.

(** A thrown value, as far as [err instanceof Error ? err.message : ...]
    tells them apart. *)
Inductive Thrown : Type :=
| ErrorObject (message : string)
| OtherValue.

(** The body of the market-chart endpoint, at the type the source reads it
    at, [{ prices: [number, number][] }]: the series built from it are
    typed by [ChartData] and [HistoricalData].  A body is either of that
    type, or one on which [data.prices.map(...)] throws (no [prices]
    array), given with the value thrown.  A [prices] array with elements
    that are no pairs of numbers is outside this type; the Quote body below
    is kept untyped because the properties of the Quote fetcher speak of
    malformed bodies. *)
Inductive MarketChart : Type :=
| Prices (prices : list (number * number))
| NoPrices (err : Thrown).

(* ===================================================================== *)
(** * Outcomes of a request                                               *)
(* ===================================================================== *)

(** What [await response.json()] gives: the promise rejects (the body is
    no JSON text), or it resolves with a value of type [P]. *)
Inductive Body (P : Type) : Type :=
| JsonRejected (err : Thrown)
| Parsed (data : P).
Arguments JsonRejected {P} err.
Arguments Parsed {P} data.

Record Response (P : Type) := mkResponse {
  status : nat;
  body : Body P
}.
Arguments mkResponse {P} status body.
Arguments status {P} r.
Arguments body {P} r.

(** [response.ok]: the status is in the range 200-299. *)
Definition ok {P : Type} (r : Response P) : bool :=
  ((200 <=? status r) && (status r <=? 299))%nat.

(** What [await fetch(...)] gives: the promise rejects (network error) or
    resolves with a response. *)
Inductive FetchResult (P : Type) : Type :=
| Rejected (err : Thrown)
| Resolved (r : Response P).
Arguments Rejected {P} err.
Arguments Resolved {P} r.

Definition string_of_nat (n : nat) : string :=
  NilZero.string_of_uint (Nat.to_uint n).

(* ===================================================================== *)
(** * Component state (the [useState] slices, App.tsx lines 22-30)        *)
(* ===================================================================== *)

(** [ethPrice] and [priceChange24h] are declared [number | null]; they
    hold whatever the payload gave, so they are kept as JS values. *)
Record State := mkState {
  ethPrice : JSValue;
  priceChange24h : JSValue;
  loading : bool;
  error : option string;
  chartData : list ChartData;
  timeframe : string;
  lastUpdate : option number;
  historicalData : list HistoricalData;
  loadingHistory : bool
}.

Definition initialState : State := {|
  ethPrice := JNull;
  priceChange24h := JNull;
  loading := true;
  error := None;
  chartData := [];
  timeframe := "24h";
  lastUpdate := None;
  historicalData := [];
  loadingHistory := false
|}.

(** An entry of the diagnostic channel: [console.error(label, err)]. *)
Record LogEntry := mkLogEntry {
  label : string;
  logged : Thrown
}.

(** What a fetch routine can touch: the state slices and the console. *)
Record Store := mkStore {
  state : State;
  console : list LogEntry
}.

(* ===================================================================== *)
(** * A state and exception monad for the bodies of the routines          *)
(* ===================================================================== *)

Inductive Completion (A : Type) : Type :=
| Normal (a : A)
| Abrupt (err : Thrown).
Arguments Normal {A} a.
Arguments Abrupt {A} err.

Definition Eff (A : Type) : Type := Store -> Completion A * Store.

Definition ret {A : Type} (a : A) : Eff A := fun s => (Normal a, s).

Definition throw {A : Type} (err : Thrown) : Eff A := fun s => (Abrupt err, s).

Definition bind {A B : Type} (m : Eff A) (k : A -> Eff B) : Eff B :=
  fun s =>
    match m s with
    | (Normal a, s') => k a s'
    | (Abrupt err, s') => (Abrupt err, s')
    end.

Notation "x <- m ;; k" := (bind m (fun x => k))
  (at level 61, m at next level, right associativity).
Notation "m ;; k" := (bind m (fun _ => k))
  (at level 61, right associativity).

(** [try { body } catch (err) { handler }] *)
Definition try_catch (body : Eff unit) (handler : Thrown -> Eff unit) : Eff unit :=
  fun s =>
    match body s with
    | (Normal a, s') => (Normal a, s')
    | (Abrupt err, s') => handler err s'
    end.

(** [try { body } catch (err) { handler } finally { final }] *)
Definition try_catch_finally (body : Eff unit) (handler : Thrown -> Eff unit)
    (final : Eff unit) : Eff unit :=
  fun s =>
    match try_catch body handler s with
    | (c, s') =>
        match final s' with
        | (Normal _, s'') => (c, s'')
        | (Abrupt err, s'') => (Abrupt err, s'')
        end
    end.

Definition update (f : State -> State) : Eff unit :=
  fun s => (Normal tt, mkStore (f (state s)) (console s)).

(** The state setters.  A setter call is modelled as the write it
    schedules. *)
Definition setEthPrice (v : JSValue) : Eff unit :=
  update (fun s => mkState v (priceChange24h s) (loading s) (error s) (chartData s)
                     (timeframe s) (lastUpdate s) (historicalData s) (loadingHistory s)).
Definition setPriceChange24h (v : JSValue) : Eff unit :=
  update (fun s => mkState (ethPrice s) v (loading s) (error s) (chartData s)
                     (timeframe s) (lastUpdate s) (historicalData s) (loadingHistory s)).
Definition setLoading (v : bool) : Eff unit :=
  update (fun s => mkState (ethPrice s) (priceChange24h s) v (error s) (chartData s)
                     (timeframe s) (lastUpdate s) (historicalData s) (loadingHistory s)).
Definition setError (v : option string) : Eff unit :=
  update (fun s => mkState (ethPrice s) (priceChange24h s) (loading s) v (chartData s)
                     (timeframe s) (lastUpdate s) (historicalData s) (loadingHistory s)).
Definition setChartData (v : list ChartData) : Eff unit :=
  update (fun s => mkState (ethPrice s) (priceChange24h s) (loading s) (error s) v
                     (timeframe s) (lastUpdate s) (historicalData s) (loadingHistory s)).
Definition setTimeframe (v : string) : Eff unit :=
  update (fun s => mkState (ethPrice s) (priceChange24h s) (loading s) (error s) (chartData s)
                     v (lastUpdate s) (historicalData s) (loadingHistory s)).
Definition setLastUpdate (v : option number) : Eff unit :=
  update (fun s => mkState (ethPrice s) (priceChange24h s) (loading s) (error s) (chartData s)
                     (timeframe s) v (historicalData s) (loadingHistory s)).
Definition setHistoricalData (v : list HistoricalData) : Eff unit :=
  update (fun s => mkState (ethPrice s) (priceChange24h s) (loading s) (error s) (chartData s)
                     (timeframe s) (lastUpdate s) v (loadingHistory s)).
Definition setLoadingHistory (v : bool) : Eff unit :=
  update (fun s => mkState (ethPrice s) (priceChange24h s) (loading s) (error s) (chartData s)
                     (timeframe s) (lastUpdate s) (historicalData s) v).

(** [console.error(label, err)] *)
Definition console_error (lbl : string) (err : Thrown) : Eff unit :=
  fun s => (Normal tt, mkStore (state s) (console s ++ [mkLogEntry lbl err])).

(* ===================================================================== *)
(** * The fetch routines (App.tsx, lines 32-97)                           *)
(* ===================================================================== *)

(** The two endpoints; every request is a GET with [Accept: application/json]. *)
Definition simple_price_url : string :=
  "https://api.coingecko.com/api/v3/simple/price?ids=ethereum&vs_currencies=usd&include_24hr_change=true".

Definition market_chart_url (days : nat) : string :=
  ("https://api.coingecko.com/api/v3/coins/ethereum/market_chart?vs_currency=usd&days="
   ++ string_of_nat days)%string.

(** [timeframe === '24h' ? 1 : timeframe === '7d' ? 7 : 30] (line 55) *)
Definition days (timeframe : string) : nat :=
  if String.eqb timeframe "24h" then 1%nat
  else if String.eqb timeframe "7d" then 7%nat
  else 30%nat.

(** [(_, idx) => idx % 30 === 0] *)
Definition every_30th {A : Type} (_ : A) (idx : nat) : bool :=
  Nat.eqb (idx mod 30) 0.

(** [formattedData.filter((_, idx) => idx % 30 === 0)] (line 90) *)
Definition downsample {A : Type} (formattedData : list A) : list A :=
  filter_idx every_30th formattedData.

Section Routines.

(** Host-dependent texts: the message of the TypeError raised by reading
    property [key] of [undefined] or [null], and
    [new Date(t).toLocaleDateString('en-US', { month: 'short', year: '2-digit' })]. *)
Variable cannotRead : string -> string.
Variable toLocaleDateString : number -> string.

(** [v.key] inside a routine. *)
Definition read (v : JSValue) (key : string) : Eff JSValue :=
  match get v key with
  | Some x => ret x
  | None => throw (ErrorObject (cannotRead key))
  end.

(** [if (!response.ok) throw new Error(`HTTP error! status: ${response.status}`)] *)
Definition check_ok {P : Type} (response : Response P) : Eff unit :=
  if negb (ok response)
  then throw (ErrorObject ("HTTP error! status: " ++ string_of_nat (status response))%string)
  else ret tt.

(** [await response.json()] *)
Definition json {P : Type} (response : Response P) : Eff P :=
  match body response with
  | JsonRejected err => throw err
  | Parsed data => ret data
  end.

(** [await fetch(...)] once the request has settled with [res]. *)
Definition fetched {P : Type} (res : FetchResult P) : Eff (Response P) :=
  match res with
  | Rejected err => throw err
  | Resolved response => ret response
  end.

(** [fetchEthPrice] (lines 32-51), from the point where its request has
    settled with [res] (the outcome of [await fetch(...)] and, for a
    response, of [await response.json()]); [now] is what [new Date()] gives
    then.  Nothing of the routine runs before that point but the call of
    [fetch], and nothing between the two [await]s. *)
Definition fetchEthPrice (res : FetchResult JSValue) (now : number) : Eff unit :=
  try_catch
    (response <- fetched res ;;
     check_ok response ;;
     data <- json response ;;
     ethereum <- read data "ethereum" ;;
     usd <- read ethereum "usd" ;;
     setEthPrice usd ;;
     ethereum' <- read data "ethereum" ;;
     change <- read ethereum' "usd_24h_change" ;;
     setPriceChange24h change ;;
     setLastUpdate (Some now) ;;
     setError None)
    (fun err =>
       let errorMsg :=
         match err with
         | ErrorObject message => message
         | OtherValue => "Failed to fetch ETH price"%string
         end in
       setError (Some ("Error: " ++ errorMsg ++ ". Retrying...")%string) ;;
       console_error "Fetch error:" err).

(** [data.prices.map(f)] on the market-chart body. *)
Definition map_prices {A : Type} (data : MarketChart) (f : number * number -> A)
  : Eff (list A) :=
  match data with
  | Prices prices => ret (map f prices)
  | NoPrices err => throw err
  end.

(** [fetchChartData] (lines 53-72), from the point where its request, sent
    to [market_chart_url (days timeframe)], has settled with [res]. *)
Definition fetchChartData (res : FetchResult MarketChart) : Eff unit :=
  try_catch
    (response <- fetched res ;;
     check_ok response ;;
     data <- json response ;;
     formattedData <- map_prices data
       (fun price => {| timestamp := fst price; price := snd price; date := None |}) ;;
     setChartData formattedData)
    (fun err => console_error "Failed to fetch chart data:" err).

(** The callback of [data.prices.map(...)] in [fetchHistoricalData]
    (lines 85-88):
    [{ date: new Date(price[0]).toLocaleDateString(...),
       price: Math.round(price[1] * 100) / 100 }] *)
Definition historical_point (price : number * number) : HistoricalData :=
  {| hdate := toLocaleDateString (fst price);
     hprice := div (Math_round (mul (snd price) (of_Z 100))) (of_Z 100) |}.

(** [fetchHistoricalData] (lines 74-97) up to its [await fetch(...)]. *)
Definition fetchHistoricalData_begin : Eff unit :=
  setLoadingHistory true.

(** [fetchHistoricalData] from the point where its request, sent to
    [market_chart_url 3650], has settled with [res]. *)
Definition fetchHistoricalData (res : FetchResult MarketChart) : Eff unit :=
  try_catch_finally
    (response <- fetched res ;;
     check_ok response ;;
     data <- json response ;;
     formattedData <- map_prices data historical_point ;;
     let downsampled := downsample formattedData in
     setHistoricalData downsampled)
    (fun err => console_error "Failed to fetch historical data:" err)
    (setLoadingHistory false).

(* =================================================================== *)
(** * The component over time: effects, timer, clicks and settled
      requests (App.tsx, lines 99-120 and the handlers of the view)     *)
(* =================================================================== *)

Inductive Fetcher : Type :=
| QuoteFetcher
| ShortTermFetcher (closure_timeframe : string)
| HistoricalFetcher.

(** Who called the routine: [initializeData], which awaits it, or a caller
    that drops the promise (the interval, the Retry button, the
    [timeframe] effect). *)
Inductive Caller : Type := Awaited | Detached.

Record Task := mkTask {
  fetcher : Fetcher;
  caller : Caller
}.

Definition request_url (f : Fetcher) : string :=
  match f with
  | QuoteFetcher => simple_price_url
  | ShortTermFetcher tf => market_chart_url (days tf)
  | HistoricalFetcher => market_chart_url 3650
  end.

Inductive Action : Type :=
| Started (t : Task)
| Finished (t : Task).

(** The running component: its store, the requests in flight (each with
    the routine suspended on it) and the record of the routines started
    and finished so far. *)
Record World := mkWorld {
  store : Store;
  mounted : bool;
  pending : list Task;
  history : list Action
}.

Definition initialWorld : World := {|
  store := mkStore initialState [];
  mounted := false;
  pending := [];
  history := []
|}.

Inductive Settlement : Type :=
| QuoteSettled (res : FetchResult JSValue) (now : number)
| SeriesSettled (res : FetchResult MarketChart).

Inductive Event : Type :=
| Mount
| Tick
| ClickRetry
| ClickTimeframe (tf : string)
| Settle (i : nat) (x : Settlement).

(** Run a synchronous piece of a routine on the world's store. *)
Definition exec (m : Eff unit) (w : World) : Completion unit * World :=
  match m (store w) with
  | (c, st) => (c, mkWorld st (mounted w) (pending w) (history w))
  end.

(** Call a routine: it runs up to its [await fetch(...)] and is suspended
    on the request. *)
Definition start (t : Task) (w : World) : World :=
  let w1 :=
    match fetcher t with
    | HistoricalFetcher => snd (exec fetchHistoricalData_begin w)
    | _ => w
    end in
  mkWorld (store w1) (mounted w1) (pending w1 ++ [t]) (history w1 ++ [Started t]).

(** The rest of [initializeData] (lines 102-107) after the awaited
    routine [f] has returned.  The [fetchChartData] it calls is the one of
    the first render, whose [timeframe] is the initial one. *)
Definition initializeData_resume (f : Fetcher) (w : World) : World :=
  match f with
  | QuoteFetcher => start (mkTask (ShortTermFetcher (timeframe initialState)) Awaited) w
  | ShortTermFetcher _ => start (mkTask HistoricalFetcher Awaited) w
  | HistoricalFetcher => snd (exec (setLoading false) w)
  end.

Fixpoint remove_nth {A : Type} (i : nat) (l : list A) : list A :=
  match i, l with
  | _, [] => []
  | O, _ :: rest => rest
  | S j, x :: rest => x :: remove_nth j rest
  end.

(** The routine suspended as task [t], resumed with the settlement [x];
    [None] when the settlement is not of the task's endpoint. *)
Definition resume (t : Task) (x : Settlement) : option (Eff unit) :=
  match fetcher t, x with
  | QuoteFetcher, QuoteSettled res now => Some (fetchEthPrice res now)
  | ShortTermFetcher _, SeriesSettled res => Some (fetchChartData res)
  | HistoricalFetcher, SeriesSettled res => Some (fetchHistoricalData res)
  | _, _ => None
  end.

Definition is_timeframe (tf : string) : bool :=
  String.eqb tf "24h" || String.eqb tf "7d" || String.eqb tf "30d".

(** One turn of the event loop; [None] when the event cannot happen. *)
Definition step (w : World) (e : Event) : option World :=
  match e with
  | Mount =>
      if mounted w then None
      else
        (* first effect: setLoading(true); initializeData(); setInterval(...) *)
        let w1 := snd (exec (setLoading true) w) in
        let w2 := start (mkTask QuoteFetcher Awaited) w1 in
        (* second effect: fetchChartData() *)
        let w3 := start (mkTask (ShortTermFetcher (timeframe (state (store w2)))) Detached) w2 in
        Some (mkWorld (store w3) true (pending w3) (history w3))
  | Tick | ClickRetry =>
      if mounted w then Some (start (mkTask QuoteFetcher Detached) w) else None
  | ClickTimeframe tf =>
      if mounted w && is_timeframe tf then
        let changed := negb (String.eqb tf (timeframe (state (store w)))) in
        let w1 := snd (exec (setTimeframe tf) w) in
        (* the [timeframe] effect runs when the value has changed *)
        Some (if changed then start (mkTask (ShortTermFetcher tf) Detached) w1 else w1)
      else None
  | Settle i x =>
      match nth_error (pending w) i with
      | Some t =>
          match resume t x with
          | Some routine =>
              let w0 := mkWorld (store w) (mounted w) (remove_nth i (pending w)) (history w) in
              let (c, w1) := exec routine w0 in
              let w2 := mkWorld (store w1) (mounted w1) (pending w1) (history w1 ++ [Finished t]) in
              match caller t, c with
              | Awaited, Normal _ => Some (initializeData_resume (fetcher t) w2)
              | _, _ => Some w2
              end
          | None => None
          end
      | None => None
      end
  end.

(** A run: the events are taken in order; [None] when one cannot happen. *)
Fixpoint run (w : World) (events : list Event) : option World :=
  match events with
  | [] => Some w
  | e :: rest =>
      match step w e with
      | Some w' => run w' rest
      | None => None
      end
  end.

Definition reachable (w : World) : Prop :=
  exists events, run initialWorld events = Some w.

(* =================================================================== *)
(** * The view (App.tsx, lines 126-271), as far as it selects content   *)
(* =================================================================== *)

(** What the historical section shows (lines 223-261). *)
Inductive HistoricalSection : Type :=
| HistoryLoading                               (* "Loading 10-year data..." *)
| HistoryChart (data : list HistoricalData)
| HistoryFailed.                               (* "Failed to load historical data" *)

Definition historicalSection (s : State) : HistoricalSection :=
  if loadingHistory s then HistoryLoading
  else if (0 <? List.length (historicalData s))%nat then HistoryChart (historicalData s)
  else HistoryFailed.

(** The block under [ethPrice !== null && (...)] (lines 142-264). *)
Record DataBlock := mkDataBlock {
  high : number;
  low : number;
  average : number;
  history_section : HistoricalSection
}.

Record View := mkView {
  loading_banner : bool;
  error_banner : option string;
  data_block : option DataBlock
}.

(** [error && (...)]: a non-empty string. *)
Definition truthy (e : option string) : option string :=
  match e with
  | Some EmptyString => None
  | other => other
  end.

(** [fields] has an own property [key].  For a parsed JSON text no own
    property is callable, so an own [toString] or [toLocaleString] makes a
    call of that method throw a TypeError. *)
Definition has_own (key : string) (fields : list (string * JSValue)) : bool :=
  existsb (fun field => String.eqb (fst field) key) fields.

(** [v.toLocaleString('en-US', {...})] returns (line 148; no throw).
    [undefined] has no properties ([null] does not get to line 148).
    Booleans, numbers and strings have the method of their prototype.  An object inherits
    [Object.prototype.toLocaleString], which calls [this.toString()], unless
    it has an own [toLocaleString]; both calls throw when the property is
    an own one.  An array formats each element that is not [null] or
    [undefined] with the element's [toLocaleString]. *)
Fixpoint price_formats (v : JSValue) : bool :=
  match v with
  | JUndefined | JNull => false
  | JBool _ | JNumber _ | JString _ => true
  | JArray items =>
      forallb (fun item =>
                 match item with
                 | JUndefined | JNull => true
                 | _ => price_formats item
                 end) items
  | JObject fields =>
      negb (has_own "toLocaleString" fields) && negb (has_own "toString" fields)
  end.

(** [v >= 0] and [Math.abs(v).toFixed(2)] return (lines 150-151; no
    throw).  Both convert [v] to a number; only the conversion of an object
    to a primitive can throw.  An object is converted by [valueOf], which
    gives no primitive (the inherited one returns the object, an own one
    is not callable), and then by [toString]: the inherited one returns a
    string, an own one is not callable, and the conversion throws.  An
    array is converted by [join], which converts each element that is not
    [null] or [undefined] to a string, an object by its [toString]. *)
Fixpoint change_formats (v : JSValue) : bool :=
  match v with
  | JArray items => forallb change_formats items
  | JObject fields => negb (has_own "toString" fields)
  | _ => true
  end.

(** The render: [None] when it throws.  The data block is rendered for
    every stored price but [null]; evaluating it throws when the price
    cannot be formatted (line 148) or the 24h change cannot be compared
    (lines 150-151).  A number is formatted, and a number, [null] or
    [undefined] is compared, without a throw. *)
Definition render (s : State) : option View :=
  let block :=
    {| high := maxPrice (chartData s);
       low := minPrice (chartData s);
       average := avgPrice (chartData s);
       history_section := historicalSection s |} in
  match ethPrice s with
  | JNull =>
      Some {| loading_banner := loading s;
              error_banner := truthy (error s);
              data_block := None |}
  | price =>
      if price_formats price && change_formats (priceChange24h s)
      then Some {| loading_banner := loading s;
                   error_banner := truthy (error s);
                   data_block := Some block |}
      else None
  end.

End Routines.

(* ===================================================================== *)
(** * Notions the properties are stated with                              *)
(* ===================================================================== *)

(** [m] is a least (greatest) element of [xs]. *)
Definition is_minimum (m : number) (xs : list number) : Prop :=
  In m xs /\ forall x, In x xs -> leb m x = true.

Definition is_maximum (m : number) (xs : list number) : Prop :=
  In m xs /\ forall x, In x xs -> leb x m = true.

Definition no_nan (xs : list number) : Prop :=
  Forall (fun x => is_nan x = false) xs.

(** The least exponent of binary64: every finite number is a multiple of
    [2^emin]. *)
Definition emin : Z := SpecFloat.emin prec emax.

(** [(-1)^s * m * 2^e]; zero for the zeros. *)
Definition exact (x : number) : Q :=
  match x with
  | S754_finite s m e => (inject_Z (cond_Zopp s (Zpos m)) * 2 ^ e)%Q
  | _ => 0%Q
  end.

(** The same value counted in units of [2^emin]. *)
Definition units (x : number) : Z :=
  match x with
  | S754_finite s m e => cond_Zopp s (Zpos m) * 2 ^ (e - emin)
  | _ => 0
  end.

Definition finite_number (x : number) : bool := is_number x && is_finite x.

(** The exact sum and the exact arithmetic mean of a list of numbers. *)
Definition exact_sum (xs : list number) : Q :=
  fold_right (fun x acc => exact x + acc)%Q 0%Q xs.

Definition exact_mean (xs : list number) : Q :=
  (exact_sum xs / inject_Z (Z.of_nat (List.length xs)))%Q.

(** [ceil(n / d)] on naturals. *)
Definition ceil_div (n d : nat) : nat := ((n + (d - 1)) / d)%nat.

(** No addition of [xs] to the running sum [acc], taken in order, rounds or
    overflows: each gives a finite number whose value is the exact sum of
    its operands. *)
Fixpoint adds_exactly (acc : number) (xs : list number) : bool :=
  match xs with
  | [] => true
  | x :: rest =>
      is_finite (add acc x)
      && Qeq_bool (exact (add acc x)) (exact acc + exact x)
      && adds_exactly (add acc x) rest
  end.

(** The mean of [xs] is computed without rounding: no addition rounds, and
    the division of the total by the count gives a finite number whose
    value is the exact quotient. *)
Definition computed_exactly (xs : list number) : bool :=
  let total := fold_left add xs (of_Z 0) in
  let count := of_nat (List.length xs) in
  adds_exactly (of_Z 0) xs
  && is_finite (div total count)
  && Qeq_bool (exact (div total count))
       (exact total / inject_Z (Z.of_nat (List.length xs))).

(** [hay] contains [needle]. *)
Definition contains (needle hay : string) : Prop :=
  exists pre post, hay = (pre ++ needle ++ post)%string.

(** The text the [catch] block of [fetchEthPrice] shows for a thrown value. *)
Definition shown_message (err : Thrown) : string :=
  match err with
  | ErrorObject message => message
  | OtherValue => "Failed to fetch ETH price"
  end.

(** The three kinds of failing Quote fetch the specification lists: a
    network error, a status outside 200-299, a malformed payload (a body
    that is no JSON text, or one that is not of the declared shape
    [{ ethereum: { usd: number, usd_24h_change: number } }]). *)
Definition quote_fetch_fails (res : FetchResult JSValue) : bool :=
  match res with
  | Rejected _ => true
  | Resolved r =>
      if ok r then
        match body r with
        | JsonRejected _ => true
        | Parsed data =>
            match as_quote_payload data with
            | Some _ => false
            | None => true
            end
        end
      else true
  end.

(** The body has no [ethereum] member to read [usd] from. *)
Definition lacks_ethereum (data : JSValue) : bool :=
  match get data "ethereum" with
  | None | Some JUndefined | Some JNull => true
  | Some _ => false
  end.

(** The failing Quote fetches that the routine notices: a network error,
    a status outside 200-299, a body that is no JSON text, a body without
    an [ethereum] member. *)
Definition quote_fetch_throws (res : FetchResult JSValue) : bool :=
  match res with
  | Rejected _ => true
  | Resolved r =>
      if ok r then
        match body r with
        | JsonRejected _ => true
        | Parsed data => lacks_ethereum data
        end
      else true
  end.

(** A failing series fetch: a network error, a status outside 200-299, a
    body that is no JSON text, a body without a [prices] array. *)
Definition series_fetch_fails (res : FetchResult MarketChart) : bool :=
  match res with
  | Rejected _ => true
  | Resolved r =>
      if ok r then
        match body r with
        | JsonRejected _ => true
        | Parsed (NoPrices _) => true
        | Parsed (Prices _) => false
        end
      else true
  end.

(** The numbers of a list are in ascending order. *)
Fixpoint ascending (ts : list number) : bool :=
  match ts with
  | [] => true
  | t :: rest =>
      match rest with
      | [] => true
      | t' :: _ => leb t t' && ascending rest
      end
  end.

(** The three routines as [initializeData] calls and awaits them. *)
Definition quote_task : Task := mkTask QuoteFetcher Awaited.
Definition chart_task : Task := mkTask (ShortTermFetcher "24h") Awaited.
Definition history_task : Task := mkTask HistoricalFetcher Awaited.

(** The startup sequence: each routine finishes before the next starts. *)
Definition startup_sequence : list Action :=
  [ Started quote_task; Finished quote_task;
    Started chart_task; Finished chart_task;
    Started history_task; Finished history_task ].

Definition is_awaited (t : Task) : bool :=
  match caller t with Awaited => true | Detached => false end.

Definition task_of (a : Action) : Task :=
  match a with Started t | Finished t => t end.

(** The part of a world's record that is the work of [initializeData]. *)
Definition awaited_actions (h : list Action) : list Action :=
  filter (fun a => is_awaited (task_of a)) h.

(** What [initializeData] goes on to start once the awaited routine of
    task [t] has returned. *)
Definition started_next (t : Task) : list Action :=
  match fetcher t with
  | QuoteFetcher => [Started chart_task]
  | ShortTermFetcher _ => [Started history_task]
  | HistoricalFetcher => []
  end.

(** How far [initializeData] has come. *)
Inductive Stage : Type :=
| NotMounted
| AwaitingQuote
| AwaitingChart
| AwaitingHistory
| AllReturned.

(** How many actions of the startup sequence have happened at a stage. *)
Definition stage_actions (st : Stage) : nat :=
  match st with
  | NotMounted => 0
  | AwaitingQuote => 1
  | AwaitingChart => 3
  | AwaitingHistory => 5
  | AllReturned => 6
  end.

(** The routine [initializeData] is suspended on. *)
Definition stage_pending (st : Stage) : list Task :=
  match st with
  | NotMounted | AllReturned => []
  | AwaitingQuote => [quote_task]
  | AwaitingChart => [chart_task]
  | AwaitingHistory => [history_task]
  end.

Definition next_stage (st : Stage) : Stage :=
  match st with
  | NotMounted => AwaitingQuote
  | AwaitingQuote => AwaitingChart
  | AwaitingChart => AwaitingHistory
  | AwaitingHistory | AllReturned => AllReturned
  end.

(** The facts that hold of a world at a stage. *)
Definition at_stage (st : Stage) (w : World) : Prop :=
  mounted w = match st with NotMounted => false | _ => true end /\
  awaited_actions (history w) = firstn (stage_actions st) startup_sequence /\
  filter is_awaited (pending w) = stage_pending st /\
  (forall t, In t (pending w) -> fetcher t = HistoricalFetcher -> caller t = Awaited) /\
  loading (state (store w)) = match st with AllReturned => false | _ => true end /\
  loadingHistory (state (store w))
    = match st with AwaitingHistory => true | _ => false end /\
  (st = AllReturned \/ historicalData (state (store w)) = []).

(** What the view shows in the historical section; [None] when the
    section is not rendered. *)
Definition rendered_history (s : State) : option HistoricalSection :=
  match render s with
  | Some v => option_map history_section (data_block v)
  | None => None
  end.

(** The Quote is absent, or it is fully populated. *)
Definition quote_absent (s : State) : Prop :=
  ethPrice s = JNull /\ priceChange24h s = JNull.

Definition quote_populated (s : State) : Prop :=
  exists p c, ethPrice s = JNumber p /\ priceChange24h s = JNumber c.

(** Both fields hold what the [ethereum] member of the body delivered by
    the event [e] gave. *)
Definition quote_from (e : Event) (s : State) : Prop :=
  exists i r data ethereum now,
    e = Settle i (QuoteSettled (Resolved r) now) /\
    ok r = true /\
    body r = Parsed data /\
    get data "ethereum" = Some ethereum /\
    get ethereum "usd" = Some (ethPrice s) /\
    get ethereum "usd_24h_change" = Some (priceChange24h s).

(** The event delivers no Quote body with a 2xx status other than one of
    the declared shape
    [{ ethereum: { usd: number, usd_24h_change: number } }]. *)
Definition of_declared_shape (e : Event) : Prop :=
  match e with
  | Settle _ (QuoteSettled (Resolved r) _) =>
      match body r with
      | Parsed data => ok r = true -> as_quote_payload data <> None
      | JsonRejected _ => True
      end
  | _ => True
  end.

(* ===================================================================== *)
(** * Sample inputs                                                       *)
(* ===================================================================== *)

Definition point (t p : number) : ChartData :=
  {| timestamp := t; price := p; date := None |}.

(** [prices: [[1700000000000, 100], [1700003600000, 110]]] as a series. *)
Definition two_point_series : list ChartData :=
  [ point (of_Z 1700000000000) (of_Z 100);
    point (of_Z 1700003600000) (of_Z 110) ].

(** The number written [1800.1]: [0x1.c206666666666p+10]. *)
Definition n1800_1 : number := S754_finite false 7916923524638310 (-42).

(** The number written [1e308]: [0x1.1ccf385ebc8a0p+1023]. *)
Definition n1e308 : number := S754_finite false 5010420900022432 971.

(** Two points with the price 1e308. *)
Definition huge_series : list ChartData :=
  [ point (of_Z 1700000000000) n1e308;
    point (of_Z 1700003600000) n1e308 ].

(** Three points an hour apart, each with the price 1800.1. *)
Definition flat_series : list ChartData :=
  [ point (of_Z 1700000000000) n1800_1;
    point (of_Z 1700003600000) n1800_1;
    point (of_Z 1700007200000) n1800_1 ].

(** Host texts used in the examples. *)
Definition sample_cannotRead (key : string) : string :=
  ("Cannot read properties of undefined (reading '" ++ key ++ "')")%string.

Definition sample_toLocaleDateString (t : number) : string := "Jan 24".

(** 3650 daily points: the [i]-th has the price [i]. *)
Definition daily_prices : list (number * number) :=
  map (fun i => (of_Z (1400000000000 + 86400000 * Z.of_nat i), of_nat i))
      (seq 0 3650).

(** The number written [3000.5] and the number written [-2.25]. *)
Definition n3000_5 : number := S754_finite false 6598169278283776 (-41).
Definition n_2_25 : number := S754_finite true 5066549580791808 (-51).

(** [{ ethereum: { usd: 3000.5, usd_24h_change: -2.25 } }] *)
Definition full_quote_payload : JSValue :=
  JObject [("ethereum"%string,
            JObject [("usd"%string, JNumber n3000_5);
                     ("usd_24h_change"%string, JNumber n_2_25)])].

(** [{ ethereum: {} }] *)
Definition empty_quote_payload : JSValue :=
  JObject [("ethereum"%string, JObject [])].

(** [{ ethereum: { usd: 3000.5 } }] *)
Definition partial_quote_payload : JSValue :=
  JObject [("ethereum"%string, JObject [("usd"%string, JNumber n3000_5)])].

Definition ok_response {P : Type} (data : P) : FetchResult P :=
  Resolved (mkResponse 200 (Parsed data)).

(** The response to a rate-limited request. *)
Definition too_many_requests {P : Type} : FetchResult P :=
  Resolved (mkResponse 429 (JsonRejected (ErrorObject "Unexpected token"))).

(** A store in which a Quote is displayed. *)
Definition store_with_quote : Store :=
  {| state :=
       {| ethPrice := JNumber n3000_5;
          priceChange24h := JNumber n_2_25;
          loading := false;
          error := None;
          chartData := two_point_series;
          timeframe := "24h";
          lastUpdate := Some (of_Z 1700000000000);
          historicalData := [];
          loadingHistory := false |};
     console := [] |}.

Definition connection_lost {P : Type} : FetchResult P :=
  Rejected (ErrorObject "Failed to fetch").

(** The component is mounted while the network is down: the three awaited
    requests are rejected one after the other. *)
Definition offline_startup : list Event :=
  [ Mount;
    Settle 0 (QuoteSettled connection_lost (of_Z 1700000000000));
    Settle 1 (SeriesSettled connection_lost);
    Settle 1 (SeriesSettled connection_lost) ].

(** The component is mounted and the quote endpoint answers with a body
    that has a price but no 24h change. *)
Definition partial_quote_startup : list Event :=
  [ Mount;
    Settle 0 (QuoteSettled (ok_response partial_quote_payload) (of_Z 1700000000000)) ].

(** The component is mounted, the quote arrives, and the two series
    requests of [initializeData] are rejected. *)
Definition quote_only_startup : list Event :=
  [ Mount;
    Settle 0 (QuoteSettled (ok_response full_quote_payload) (of_Z 1700000000000));
    Settle 1 (SeriesSettled connection_lost);
    Settle 1 (SeriesSettled connection_lost) ].

Definition world_after (events : list Event) : World :=
  match run sample_cannotRead sample_toLocaleDateString initialWorld events with
  | Some w => w
  | None => initialWorld
  end.

(** The component is mounted, the quote and the short-term series arrive,
    and the historical request is still in flight. *)
Definition history_in_flight_startup : list Event :=
  [ Mount;
    Settle 0 (QuoteSettled (ok_response full_quote_payload) (of_Z 1700000000000));
    Settle 1 (SeriesSettled (ok_response
      (Prices [(of_Z 1700000000000, of_Z 100); (of_Z 1700003600000, of_Z 110)]))) ].

(** [{ ethereum: { usd: 3000.5, usd_24h_change: { toString: 1 } } }]: a
    24h change that cannot be converted to a number. *)
Definition unformattable_change_payload : JSValue :=
  JObject [("ethereum"%string,
            JObject [("usd"%string, JNumber n3000_5);
                     ("usd_24h_change"%string,
                      JObject [("toString"%string, JNumber (of_Z 1))])])].

(** [{ ethereum: { usd: "3000", usd_24h_change: -2.25 } }]: the price is
    a string. *)
Definition string_price_payload : JSValue :=
  JObject [("ethereum"%string,
            JObject [("usd"%string, JString "3000");
                     ("usd_24h_change"%string, JNumber n_2_25)])].

(** The component is mounted and the quote endpoint answers with [data];
    the short-term series arrives and the historical request is in
    flight. *)
Definition history_in_flight_after (data : JSValue) : list Event :=
  [ Mount;
    Settle 0 (QuoteSettled (ok_response data) (of_Z 1700000000000));
    Settle 1 (SeriesSettled (ok_response
      (Prices [(of_Z 1700000000000, of_Z 100); (of_Z 1700003600000, of_Z 110)]))) ].

(* ===================================================================== *)
(** * The short-term chart (App.tsx, lines 202-215)                       *)
(* ===================================================================== *)

(** The operator [-] on numbers. *)
Definition sub (x y : number) : number := SFsub prec emax x y.

(** [arr.map((x, idx) => f(x, idx))]: the callback also sees the index. *)
Fixpoint map_from {A B : Type} (f : A -> nat -> B) (idx : nat) (arr : list A) : list B :=
  match arr with
  | [] => []
  | x :: rest => f x idx :: map_from f (S idx) rest
  end.

Definition map_idx {A B : Type} (f : A -> nat -> B) (arr : list A) : list B :=
  map_from f 0%nat arr.

(** The two coordinates the callback of [chartData.map((d, idx) => ...)]
    computes (lines 206-207); the text [`${x},${y}`] it returns is built
    from them:
    [const x = (idx / (chartData.length - 1)) * 100]
    [const y = 50 - ((d.price - minPrice) / (maxPrice - minPrice)) * 50] *)
Definition polyline_x (chartData : list ChartData) (idx : nat) : number :=
  mul (div (of_nat idx) (sub (of_nat (List.length chartData)) (of_Z 1))) (of_Z 100).

Definition polyline_y (chartData : list ChartData) (d : ChartData) : number :=
  sub (of_Z 50)
      (mul (div (sub (price d) (minPrice chartData))
                (sub (maxPrice chartData) (minPrice chartData)))
           (of_Z 50)).

Definition polyline_points (chartData : list ChartData) : list (number * number) :=
  map_idx (fun d idx => (polyline_x chartData idx, polyline_y chartData d)) chartData.

(* ===================================================================== *)
(** * Further notions                                                     *)
(* ===================================================================== *)


(** The action starts a Historical routine. *)
Definition starts_history (a : Action) : bool :=
  match a with
  | Started t =>
      match fetcher t with HistoricalFetcher => true | _ => false end
  | Finished _ => false
  end.

(** A Short-Term routine holds one of the three timeframes. *)
Definition holds_timeframe (t : Task) : bool :=
  match fetcher t with
  | ShortTermFetcher tf => is_timeframe tf
  | _ => true
  end.

Definition detached_quote : Task := mkTask QuoteFetcher Detached.

(** The Quote shown, with its time, is the one the event [e] delivered. *)
Definition quote_stamped_by (e : Event) (s : State) : Prop :=
  exists i r now,
    e = Settle i (QuoteSettled (Resolved r) now) /\
    lastUpdate s = Some now /\
    quote_from e s.

(** A successful response of the market-chart endpoint. *)
Definition chart_response (status : nat) (ps : list (number * number))
  : FetchResult MarketChart :=
  Resolved (mkResponse status (Parsed (Prices ps))).

(** The series [fetchChartData] builds from the pairs of a response. *)
Definition series_of (ps : list (number * number)) : list ChartData :=
  map (fun pair => {| timestamp := fst pair; price := snd pair; date := None |}) ps.

(** No Historical routine is called by a caller that drops the promise. *)
Definition no_detached_history (t : Task) : bool :=
  match fetcher t, caller t with
  | HistoricalFetcher, Detached => false
  | _, _ => true
  end.

(** The tasks [initializeData] starts once the awaited task [t] returned. *)
Definition next_tasks (t : Task) : list Task :=
  match caller t with
  | Awaited => map task_of (started_next t)
  | Detached => []
  end.

(** The routines an event other than a settlement starts: the tasks the
    two effects, the interval and the buttons call. *)
Definition started_by (w : World) (e : Event) : list Task :=
  match e with
  | Mount =>
      [quote_task; mkTask (ShortTermFetcher (timeframe (state (store w)))) Detached]
  | Tick | ClickRetry => [detached_quote]
  | ClickTimeframe tf =>
      if String.eqb tf (timeframe (state (store w))) then []
      else [mkTask (ShortTermFetcher tf) Detached]
  | Settle _ _ => []
  end.

(** The response of the Quote request that settled last in a run, if one
    settled. *)
Fixpoint last_quote_result (events : list Event) : option (FetchResult JSValue) :=
  match events with
  | [] => None
  | e :: rest =>
      match last_quote_result rest, e with
      | Some res, _ => Some res
      | None, Settle _ (QuoteSettled res _) => Some res
      | None, _ => None
      end
  end.

(** The error slice after a Quote request has settled with [res]: the
    message of the [catch] block of [fetchEthPrice], or [null]. *)
Definition banner_of (res : FetchResult JSValue) (error : option string) : Prop :=
  if quote_fetch_throws res
  then exists err,
         error = Some ("Error: " ++ shown_message err ++ ". Retrying...")%string
  else error = None.



(** The chart request of the selected timeframe has been sent (nothing
    is sent before the mount). *)
Definition timeframe_requested (w : World) : Prop :=
  (mounted w = false /\ pending w = []) \/
  In (Started (mkTask (ShortTermFetcher (timeframe (state (store w)))) Detached))
     (history w).

(** A startup in which the three requests of [initializeData] are
    answered one after the other, while the chart request of the
    [timeframe] effect stays in flight. *)
Definition startup_answered (quote : FetchResult JSValue) (now : number)
    (chart history : FetchResult MarketChart) : list Event :=
  [ Mount;
    Settle 0 (QuoteSettled quote now);
    Settle 1 (SeriesSettled chart);
    Settle 1 (SeriesSettled history) ].

(** A property of tasks holds of the selected timeframe's requests, of
    every request in flight and of every routine started or finished. *)
Definition tasks_satisfy (P : Task -> bool) (w : World) : Prop :=
  is_timeframe (timeframe (state (store w))) = true /\
  Forall (fun t => P t = true) (pending w) /\
  Forall (fun a => P (task_of a) = true) (history w).

(* ===================================================================== *)
(** * Further sample inputs                                               *)
(* ===================================================================== *)

(** The user picks 7d and then 30d while both requests stay in flight. *)
Definition two_timeframes_startup : list Event :=
  [ Mount;
    Settle 0 (QuoteSettled (ok_response full_quote_payload) (of_Z 1700000000000));
    ClickTimeframe "7d";
    ClickTimeframe "30d" ].

(** The quote has arrived and [initializeData] waits for the Short-Term
    series. *)
Definition quote_arrived_startup : list Event :=
  [ Mount;
    Settle 0 (QuoteSettled (ok_response full_quote_payload) (of_Z 1700000000000)) ].

(** Two answers of the market-chart endpoint. *)
Definition week_prices : list (number * number) :=
  [ (of_Z 1699400000000, of_Z 1800); (of_Z 1700000000000, of_Z 2000) ].

Definition month_prices : list (number * number) :=
  [ (of_Z 1697400000000, of_Z 1600); (of_Z 1700000000000, of_Z 2000) ].

(** After a startup in which only the quote arrived: a tick whose request
    is rate-limited, a click on Retry whose request stays in flight, and
    the chart request of the mount, which succeeds. *)
Definition failed_refresh_run : list Event :=
  quote_only_startup ++
  [ Tick;
    Settle 1 (QuoteSettled too_many_requests (of_Z 1700000015000));
    ClickRetry;
    Settle 0 (SeriesSettled (ok_response (Prices week_prices))) ].

(** What the user does after a startup in which the historical request
    failed: a click on Retry, answered with a Quote, and a click on 7d,
    after which the chart request of the mount is answered. *)
Definition after_startup_events : list Event :=
  [ ClickRetry;
    Settle 1 (QuoteSettled (ok_response full_quote_payload) (of_Z 1700000015000));
    ClickTimeframe "7d";
    Settle 0 (SeriesSettled (ok_response (Prices week_prices))) ].


(* ===================================================================== *)
(** * The order of numbers                                                *)
(* ===================================================================== *)

Module NumberOrder.

Ltac split_compare :=
  repeat match goal with
    | H : context [Pos.compare_cont Eq ?a ?b] |- _ =>
        change (Pos.compare_cont Eq a b) with (Pos.compare a b) in H
    | |- context [Pos.compare_cont Eq ?a ?b] =>
        change (Pos.compare_cont Eq a b) with (Pos.compare a b)
    end;
  repeat match goal with
    | H : context [Z.compare ?a ?b] |- _ =>
        destruct (Z.compare_spec a b); simpl in H; try discriminate; try lia
    | |- context [Z.compare ?a ?b] =>
        destruct (Z.compare_spec a b); simpl; try reflexivity; try lia
    end;
  subst;
  repeat match goal with
    | H : context [Pos.compare ?a ?b] |- _ =>
        destruct (Pos.compare_spec a b); simpl in H; try discriminate; try lia
    | |- context [Pos.compare ?a ?b] =>
        destruct (Pos.compare_spec a b); simpl; try reflexivity; try lia
    end.

Ltac by_cases x :=
  destruct x as [[|]|[|]| |[|] ? ?]; simpl in *; try discriminate; try reflexivity.

Lemma leb_refl (x : number) : is_nan x = false -> leb x x = true.
Proof.
  unfold leb, SFleb, SFcompare. by_cases x; intros _; split_compare.
Qed.

Lemma ltb_leb (x y : number) : ltb x y = true -> leb x y = true.
Proof.
  unfold ltb, leb, SFltb, SFleb.
  destruct (SFcompare x y) as [[| |]|]; congruence.
Qed.

Lemma leb_total (x y : number) :
  is_nan x = false -> is_nan y = false -> ltb x y = false -> leb y x = true.
Proof.
  unfold ltb, leb, SFltb, SFleb, SFcompare.
  by_cases x; by_cases y; intros _ _ H; split_compare.
Qed.

Lemma leb_trans (x y z : number) :
  leb x y = true -> leb y z = true -> leb x z = true.
Proof.
  unfold leb, SFleb, SFcompare.
  by_cases x; by_cases y; by_cases z; intros H1 H2; split_compare.
Qed.

Lemma leb_not_nan (x y : number) :
  leb x y = true -> is_nan x = false /\ is_nan y = false.
Proof.
  unfold leb, SFleb, SFcompare. by_cases x; by_cases y; auto.
Qed.

(** Every number that is no NaN lies between the infinities. *)
Lemma leb_pos_infinity (x : number) : is_nan x = false -> leb x pos_infinity = true.
Proof. by_cases x. Qed.

Lemma neg_infinity_leb (x : number) : is_nan x = false -> leb neg_infinity x = true.
Proof. by_cases x. Qed.

End NumberOrder.

(* ===================================================================== *)
(** * What [Math.min] and [Math.max] return                               *)
(* ===================================================================== *)


Section MinMaxLoops.

Import NumberOrder.

(** One turn of the loop of [Math.min] keeps the smaller of the two. *)
Lemma min_turn (lowest n : number) :
  is_nan lowest = false -> is_nan n = false ->
  let lowest1 := if is_neg_zero n && is_pos_zero lowest then neg_zero else lowest in
  let lowest2 := if ltb n lowest1 then n else lowest1 in
  is_nan lowest2 = false /\ leb lowest2 lowest = true /\ leb lowest2 n = true
  /\ (lowest2 = lowest \/ lowest2 = n).
Proof.
  intros Hl Hn.
  destruct (is_neg_zero n && is_pos_zero lowest) eqn:Hz.
  - apply andb_prop in Hz as [Hz1 Hz2].
    destruct n as [[|]| | |]; try discriminate.
    destruct lowest as [[|]| | |]; try discriminate.
    simpl. auto.
  - cbv zeta. destruct (ltb n lowest) eqn:Hlt.
    + repeat split; auto using ltb_leb, leb_refl.
    + repeat split; auto using leb_total, leb_refl.
Qed.

Lemma min_loop_spec (xs : list number) : forall lowest,
  is_nan lowest = false -> no_nan xs ->
  let r := min_loop lowest xs in
  leb r lowest = true /\ (forall x, In x xs -> leb r x = true)
  /\ (r = lowest \/ In r xs).
Proof.
  induction xs as [|n rest IH]; intros lowest Hl Hxs.
  - simpl. split; [auto using leb_refl|]. split; [intros x []|auto].
  - inversion Hxs as [|? ? Hn Hrest]; subst.
    simpl. rewrite Hn.
    destruct (min_turn lowest n Hl Hn) as (Hnan & Hle1 & Hle2 & Hsel).
    cbv zeta in Hnan, Hle1, Hle2, Hsel.
    destruct (IH _ Hnan Hrest) as (Hr & Hall & Hin).
    cbv zeta in Hr, Hall, Hin.
    split; [eauto using leb_trans|].
    split.
    + intros x [<-|Hx]; eauto using leb_trans.
    + destruct Hin as [Hin|Hin]; [|auto].
      destruct Hsel as [Hsel|Hsel]; rewrite Hin, Hsel; auto.
Qed.

Lemma max_turn (highest n : number) :
  is_nan highest = false -> is_nan n = false ->
  let highest1 := if is_pos_zero n && is_neg_zero highest then pos_zero else highest in
  let highest2 := if ltb highest1 n then n else highest1 in
  is_nan highest2 = false /\ leb highest highest2 = true /\ leb n highest2 = true
  /\ (highest2 = highest \/ highest2 = n).
Proof.
  intros Hh Hn.
  destruct (is_pos_zero n && is_neg_zero highest) eqn:Hz.
  - apply andb_prop in Hz as [Hz1 Hz2].
    destruct n as [[|]| | |]; try discriminate.
    destruct highest as [[|]| | |]; try discriminate.
    simpl. auto.
  - cbv zeta. destruct (ltb highest n) eqn:Hlt.
    + repeat split; auto using ltb_leb, leb_refl.
    + repeat split; auto using leb_total, leb_refl.
Qed.

Lemma max_loop_spec (xs : list number) : forall highest,
  is_nan highest = false -> no_nan xs ->
  let r := max_loop highest xs in
  leb highest r = true /\ (forall x, In x xs -> leb x r = true)
  /\ (r = highest \/ In r xs).
Proof.
  induction xs as [|n rest IH]; intros highest Hh Hxs.
  - simpl. split; [auto using leb_refl|]. split; [intros x []|auto].
  - inversion Hxs as [|? ? Hn Hrest]; subst.
    simpl. rewrite Hn.
    destruct (max_turn highest n Hh Hn) as (Hnan & Hle1 & Hle2 & Hsel).
    cbv zeta in Hnan, Hle1, Hle2, Hsel.
    destruct (IH _ Hnan Hrest) as (Hr & Hall & Hin).
    cbv zeta in Hr, Hall, Hin.
    split; [eauto using leb_trans|].
    split.
    + intros x [<-|Hx]; eauto using leb_trans.
    + destruct Hin as [Hin|Hin]; [|auto].
      destruct Hsel as [Hsel|Hsel]; rewrite Hin, Hsel; auto.
Qed.

(** The first argument replaces the infinity the loop starts from. *)
Lemma Math_min_cons (n : number) (rest : list number) :
  is_nan n = false -> Math_min (n :: rest) = min_loop n rest.
Proof.
  intros Hn. unfold Math_min. simpl. rewrite Hn.
  destruct n as [[|]|[|]| |[|] m e]; try discriminate; reflexivity.
Qed.

Lemma Math_max_cons (n : number) (rest : list number) :
  is_nan n = false -> Math_max (n :: rest) = max_loop n rest.
Proof.
  intros Hn. unfold Math_max. simpl. rewrite Hn.
  destruct n as [[|]|[|]| |[|] m e]; try discriminate; reflexivity.
Qed.

Lemma Math_min_is_minimum (xs : list number) :
  xs <> [] -> no_nan xs -> is_minimum (Math_min xs) xs.
Proof.
  destruct xs as [|n rest]; [congruence|]. intros _ Hxs.
  inversion Hxs as [|? ? Hn Hrest]; subst.
  rewrite Math_min_cons by assumption.
  destruct (min_loop_spec rest n Hn Hrest) as (Hle & Hall & Hin).
  cbv zeta in Hle, Hall, Hin. split.
  - destruct Hin as [->|Hin]; [left|right]; auto.
  - intros x [<-|Hx]; auto.
Qed.

Lemma Math_max_is_maximum (xs : list number) :
  xs <> [] -> no_nan xs -> is_maximum (Math_max xs) xs.
Proof.
  destruct xs as [|n rest]; [congruence|]. intros _ Hxs.
  inversion Hxs as [|? ? Hn Hrest]; subst.
  rewrite Math_max_cons by assumption.
  destruct (max_loop_spec rest n Hn Hrest) as (Hle & Hall & Hin).
  cbv zeta in Hle, Hall, Hin. split.
  - destruct Hin as [->|Hin]; [left|right]; auto.
  - intros x [<-|Hx]; auto.
Qed.

(** With a NaN among the arguments both return NaN. *)
Lemma min_loop_nan (xs : list number) : forall lowest,
  Exists (fun x => is_nan x = true) xs -> min_loop lowest xs = NaN.
Proof.
  induction xs as [|n rest IH]; intros lowest H; inversion H; subst; simpl.
  - now rewrite H1.
  - destruct (is_nan n); auto.
Qed.

Lemma max_loop_nan (xs : list number) : forall highest,
  Exists (fun x => is_nan x = true) xs -> max_loop highest xs = NaN.
Proof.
  induction xs as [|n rest IH]; intros highest H; inversion H; subst; simpl.
  - now rewrite H1.
  - destruct (is_nan n); auto.
Qed.

Lemma Math_min_max_nan (xs : list number) :
  Exists (fun x => is_nan x = true) xs ->
  Math_min xs = NaN /\ Math_max xs = NaN.
Proof.
  intros H. split; [now apply min_loop_nan|now apply max_loop_nan].
Qed.

End MinMaxLoops.

(* ===================================================================== *)
(** * The rational a finite number stands for                             *)
(* ===================================================================== *)

Module Exact.

Import NumberOrder.


Lemma digits2_size (m : positive) : digits2_pos m = Pos.size m.
Proof. induction m; simpl; congruence. Qed.

Lemma size_bounds (m : positive) :
  Zpos m < 2 ^ Zpos (Pos.size m) <= 2 * Zpos m.
Proof.
  split.
  - rewrite <- Pos2Z.inj_pow. apply Pos2Z.pos_lt_pos, Pos.size_gt.
  - rewrite <- Pos2Z.inj_pow. change (2 * Zpos m) with (Zpos m~0).
    apply Pos2Z.pos_le_pos, Pos.size_le.
Qed.

(** What validity says of a mantissa and its exponent. *)
Lemma valid_finite (s : bool) (m : positive) (e : Z) :
  is_number (S754_finite s m e) = true ->
  emin <= e /\ Zpos m < 2 ^ prec /\ (emin < e -> 2 ^ (prec - 1) <= Zpos m).
Proof.
  unfold is_number, valid_binary, bounded, canonical_mantissa, fexp.
  fold emin. rewrite digits2_size.
  intros H. apply andb_prop in H as [H _]. apply Z.eqb_eq in H.
  pose proof (size_bounds m) as [Hlt Hle].
  pose proof (Pos2Z.is_pos (Pos.size m)) as Hpos.
  set (d := Zpos (Pos.size m)) in *.
  assert (Hd : d <= prec) by lia.
  split; [lia|]. split.
  - apply Z.lt_le_trans with (2 ^ d); [assumption|].
    apply Z.pow_le_mono_r; lia.
  - intros He. assert (Hd' : d = prec) by lia.
    assert (Hp : 2 ^ prec = 2 * 2 ^ (prec - 1)) by reflexivity.
    rewrite Hd', Hp in Hle. lia.
Qed.

Lemma pow_gap (a b : Z) : 0 <= a < b -> 2 * 2 ^ a <= 2 ^ b.
Proof.
  intros H. replace b with (Z.succ a + (b - a - 1)) by lia.
  rewrite Z.pow_add_r, Z.pow_succ_r by lia.
  assert (0 < 2 ^ a) by (apply Z.pow_pos_nonneg; lia).
  assert (1 <= 2 ^ (b - a - 1)) by (apply Z.lt_pred_le, Z.pow_pos_nonneg; lia).
  nia.
Qed.

(** Among valid mantissas the larger exponent wins. *)
Lemma exponent_decides (m1 m2 : positive) (e1 e2 : Z) (s1 s2 : bool) :
  is_number (S754_finite s1 m1 e1) = true ->
  is_number (S754_finite s2 m2 e2) = true ->
  e1 < e2 ->
  Zpos m1 * 2 ^ (e1 - emin) < Zpos m2 * 2 ^ (e2 - emin).
Proof.
  intros H1 H2 He.
  apply valid_finite in H1 as (Hmin1 & Hup1 & _).
  apply valid_finite in H2 as (Hmin2 & _ & Hlow2).
  specialize (Hlow2 ltac:(lia)).
  assert (Hp : 2 ^ prec = 2 * 2 ^ (prec - 1)) by reflexivity.
  pose proof (pow_gap (e1 - emin) (e2 - emin) ltac:(lia)) as Hgap.
  assert (0 < 2 ^ (e1 - emin)) by (apply Z.pow_pos_nonneg; lia).
  assert (0 < 2 ^ (prec - 1)) by (apply Z.pow_pos_nonneg; unfold prec; lia).
  set (P := 2 ^ (prec - 1)) in *. set (A := 2 ^ (e1 - emin)) in *.
  set (B := 2 ^ (e2 - emin)) in *.
  apply Z.lt_le_trans with (2 * P * A); [nia|].
  apply Z.le_trans with (P * B); nia.
Qed.

(** The order of the program is the order of the values. *)
Lemma leb_units (x y : number) :
  finite_number x = true -> finite_number y = true ->
  leb x y = true -> units x <= units y.
Proof.
  unfold finite_number. intros Hx Hy.
  apply andb_prop in Hx as [Vx Fx]. apply andb_prop in Hy as [Vy Fy].
  destruct x as [sx| | |sx mx ex]; try discriminate;
    destruct y as [sy| | |sy my ey]; try discriminate.
  - assert (0 <= 2 ^ (ey - emin)) by (apply Z.pow_nonneg; lia).
    destruct sy; cbv [leb SFleb SFcompare units cond_Zopp]; [discriminate|].
    intros _. nia.
  - assert (0 <= 2 ^ (ex - emin)) by (apply Z.pow_nonneg; lia).
    destruct sx; cbv [leb SFleb SFcompare units cond_Zopp]; [|discriminate].
    intros _. nia.
  - pose proof (exponent_decides mx my ex ey sx sy Vx Vy) as Hlt.
    pose proof (exponent_decides my mx ey ex sy sx Vy Vx) as Hgt.
    assert (0 <= 2 ^ (ex - emin)) by (apply Z.pow_nonneg; lia).
    assert (0 <= 2 ^ (ey - emin)) by (apply Z.pow_nonneg; lia).
    destruct sx, sy; cbv [leb SFleb SFcompare units cond_Zopp];
      try discriminate; try (intros _; nia);
      change (Pos.compare_cont Eq mx my) with (Pos.compare mx my);
      destruct (Z.compare_spec ex ey); try discriminate; subst;
      try (intros _; specialize (Hlt ltac:(lia)); nia);
      try (intros _; specialize (Hgt ltac:(lia)); nia);
      destruct (Pos.compare_spec mx my); cbv [CompOpp]; try discriminate;
      intros _; subst; nia.
Qed.

Lemma two_pow_pos (z : Z) : (0 < 2 ^ z)%Q.
Proof. apply Qpower_0_lt. reflexivity. Qed.

Lemma exact_units (x : number) :
  finite_number x = true -> (exact x == inject_Z (units x) * 2 ^ emin)%Q.
Proof.
  unfold finite_number. intros H. apply andb_prop in H as [V F].
  destruct x as [sx| | |s m e]; try discriminate; cbn [exact units];
    try (rewrite Qmult_0_l; reflexivity).
  apply valid_finite in V as (He & _).
  rewrite inject_Z_mult, Zpower_Qpower by lia.
  rewrite <- Qmult_assoc. apply Qmult_comp; [reflexivity|].
  change (inject_Z 2) with 2%Q.
  rewrite <- Qpower_plus by discriminate.
  replace (e - emin + emin) with e by lia. reflexivity.
Qed.

Lemma leb_exact (x y : number) :
  finite_number x = true -> finite_number y = true ->
  leb x y = true -> (exact x <= exact y)%Q.
Proof.
  intros Hx Hy Hle.
  rewrite (exact_units x Hx), (exact_units y Hy).
  apply Qmult_le_compat_r.
  - rewrite <- Zle_Qle. now apply leb_units.
  - apply Qlt_le_weak, two_pow_pos.
Qed.


Lemma exact_sum_lower (a : Q) (xs : list number) :
  (forall x, In x xs -> a <= exact x)%Q ->
  (a * inject_Z (Z.of_nat (List.length xs)) <= exact_sum xs)%Q.
Proof.
  induction xs as [|x rest IH]; intros H.
  - simpl. rewrite Qmult_0_r. apply Qle_refl.
  - cbn [List.length exact_sum fold_right]. rewrite Nat2Z.inj_succ.
    unfold Z.succ. rewrite inject_Z_plus.
    rewrite Qmult_plus_distr_r, Qmult_1_r, Qplus_comm.
    apply Qplus_le_compat; [apply H; now left|].
    apply IH. intros y Hy. apply H. now right.
Qed.

Lemma exact_sum_upper (b : Q) (xs : list number) :
  (forall x, In x xs -> exact x <= b)%Q ->
  (exact_sum xs <= b * inject_Z (Z.of_nat (List.length xs)))%Q.
Proof.
  induction xs as [|x rest IH]; intros H.
  - simpl. rewrite Qmult_0_r. apply Qle_refl.
  - cbn [List.length exact_sum fold_right]. rewrite Nat2Z.inj_succ.
    unfold Z.succ. rewrite inject_Z_plus.
    rewrite Qmult_plus_distr_r, Qmult_1_r, (Qplus_comm (b * _)).
    apply Qplus_le_compat; [apply H; now left|].
    apply IH. intros y Hy. apply H. now right.
Qed.

(** The exact mean of a non-empty list of finite numbers lies between
    the list's least and greatest elements. *)
Lemma exact_mean_between (lo hi : number) (xs : list number) :
  xs <> [] -> Forall (fun x => finite_number x = true) xs ->
  is_minimum lo xs -> is_maximum hi xs ->
  (exact lo <= exact_mean xs /\ exact_mean xs <= exact hi)%Q.
Proof.
  intros Hne Hfin [Hlo_in Hlo] [Hhi_in Hhi].
  rewrite Forall_forall in Hfin.
  assert (Hn : (0 < inject_Z (Z.of_nat (List.length xs)))%Q).
  { change 0%Q with (inject_Z 0). rewrite <- Zlt_Qlt.
    destruct xs; [congruence|simpl; lia]. }
  unfold exact_mean. split.
  - apply Qle_shift_div_l; [assumption|].
    apply exact_sum_lower. intros x Hx. apply leb_exact; auto.
  - apply Qle_shift_div_r; [assumption|].
    apply exact_sum_upper. intros x Hx. apply leb_exact; auto.
Qed.

End Exact.

(* ===================================================================== *)
(** * Derived statistics                                                  *)
(* ===================================================================== *)

Lemma reduce_prices (S : list ChartData) (init : number) :
  reduce (fun sum d => add sum (price d)) init S = fold_left add (map price S) init.
Proof.
  unfold reduce. revert init.
  induction S as [|d rest IH]; intros init; simpl; [reflexivity|apply IH].
Qed.

Lemma avgPrice_nonempty (S : list ChartData) :
  S <> [] ->
  avgPrice S
  = div (fold_left add (map price S) (of_Z 0)) (of_nat (List.length (map price S))).
Proof.
  intros Hne. unfold avgPrice.
  destruct S as [|d rest]; [congruence|].
  cbn [List.length Nat.ltb Nat.leb]. now rewrite reduce_prices, length_map.
Qed.

Lemma minPrice_nonempty (S : list ChartData) :
  S <> [] -> minPrice S = Math_min (map price S).
Proof. destruct S; [congruence|reflexivity]. Qed.

Lemma maxPrice_nonempty (S : list ChartData) :
  S <> [] -> maxPrice S = Math_max (map price S).
Proof. destruct S; [congruence|reflexivity]. Qed.

(** The statistics shown are those of the series in the state. *)
Lemma view_statistics (s : State) (v : View) (b : DataBlock) :
  render s = Some v -> data_block v = Some b ->
  low b = minPrice (chartData s) /\ high b = maxPrice (chartData s)
  /\ average b = avgPrice (chartData s).
Proof.
  unfold render. intros Hv Hb.
  destruct (ethPrice s); try destruct (price_formats _ && change_formats _);
    try discriminate; injection Hv as <-; cbn [data_block] in Hb;
    try discriminate; injection Hb as <-; repeat split.
Qed.

(** When no addition rounds, the running sum is the exact sum. *)
Lemma adds_exactly_sum (xs : list number) : forall acc,
  adds_exactly acc xs = true ->
  (exact (fold_left add xs acc) == exact acc + exact_sum xs)%Q.
Proof.
  induction xs as [|x rest IH]; intros acc H; cbn [fold_left exact_sum fold_right].
  - now rewrite Qplus_0_r.
  - cbn [adds_exactly] in H.
    apply andb_prop in H as [H Hrest]. apply andb_prop in H as [_ Hadd].
    apply Qeq_bool_eq in Hadd.
    rewrite (IH _ Hrest), Hadd. fold (exact_sum rest). now rewrite Qplus_assoc.
Qed.

Lemma div_eucl_mul_r (m k : Z) : 0 < k -> Z.div_eucl (m * k) k = (m, 0).
Proof.
  intros Hk.
  pose proof (Z_div_mult_full m k ltac:(lia)) as Hq.
  pose proof (Z_mod_mult m k) as Hr.
  unfold Z.div, Z.modulo in Hq, Hr.
  destruct (Z.div_eucl (m * k) k) as [q r]. cbn in *. congruence.
Qed.

(** Dividing a binary64 number by 1 gives the number. *)
Lemma div_one_finite (s : bool) (m : positive) (e : Z) :
  is_number (S754_finite s m e) = true ->
  div (S754_finite s m e) (of_Z 1) = S754_finite s m e.
Proof.
  unfold is_number, valid_binary, bounded, canonical_mantissa. intros H.
  apply andb_prop in H as [Hc He]. apply Z.eqb_eq in Hc. apply Z.leb_le in He.
  change (of_Z 1) with (S754_finite false 4503599627370496 (-52)).
  unfold div, SFdiv, SFdiv_core_binary.
  rewrite xorb_false_r.
  change (Zdigits2 4503599627370496) with 53.
  change (Zdigits2 (Z.pos m)) with (Z.pos (digits2_pos m)) in *.
  assert (Hloc : new_location 4503599627370496 0 = loc_Exact) by reflexivity.
  unfold fexp, SpecFloat.emin in Hc |- *. unfold prec, emax in Hc, He |- *.
  set (d := Z.pos (digits2_pos m)) in *.
  destruct (Z.eq_dec e (-1074)) as [->|Hne].
  - replace (Z.min (Z.max (d + -1074 - (53 + -52) - 53) (3 - 1024 - 53)) (-1074 - -52))
      with (-1074) by lia.
    change (-1074 - -52 - -1074) with 52. cbv iota beta.
    rewrite Z.shiftl_mul_pow2 by lia.
    change (2 ^ 52) with 4503599627370496.
    rewrite div_eucl_mul_r by lia. rewrite Hloc.
    unfold binary_round_aux, shr_fexp, shr_record_of_loc.
    change (Zdigits2 (Z.pos m)) with d.
    unfold fexp, SpecFloat.emin.
    replace (Z.max (d + -1074 - 53) (3 - 1024 - 53) - -1074) with 0 by lia.
    cbn [shr shr_m loc_of_shr_record round_nearest_even].
    change (Zdigits2 (Z.pos m)) with d.
    replace (Z.max (d + -1074 - 53) (3 - 1024 - 53) - -1074) with 0 by lia.
    cbn [shr shr_m]. reflexivity.
  - assert (Hd : d = 53) by lia.
    replace (Z.min (Z.max (d + e - (53 + -52) - 53) (3 - 1024 - 53)) (e - -52))
      with (e - 1) by lia.
    replace (e - -52 - (e - 1)) with 53 by lia. cbv iota beta.
    rewrite Z.shiftl_mul_pow2 by lia.
    change (2 ^ 53) with (2 * 4503599627370496).
    rewrite Z.mul_assoc.
    rewrite div_eucl_mul_r by lia. rewrite Hloc.
    unfold binary_round_aux, shr_fexp, shr_record_of_loc.
    replace (Z.pos m * 2) with (Z.pos m~0) by lia.
    change (Zdigits2 (Z.pos m~0)) with (Z.pos (Pos.succ (digits2_pos m))).
    rewrite Pos2Z.inj_succ. fold d.
    unfold fexp, SpecFloat.emin.
    replace (Z.max (Z.succ d + (e - 1) - 53) (3 - 1024 - 53) - (e - 1)) with 1 by lia.
    cbn [shr iter_pos shr_1 shr_m shr_r shr_s orb loc_of_shr_record round_nearest_even].
    change (Zdigits2 (Z.pos m)) with d.
    replace (e - 1 + 1) with e by lia.
    replace (Z.max (d + e - 53) (3 - 1024 - 53) - e) with 0 by lia.
    cbn [shr shr_m].
    apply Z.leb_le in He. change (1024 - 53) with 971 in *. rewrite He. reflexivity.
Qed.

(** The mean of a single price is the price; [-0] alone comes out as [+0],
    by the addition to the initial [0]. *)
Lemma avgPrice_single (d : ChartData) :
  is_number (price d) = true -> price d <> S754_zero true ->
  avgPrice [d] = price d.
Proof.
  intros Hv Hz. unfold avgPrice, reduce. cbn [List.length Nat.ltb Nat.leb fold_left].
  change (of_nat 1) with (of_Z 1). change (of_Z 0) with (S754_zero false).
  destruct (price d) as [[|]| [|] | |s m e]; try reflexivity; [congruence|].
  change (add (S754_zero false) (S754_finite s m e)) with (S754_finite s m e).
  now apply div_one_finite.
Qed.

(** C1, as stated, fails: the mean is not the arithmetic average of the
    price fields.  For three prices 1800.1 the average is 1800.1 and the
    mean computed is 1800.0999999999997; for two prices 1e308 the average
    is 1e308 and the mean computed is [Infinity]. *)
Lemma mean_not_average_counterexample :
  (exact_mean (map price flat_series) == exact n1800_1)%Q /\
  avgPrice flat_series = S754_finite false 7916923524638309 (-42) /\
  ~ (exact (avgPrice flat_series) == exact_mean (map price flat_series))%Q /\
  (exact_mean (map price huge_series) == exact n1e308)%Q /\
  avgPrice huge_series = pos_infinity.
Proof.
  split; [vm_compute; reflexivity|]. split; [vm_compute; reflexivity|].
  split; [intros H; vm_compute in H; discriminate|].
  split; vm_compute; reflexivity.
Qed.

(** C1, amended.  The statistics are functions of the series alone.  On
    the empty series all three are zero.  On a non-empty series (of prices
    that are numbers, as the prices of a JSON body are: none is NaN)
    [minPrice] is a least price of the series and [maxPrice] a greatest
    one.  [avgPrice] is the arithmetic average of the prices when no
    addition of its running sum and not its division rounds; for a single
    point it is the price.  (In general it is not the average: the
    additions and the division round.) *)
Theorem derived_statistics (S : list ChartData) :
  no_nan (map price S) ->
  match S with
  | [] => minPrice S = of_Z 0 /\ maxPrice S = of_Z 0 /\ avgPrice S = of_Z 0
  | d :: rest =>
      is_minimum (minPrice S) (map price S) /\
      is_maximum (maxPrice S) (map price S) /\
      (computed_exactly (map price S) = true ->
       (exact (avgPrice S) == exact_mean (map price S))%Q) /\
      (rest = [] -> is_number (price d) = true -> price d <> S754_zero true ->
       avgPrice S = price d)
  end.
Proof.
  intros Hnan. destruct S as [|d rest] eqn:E; [repeat split|].
  rewrite <- E in *. assert (Hne : S <> []) by (rewrite E; discriminate).
  assert (Hne' : map price S <> []) by (rewrite E; discriminate).
  rewrite minPrice_nonempty, maxPrice_nonempty by assumption.
  split; [|split; [|split]].
  - now apply Math_min_is_minimum.
  - now apply Math_max_is_maximum.
  - intros H. rewrite avgPrice_nonempty by assumption.
    unfold computed_exactly in H. cbv zeta in H.
    apply andb_prop in H as [H Hdiv]. apply andb_prop in H as [Hadd _].
    apply Qeq_bool_eq in Hdiv. rewrite Hdiv.
    rewrite (adds_exactly_sum _ _ Hadd). unfold exact_mean.
    change (exact (of_Z 0)) with 0%Q. now rewrite Qplus_0_l.
  - intros Hrest Hv Hz. rewrite E, Hrest. now apply avgPrice_single.
Qed.

(** The scenario of the specification: prices 100 and 110 give min 100,
    max 110 and mean 105, which is their average. *)
Lemma derived_statistics_witness :
  no_nan (map price two_point_series) /\
  computed_exactly (map price two_point_series) = true /\
  is_minimum (of_Z 100) (map price two_point_series) /\
  is_maximum (of_Z 110) (map price two_point_series) /\
  avgPrice two_point_series = of_Z 105 /\
  (exact (avgPrice two_point_series) == exact_mean (map price two_point_series))%Q.
Proof.
  assert (Hnan : no_nan (map price two_point_series))
    by (repeat constructor).
  assert (Hexact : computed_exactly (map price two_point_series) = true)
    by (vm_compute; reflexivity).
  pose proof (derived_statistics two_point_series Hnan) as (Hmin & Hmax & Havg & _).
  split; [exact Hnan|]. split; [exact Hexact|].
  split; [exact Hmin|]. split; [exact Hmax|].
  split; [vm_compute; reflexivity|exact (Havg Hexact)].
Defined.

(** C5, as stated, fails: the mean of three prices 1800.1 is computed as
    1800.0999999999997, which is below the least price. *)
Lemma mean_below_min_counterexample :
  flat_series <> [] /\
  Forall (fun d => finite_number (price d) = true) flat_series /\
  minPrice flat_series = n1800_1 /\
  maxPrice flat_series = n1800_1 /\
  avgPrice flat_series = S754_finite false 7916923524638309 (-42) /\
  ~ (leb (minPrice flat_series) (avgPrice flat_series) = true /\
     leb (avgPrice flat_series) (maxPrice flat_series) = true).
Proof.
  split; [discriminate|]. split; [repeat constructor|].
  split; [reflexivity|]. split; [reflexivity|]. split; [vm_compute; reflexivity|].
  intros [H _]. vm_compute in H. discriminate.
Qed.

Lemma finite_no_nan (xs : list number) :
  Forall (fun x => finite_number x = true) xs -> no_nan xs.
Proof.
  unfold no_nan. apply Forall_impl. intros x H.
  unfold finite_number in H. apply andb_prop in H as [_ H].
  destruct x; try discriminate; reflexivity.
Qed.

(** C5, amended.  On a non-empty series of prices that are numbers (none
    is NaN), [minPrice] and [maxPrice] are [Math.min] and [Math.max] over
    the price field, every price lies between them, and so
    [minPrice <= maxPrice]; when the prices are finite, the exact
    arithmetic mean of the prices lies between [minPrice] and [maxPrice].
    Nothing is said of [avgPrice], which rounds after every addition and
    after the division. *)
Theorem min_max_bracket_prices (S : list ChartData) :
  S <> [] -> no_nan (map price S) ->
  minPrice S = Math_min (map price S) /\
  maxPrice S = Math_max (map price S) /\
  (forall d, In d S ->
     leb (minPrice S) (price d) = true /\ leb (price d) (maxPrice S) = true) /\
  leb (minPrice S) (maxPrice S) = true /\
  (Forall (fun x => finite_number x = true) (map price S) ->
   (exact (minPrice S) <= exact_mean (map price S))%Q /\
   (exact_mean (map price S) <= exact (maxPrice S))%Q).
Proof.
  intros Hne Hnan.
  assert (Hne' : map price S <> []) by (destruct S; [congruence|discriminate]).
  rewrite minPrice_nonempty, maxPrice_nonempty by assumption.
  pose proof (Math_min_is_minimum _ Hne' Hnan) as Hmin.
  pose proof (Math_max_is_maximum _ Hne' Hnan) as Hmax.
  split; [reflexivity|]. split; [reflexivity|]. split; [|split].
  - intros d Hd. apply (in_map price) in Hd.
    split; [now apply Hmin|now apply Hmax].
  - destruct Hmin as [Hin Hlow]. now apply Hmax.
  - intros Hfin. now apply Exact.exact_mean_between.
Qed.

Lemma min_max_bracket_prices_witness :
  flat_series <> [] /\ no_nan (map price flat_series) /\
  Forall (fun x => finite_number x = true) (map price flat_series) /\
  leb (minPrice flat_series) (maxPrice flat_series) = true /\
  (exact (minPrice flat_series) <= exact_mean (map price flat_series))%Q /\
  (exact_mean (map price flat_series) <= exact (maxPrice flat_series))%Q.
Proof.
  assert (Hne : flat_series <> []) by discriminate.
  assert (Hfin : Forall (fun x => finite_number x = true) (map price flat_series))
    by (repeat constructor).
  assert (Hnan : no_nan (map price flat_series)) by (repeat constructor).
  pose proof (min_max_bracket_prices flat_series Hne Hnan) as (_ & _ & _ & Hle & Hex).
  specialize (Hex Hfin).
  split; [exact Hne|]. split; [exact Hnan|]. split; [exact Hfin|].
  split; [exact Hle|]. exact Hex.
Defined.

(* ===================================================================== *)
(** * Downsampling                                                        *)
(* ===================================================================== *)

Section Downsampling.

Context {A : Type}.

Local Open Scope nat_scope.

Lemma filter_from_app (p : A -> nat -> bool) (l1 l2 : list A) : forall i,
  filter_from p i (l1 ++ l2)
  = (filter_from p i l1 ++ filter_from p (i + List.length l1) l2)%list.
Proof.
  induction l1 as [|x l1 IH]; intros i; simpl.
  - now rewrite Nat.add_0_r.
  - rewrite IH. replace (S i + List.length l1) with (i + S (List.length l1)) by lia.
    now destruct (p x i).
Qed.

Lemma filter_from_none (p : A -> nat -> bool) (l : list A) : forall i,
  (forall x j, j < List.length l -> p x (i + j) = false) ->
  filter_from p i l = [].
Proof.
  induction l as [|x l IH]; intros i H; simpl; [reflexivity|].
  rewrite <- (Nat.add_0_r i) at 1. rewrite H by (simpl; lia).
  apply IH. intros y j Hj. replace (S i + j) with (i + S j) by lia.
  apply H. simpl. lia.
Qed.

Lemma filter_from_period (l : list A) : forall i,
  filter_from every_30th (30 + i) l = filter_from every_30th i l.
Proof.
  induction l as [|x l IH]; intros i; [reflexivity|].
  cbn [filter_from]. replace (S (30 + i)) with (30 + S i) by lia. rewrite IH.
  unfold every_30th.
  replace ((30 + i) mod 30) with (i mod 30); [reflexivity|].
  replace (30 + i) with (i + 1 * 30) by lia. now rewrite Nat.Div0.mod_add.
Qed.

(** The first element is kept, the next 29 are dropped, and the rest is
    downsampled in the same way. *)
Lemma downsample_cons (x : A) (rest : list A) :
  downsample (x :: rest) = x :: downsample (skipn 29 rest).
Proof.
  unfold downsample, filter_idx. cbn [filter_from].
  change (every_30th x 0) with true. cbv iota. f_equal.
  rewrite <- (firstn_skipn 29 rest) at 1.
  rewrite filter_from_app, filter_from_none.
  - cbn [app]. destruct (Nat.le_gt_cases 29 (List.length rest)) as [Hlen|Hlen].
    + rewrite length_firstn, Nat.min_l by assumption.
      apply (filter_from_period _ 0).
    + rewrite skipn_all2 by lia. destruct (firstn 29 rest); reflexivity.
  - intros y j Hj. rewrite length_firstn in Hj.
    unfold every_30th. apply Nat.eqb_neq. rewrite Nat.mod_small; lia.
Qed.

(** The [k]-th element kept is the element at index [30 * k]. *)
Lemma downsample_nth_error (k : nat) : forall l : list A,
  nth_error (downsample l) k = nth_error l (30 * k).
Proof.
  induction k as [|k IH]; intros [|x rest]; try reflexivity.
  rewrite downsample_cons. cbn [nth_error]. rewrite IH, nth_error_skipn.
  replace (30 * S k) with (S (29 + 30 * k)) by lia. reflexivity.
Qed.

Lemma downsample_length (l : list A) :
  List.length (downsample l) = ceil_div (List.length l) 30.
Proof.
  unfold ceil_div.
  remember (List.length (downsample l)) as n eqn:Hn.
  pose proof (downsample_nth_error n l) as Hout.
  rewrite (proj2 (nth_error_None _ _)) in Hout by lia.
  symmetry in Hout. apply nth_error_None in Hout.
  destruct n as [|n].
  - pose proof (downsample_nth_error 0 l) as Hin.
    rewrite (proj2 (nth_error_None _ _)) in Hin by lia.
    symmetry in Hin. apply nth_error_None in Hin.
    assert (List.length l = 0) as -> by lia. reflexivity.
  - assert (Hin : nth_error (downsample l) n <> None)
      by (apply nth_error_Some; lia).
    rewrite downsample_nth_error in Hin. apply nth_error_Some in Hin.
    apply Nat.div_unique with (r := List.length l + (30 - 1) - 30 * S n); lia.
Qed.

End Downsampling.

(** [ceil_div n 30] is the ceiling of [n / 30]. *)
Lemma ceil_div_30 (n : nat) :
  (n <= 30 * ceil_div n 30 < n + 30)%nat.
Proof.
  unfold ceil_div.
  pose proof (Nat.div_mod_eq (n + (30 - 1)) 30) as H.
  pose proof (Nat.mod_upper_bound (n + (30 - 1)) 30 ltac:(lia)).
  lia.
Qed.

Lemma fetchHistoricalData_success (toLocaleDateString : number -> string)
    (st : nat) (ps : list (number * number)) (s : Store) :
  ok (mkResponse st (Parsed (Prices ps))) = true ->
  fetchHistoricalData toLocaleDateString
    (Resolved (mkResponse st (Parsed (Prices ps)))) s
  = (Normal tt,
     mkStore
       (mkState (ethPrice (state s)) (priceChange24h (state s)) (loading (state s))
          (error (state s)) (chartData (state s)) (timeframe (state s))
          (lastUpdate (state s))
          (downsample (map (historical_point toLocaleDateString) ps)) false)
       (console s)).
Proof.
  intros Hok.
  unfold fetchHistoricalData, try_catch_finally, try_catch, bind, fetched, check_ok, ret.
  rewrite Hok. reflexivity.
Qed.

(** C2.  A successful historical fetch stores the formatted series
    downsampled with stride 30: [ceil(N/30)] points for [N] raw points, the
    [k]-th of which is the formatted point of index [30 * k]; 3650 raw
    points give 122. *)
Theorem historical_downsampling (toLocaleDateString : number -> string)
    (st : nat) (ps : list (number * number)) (s : Store) :
  ok (mkResponse st (Parsed (Prices ps))) = true ->
  let formattedData := map (historical_point toLocaleDateString) ps in
  let downsampled :=
    historicalData (state (snd (fetchHistoricalData toLocaleDateString
      (Resolved (mkResponse st (Parsed (Prices ps)))) s))) in
  downsampled = downsample formattedData /\
  List.length downsampled = ceil_div (List.length ps) 30 /\
  (forall k, nth_error downsampled k = nth_error formattedData (30 * k)) /\
  (List.length ps = 3650%nat -> List.length downsampled = 122%nat).
Proof.
  intros Hok formattedData downsampled.
  assert (E : downsampled = downsample formattedData).
  { unfold downsampled. now rewrite fetchHistoricalData_success. }
  assert (L : List.length downsampled = ceil_div (List.length ps) 30).
  { rewrite E, downsample_length. unfold formattedData. now rewrite length_map. }
  split; [exact E|]. split; [exact L|]. split.
  - intros k. rewrite E. apply downsample_nth_error.
  - intros HN. rewrite L, HN. reflexivity.
Qed.

Lemma historical_downsampling_witness :
  ok (mkResponse 200 (Parsed (Prices daily_prices))) = true /\
  List.length daily_prices = 3650%nat /\
  List.length
    (historicalData (state (snd (fetchHistoricalData sample_toLocaleDateString
       (ok_response (Prices daily_prices)) store_with_quote)))) = 122%nat.
Proof.
  assert (Hok : ok (mkResponse 200 (Parsed (Prices daily_prices))) = true)
    by reflexivity.
  assert (Hlen : List.length daily_prices = 3650%nat) by reflexivity.
  split; [exact Hok|]. split; [exact Hlen|].
  exact (proj2 (proj2 (proj2
    (historical_downsampling sample_toLocaleDateString 200 daily_prices
       store_with_quote Hok))) Hlen).
Defined.

(* ===================================================================== *)
(** * The day count of a timeframe                                        *)
(* ===================================================================== *)

(** C3.  The values of the type [Timeframe] are ["24h"], ["7d"] and
    ["30d"], and the mapping sends them to 1, 7 and 30.  It is exhaustive on
    them and none of them falls to a default meant for another value: among
    the timeframes the last branch of the conditional, which compares
    nothing, is taken by ["30d"] alone, and different timeframes get
    different day counts. *)
Theorem days_mapping :
  days "24h" = 1%nat /\ days "7d" = 7%nat /\ days "30d" = 30%nat /\
  (forall tf : string, is_timeframe tf = true ->
     (tf = "24h"%string /\ days tf = 1%nat) \/
     (tf = "7d"%string /\ days tf = 7%nat) \/
     (tf = "30d"%string /\ days tf = 30%nat)) /\
  (forall tf : string, is_timeframe tf = true ->
     days tf = 30%nat -> tf = "30d"%string) /\
  (forall tf tf' : string, is_timeframe tf = true -> is_timeframe tf' = true ->
     days tf = days tf' -> tf = tf').
Proof.
  assert (Hcases : forall tf : string, is_timeframe tf = true ->
            tf = "24h"%string \/ tf = "7d"%string \/ tf = "30d"%string).
  { intros tf. unfold is_timeframe. rewrite !orb_true_iff, !String.eqb_eq. tauto. }
  split; [reflexivity|]. split; [reflexivity|]. split; [reflexivity|].
  split; [|split].
  - intros tf H. destruct (Hcases tf H) as [-> | [-> | ->]]; auto.
  - intros tf H. destruct (Hcases tf H) as [-> | [-> | ->]]; cbn;
      intros E; try discriminate E; reflexivity.
  - intros tf tf' H H'.
    destruct (Hcases tf H) as [-> | [-> | ->]];
      destruct (Hcases tf' H') as [-> | [-> | ->]]; cbn;
      intros E; try discriminate E; reflexivity.
Qed.

Lemma days_mapping_witness :
  is_timeframe "30d" = true /\ days "30d" = 30%nat /\
  ((("30d" = "24h")%string /\ days "30d" = 1%nat) \/
   (("30d" = "7d")%string /\ days "30d" = 7%nat) \/
   (("30d" = "30d")%string /\ days "30d" = 30%nat)).
Proof.
  assert (H : is_timeframe "30d" = true) by reflexivity.
  split; [exact H|]. split; [reflexivity|].
  exact (proj1 (proj2 (proj2 (proj2 days_mapping))) "30d"%string H).
Defined.

(* ===================================================================== *)
(** * The Quote fetcher                                                   *)
(* ===================================================================== *)

Ltac run_routine :=
  cbv [fetchEthPrice fetchChartData fetchHistoricalData try_catch_finally try_catch
       bind ret throw fetched check_ok json read map_prices update console_error
       setEthPrice setPriceChange24h setLoading setError setChartData setTimeframe
       setLastUpdate setHistoricalData setLoadingHistory negb].

Lemma retrying_message (msg : string) :
  let text := ("Error: " ++ msg ++ ". Retrying...")%string in
  text <> EmptyString /\ contains "Retrying" text.
Proof.
  split; [discriminate|].
  exists ("Error: " ++ msg ++ ". ")%string, "..."%string.
  cbn [String.append]. do 7 f_equal.
  induction msg as [|c msg IH]; cbn [String.append]; [reflexivity|now f_equal].
Qed.

(** What [fetchEthPrice] does when its [try] block throws. *)
Lemma fetchEthPrice_throws (cannotRead : string -> string)
    (res : FetchResult JSValue) (now : number) (s : Store) :
  quote_fetch_throws res = true ->
  exists err,
    fetchEthPrice cannotRead res now s
    = (Normal tt,
       mkStore
         (mkState (ethPrice (state s)) (priceChange24h (state s)) (loading (state s))
            (Some ("Error: " ++ shown_message err ++ ". Retrying...")%string)
            (chartData (state s)) (timeframe (state s)) (lastUpdate (state s))
            (historicalData (state s)) (loadingHistory (state s)))
         (console s ++ [mkLogEntry "Fetch error:" err])).
Proof.
  unfold quote_fetch_throws, lacks_ethereum. intros H.
  destruct res as [err|r].
  - exists err. run_routine. destruct err; reflexivity.
  - destruct (ok r) eqn:Hok.
    + destruct (body r) as [err|data] eqn:Hbody.
      * exists err. run_routine. rewrite Hok, Hbody. destruct err; reflexivity.
      * destruct (get data "ethereum") as [eth|] eqn:Hget.
        -- exists (ErrorObject (cannotRead "usd"%string)).
           run_routine. rewrite Hok, Hbody, Hget.
           destruct eth; try discriminate; reflexivity.
        -- exists (ErrorObject (cannotRead "ethereum"%string)).
           run_routine. rewrite Hok, Hbody, Hget. reflexivity.
    + exists (ErrorObject ("HTTP error! status: " ++ string_of_nat (status r))%string).
      run_routine. rewrite Hok. reflexivity.
Qed.

(** What [fetchEthPrice] does otherwise: the body has an [ethereum] member,
    and both fields are overwritten with what that member holds. *)
Lemma fetchEthPrice_reads (cannotRead : string -> string)
    (res : FetchResult JSValue) (now : number) (s : Store) :
  quote_fetch_throws res = false ->
  exists r data ethereum price change,
    res = Resolved r /\ ok r = true /\ body r = Parsed data /\
    get data "ethereum" = Some ethereum /\
    get ethereum "usd" = Some price /\
    get ethereum "usd_24h_change" = Some change /\
    fetchEthPrice cannotRead res now s
    = (Normal tt,
       mkStore
         (mkState price change (loading (state s)) None
            (chartData (state s)) (timeframe (state s)) (Some now)
            (historicalData (state s)) (loadingHistory (state s)))
         (console s)).
Proof.
  unfold quote_fetch_throws, lacks_ethereum. intros H.
  destruct res as [err|r]; [discriminate|].
  destruct (ok r) eqn:Hok; [|discriminate].
  destruct (body r) as [err|data] eqn:Hbody; [discriminate|].
  destruct (get data "ethereum") as [eth|] eqn:Hget; [|discriminate].
  assert (Hread : forall key, exists v, get eth key = Some v).
  { intros key. destruct eth; try discriminate; eexists; reflexivity. }
  destruct (Hread "usd"%string) as [price Hprice].
  destruct (Hread "usd_24h_change"%string) as [change Hchange].
  exists r, data, eth, price, change.
  repeat (split; [assumption || reflexivity|]).
  run_routine. rewrite Hok, Hbody, Hget, Hprice, Hchange. reflexivity.
Qed.

(** C4, as stated, fails: the malformed payload [{ ethereum: {} }] is not
    noticed.  The displayed price 3000.5 is replaced by [undefined], no
    error message is set and nothing is logged. *)
Lemma malformed_quote_counterexample :
  let res := ok_response empty_quote_payload in
  let s' := snd (fetchEthPrice sample_cannotRead res (of_Z 1700000015000)
                   store_with_quote) in
  quote_fetch_fails res = true /\
  ethPrice (state store_with_quote) = JNumber n3000_5 /\
  ethPrice (state s') = JUndefined /\
  priceChange24h (state s') = JUndefined /\
  ethPrice (state s') <> ethPrice (state store_with_quote) /\
  error (state s') = None /\
  console s' = console store_with_quote.
Proof. repeat split. discriminate. Qed.

(** C4, amended.  For every Quote fetch that fails by a network error, by a
    status outside 200-299, by a body that is no JSON text or by a body
    without an [ethereum] member, the routine returns normally, leaves the
    stored price and 24h change (and the time of the last update) as they
    were, sets an error string that is not empty and contains "Retrying",
    and logs one diagnostic. *)
Theorem quote_failure_keeps_quote (cannotRead : string -> string)
    (res : FetchResult JSValue) (now : number) (s : Store) :
  quote_fetch_throws res = true ->
  let result := fetchEthPrice cannotRead res now s in
  let s' := snd result in
  fst result = Normal tt /\
  ethPrice (state s') = ethPrice (state s) /\
  priceChange24h (state s') = priceChange24h (state s) /\
  lastUpdate (state s') = lastUpdate (state s) /\
  (exists text, error (state s') = Some text /\
                text <> EmptyString /\ contains "Retrying" text) /\
  (exists err, console s' = console s ++ [mkLogEntry "Fetch error:" err]).
Proof.
  intros H result s'.
  destruct (fetchEthPrice_throws cannotRead res now s H) as [err E].
  unfold s', result. rewrite E. cbn [fst snd state console ethPrice priceChange24h
    lastUpdate error].
  repeat (split; [reflexivity|]). split.
  - eexists. split; [reflexivity|]. apply retrying_message.
  - now exists err.
Qed.

(** The scenario of the specification: the endpoint answers HTTP 429. *)
Lemma quote_failure_keeps_quote_witness :
  let s' := snd (fetchEthPrice sample_cannotRead too_many_requests
                   (of_Z 1700000015000) store_with_quote) in
  quote_fetch_throws (@too_many_requests JSValue) = true /\
  ethPrice (state s') = JNumber n3000_5 /\
  priceChange24h (state s') = JNumber n_2_25 /\
  error (state s') = Some "Error: HTTP error! status: 429. Retrying..."%string /\
  (exists err, console s' = console store_with_quote ++ [mkLogEntry "Fetch error:" err]).
Proof.
  assert (H : quote_fetch_throws (@too_many_requests JSValue) = true) by reflexivity.
  pose proof (quote_failure_keeps_quote sample_cannotRead too_many_requests
                (of_Z 1700000015000) store_with_quote H) as (_ & Hp & Hc & _ & _ & Hlog).
  split; [exact H|]. split; [exact Hp|]. split; [exact Hc|].
  split; [reflexivity|]. exact Hlog.
Defined.

(* ===================================================================== *)
(** * The Short-Term Series fetcher                                       *)
(* ===================================================================== *)

Lemma fetchChartData_fails (res : FetchResult MarketChart) (s : Store) :
  series_fetch_fails res = true ->
  exists err,
    fetchChartData res s
    = (Normal tt,
       mkStore (state s) (console s ++ [mkLogEntry "Failed to fetch chart data:" err])).
Proof.
  unfold series_fetch_fails. intros H.
  destruct res as [err|r].
  - exists err. reflexivity.
  - destruct (ok r) eqn:Hok.
    + destruct (body r) as [err|[ps|err]] eqn:Hbody; try discriminate;
        exists err; run_routine; rewrite Hok, Hbody; reflexivity.
    + exists (ErrorObject ("HTTP error! status: " ++ string_of_nat (status r))%string).
      run_routine. rewrite Hok. reflexivity.
Qed.

Lemma fetchChartData_success (st : nat) (ps : list (number * number)) (s : Store) :
  ok (mkResponse st (Parsed (Prices ps))) = true ->
  fetchChartData (Resolved (mkResponse st (Parsed (Prices ps)))) s
  = (Normal tt,
     mkStore
       (mkState (ethPrice (state s)) (priceChange24h (state s)) (loading (state s))
          (error (state s))
          (map (fun pair => point (fst pair) (snd pair)) ps)
          (timeframe (state s)) (lastUpdate (state s))
          (historicalData (state s)) (loadingHistory (state s)))
       (console s)).
Proof.
  intros Hok. run_routine. rewrite Hok. reflexivity.
Qed.

(** C7.  For every failing Short-Term Series fetch (a network error, a
    status outside 200-299, a body that is no JSON text or has no [prices]
    array) the routine returns normally, logs one diagnostic and leaves
    every state slice as it was: the series is unchanged and no error
    message is set, so the view is the same as before. *)
Theorem chart_failure_keeps_series (res : FetchResult MarketChart) (s : Store) :
  series_fetch_fails res = true ->
  let result := fetchChartData res s in
  let s' := snd result in
  fst result = Normal tt /\
  chartData (state s') = chartData (state s) /\
  error (state s') = error (state s) /\
  state s' = state s /\
  render (state s') = render (state s) /\
  (exists err,
     console s' = console s ++ [mkLogEntry "Failed to fetch chart data:" err]).
Proof.
  intros H result s'.
  destruct (fetchChartData_fails res s H) as [err E].
  unfold s', result. rewrite E. cbn [fst snd state console].
  repeat (split; [reflexivity|]). now exists err.
Qed.

Lemma chart_failure_keeps_series_witness :
  let s' := snd (fetchChartData too_many_requests store_with_quote) in
  series_fetch_fails (@too_many_requests MarketChart) = true /\
  chartData (state s') = two_point_series /\
  error (state s') = None /\
  (exists err,
     console s' = console store_with_quote
                  ++ [mkLogEntry "Failed to fetch chart data:" err]).
Proof.
  assert (H : series_fetch_fails (@too_many_requests MarketChart) = true)
    by reflexivity.
  pose proof (chart_failure_keeps_series too_many_requests store_with_quote H)
    as (_ & Hc & He & _ & _ & Hlog).
  split; [exact H|]. split; [exact Hc|]. split; [exact He|]. exact Hlog.
Defined.

(** C10.  A successful Short-Term Series fetch stores the [prices] array
    mapped position by position: as many points as pairs, in the same
    order, the [i]-th point having the first component of the [i]-th pair
    as timestamp and the second as price.  Nothing is sorted, dropped or
    merged, so the timestamps of the stored series are in ascending order
    exactly when those of the response are. *)
Theorem chart_success_positional (st : nat) (ps : list (number * number)) (s : Store) :
  ok (mkResponse st (Parsed (Prices ps))) = true ->
  let series :=
    chartData (state (snd (fetchChartData
      (Resolved (mkResponse st (Parsed (Prices ps)))) s))) in
  List.length series = List.length ps /\
  (forall i,
     nth_error series i
     = option_map (fun pair => {| timestamp := fst pair; price := snd pair; date := None |})
         (nth_error ps i)) /\
  map timestamp series = map fst ps /\
  map price series = map snd ps /\
  ascending (map timestamp series) = ascending (map fst ps).
Proof.
  intros Hok series.
  assert (E : series = map (fun pair => point (fst pair) (snd pair)) ps).
  { unfold series. now rewrite fetchChartData_success. }
  assert (T : map timestamp series = map fst ps).
  { rewrite E, map_map. reflexivity. }
  split; [rewrite E; apply length_map|].
  split; [intros i; rewrite E; apply nth_error_map|].
  split; [exact T|].
  split; [rewrite E, map_map; reflexivity|].
  now rewrite T.
Qed.

(** The scenario of the specification, and a response in descending order,
    which is stored in descending order. *)
Lemma chart_success_positional_witness :
  let response := [(of_Z 1700003600000, of_Z 110); (of_Z 1700000000000, of_Z 100)] in
  let series :=
    chartData (state (snd (fetchChartData (ok_response (Prices response))
                             store_with_quote))) in
  ok (mkResponse 200 (Parsed (Prices response))) = true /\
  List.length series = 2%nat /\
  map timestamp series = [of_Z 1700003600000; of_Z 1700000000000] /\
  map price series = [of_Z 110; of_Z 100] /\
  ascending (map timestamp series) = false.
Proof.
  intros response series.
  assert (Hok : ok (mkResponse 200 (Parsed (Prices response))) = true) by reflexivity.
  pose proof (chart_success_positional 200 response store_with_quote Hok)
    as (Hlen & _ & Ht & Hp & Hasc).
  split; [exact Hok|]. split; [exact Hlen|]. split; [exact Ht|]. split; [exact Hp|].
  unfold series, ok_response. rewrite Hasc. reflexivity.
Defined.

(* ===================================================================== *)
(** * What each routine leaves alone                                      *)
(* ===================================================================== *)

Lemma store_eta (s : Store) :
  s = mkStore
        (mkState (ethPrice (state s)) (priceChange24h (state s)) (loading (state s))
           (error (state s)) (chartData (state s)) (timeframe (state s))
           (lastUpdate (state s)) (historicalData (state s)) (loadingHistory (state s)))
        (console s).
Proof. destruct s as [[] ?]. reflexivity. Qed.

Lemma series_fetch_succeeds (res : FetchResult MarketChart) :
  series_fetch_fails res = false ->
  exists st ps,
    res = Resolved (mkResponse st (Parsed (Prices ps))) /\
    ok (mkResponse st (Parsed (Prices ps))) = true.
Proof.
  unfold series_fetch_fails.
  destruct res as [err|[st [err|[ps|err]]]]; try discriminate;
    destruct (ok _) eqn:Hok; try discriminate.
  intros _. now exists st, ps.
Qed.

(** [fetchEthPrice] always returns normally and writes nothing but the
    Quote, the error message and the time of the last update. *)
Lemma fetchEthPrice_frame (cannotRead : string -> string)
    (res : FetchResult JSValue) (now : number) (s : Store) :
  exists p c e u log,
    fetchEthPrice cannotRead res now s
    = (Normal tt,
       mkStore
         (mkState p c (loading (state s)) e (chartData (state s))
            (timeframe (state s)) u (historicalData (state s))
            (loadingHistory (state s)))
         log).
Proof.
  destruct (quote_fetch_throws res) eqn:H.
  - destruct (fetchEthPrice_throws cannotRead res now s H) as [err E].
    rewrite E. repeat eexists.
  - destruct (fetchEthPrice_reads cannotRead res now s H)
      as (r & data & eth & p & c & _ & _ & _ & _ & _ & _ & E).
    rewrite E. repeat eexists.
Qed.

(** [fetchChartData] always returns normally and writes nothing but the
    short-term series. *)
Lemma fetchChartData_frame (res : FetchResult MarketChart) (s : Store) :
  exists cd log,
    fetchChartData res s
    = (Normal tt,
       mkStore
         (mkState (ethPrice (state s)) (priceChange24h (state s)) (loading (state s))
            (error (state s)) cd (timeframe (state s)) (lastUpdate (state s))
            (historicalData (state s)) (loadingHistory (state s)))
         log).
Proof.
  destruct (series_fetch_fails res) eqn:H.
  - destruct (fetchChartData_fails res s H) as [err E].
    rewrite E. destruct s as [[] lg]. repeat eexists.
  - destruct (series_fetch_succeeds res H) as (st & ps & -> & Hok).
    rewrite fetchChartData_success by assumption. repeat eexists.
Qed.

Lemma fetchHistoricalData_fails (toLocaleDateString : number -> string)
    (res : FetchResult MarketChart) (s : Store) :
  series_fetch_fails res = true ->
  exists err,
    fetchHistoricalData toLocaleDateString res s
    = (Normal tt,
       mkStore
         (mkState (ethPrice (state s)) (priceChange24h (state s)) (loading (state s))
            (error (state s)) (chartData (state s)) (timeframe (state s))
            (lastUpdate (state s)) (historicalData (state s)) false)
         (console s ++ [mkLogEntry "Failed to fetch historical data:" err])).
Proof.
  unfold series_fetch_fails. intros H.
  destruct res as [err|r].
  - exists err. reflexivity.
  - destruct (ok r) eqn:Hok.
    + destruct (body r) as [err|[ps|err]] eqn:Hbody; try discriminate;
        exists err; run_routine; rewrite Hok, Hbody; reflexivity.
    + exists (ErrorObject ("HTTP error! status: " ++ string_of_nat (status r))%string).
      run_routine. rewrite Hok. reflexivity.
Qed.

(** [fetchHistoricalData] always returns normally with the loading flag of
    the history cleared; it writes nothing else but the historical
    series, and not even that when the fetch fails. *)
Lemma fetchHistoricalData_frame (toLocaleDateString : number -> string)
    (res : FetchResult MarketChart) (s : Store) :
  exists hd log,
    fetchHistoricalData toLocaleDateString res s
    = (Normal tt,
       mkStore
         (mkState (ethPrice (state s)) (priceChange24h (state s)) (loading (state s))
            (error (state s)) (chartData (state s)) (timeframe (state s))
            (lastUpdate (state s)) hd false)
         log)
    /\ (series_fetch_fails res = true -> hd = historicalData (state s)).
Proof.
  destruct (series_fetch_fails res) eqn:H.
  - destruct (fetchHistoricalData_fails toLocaleDateString res s H) as [err E].
    rewrite E. repeat eexists.
  - destruct (series_fetch_succeeds res H) as (st & ps & -> & Hok).
    rewrite fetchHistoricalData_success by assumption.
    eexists _, _. split; [reflexivity|discriminate].
Qed.

(* ===================================================================== *)
(** * The component over time                                             *)
(* ===================================================================== *)

Section ListFacts.

Context {A : Type} (f : A -> bool).

Lemma filter_snoc (l : list A) (x : A) :
  filter f (l ++ [x]) = filter f l ++ (if f x then [x] else []).
Proof. rewrite filter_app. simpl. now destruct (f x). Qed.

Lemma In_remove_nth (l : list A) : forall i t,
  In t (remove_nth i l) -> In t l.
Proof.
  induction l as [|x l IH]; intros [|i] t H; simpl in *; auto.
  destruct H as [H|H]; eauto.
Qed.

Lemma filter_remove_nth_other (l : list A) : forall i t,
  nth_error l i = Some t -> f t = false ->
  filter f (remove_nth i l) = filter f l.
Proof.
  induction l as [|x l IH]; intros [|i] t H Hf; simpl in *; try discriminate.
  - injection H as ->. now rewrite Hf.
  - rewrite (IH i t H Hf). reflexivity.
Qed.

Lemma filter_remove_nth_only (l : list A) : forall i t t0,
  nth_error l i = Some t -> f t = true -> filter f l = [t0] ->
  t = t0 /\ filter f (remove_nth i l) = [].
Proof.
  induction l as [|x l IH]; intros [|i] t t0 H Hf Hl; simpl in *; try discriminate.
  - injection H as ->. rewrite Hf in Hl. injection Hl as -> Hl. auto.
  - destruct (f x) eqn:Hx.
    + injection Hl as -> Hl. exfalso.
      assert (Hin : In t (filter f l)).
      { apply filter_In. split; [eapply nth_error_In; eassumption|assumption]. }
      rewrite Hl in Hin. destruct Hin.
    + now apply IH.
Qed.

Lemma filter_nil_nth (l : list A) (i : nat) (t : A) :
  filter f l = [] -> nth_error l i = Some t -> f t = false.
Proof.
  intros Hl H. destruct (f t) eqn:Hf; [|reflexivity]. exfalso.
  assert (Hin : In t (filter f l)).
  { apply filter_In. split; [eapply nth_error_In; eassumption|assumption]. }
  rewrite Hl in Hin. destruct Hin.
Qed.

End ListFacts.

Section EventLoop.

Variable cannotRead : string -> string.
Variable toLocaleDateString : number -> string.

Local Abbreviation step_ := (step cannotRead toLocaleDateString).
Local Abbreviation run_ := (run cannotRead toLocaleDateString).
Local Abbreviation resume_ := (resume cannotRead toLocaleDateString).
Local Abbreviation reachable_ := (reachable cannotRead toLocaleDateString).

(** A resumed routine returns normally, whatever the settlement.  It never
    writes the top-level loading flag; only the historical routine writes
    the flag and the series of the history. *)
Lemma resume_returns (t : Task) (x : Settlement) (routine : Eff unit) (s : Store) :
  resume_ t x = Some routine ->
  exists s',
    routine s = (Normal tt, s') /\
    loading (state s') = loading (state s) /\
    match fetcher t with
    | HistoricalFetcher =>
        loadingHistory (state s') = false /\
        (forall res, x = SeriesSettled res -> series_fetch_fails res = true ->
           historicalData (state s') = historicalData (state s))
    | _ =>
        loadingHistory (state s') = loadingHistory (state s) /\
        historicalData (state s') = historicalData (state s)
    end.
Proof.
  unfold resume. destruct t as [[|tf|] c]; destruct x as [res now|res];
    cbn [fetcher]; intros H; try discriminate; injection H as <-.
  - destruct (fetchEthPrice_frame cannotRead res now s) as (p & ch & e & u & lg & E).
    rewrite E. eexists. repeat split.
  - destruct (fetchChartData_frame res s) as (cd & lg & E).
    rewrite E. eexists. repeat split.
  - destruct (fetchHistoricalData_frame toLocaleDateString res s)
      as (hd & lg & E & Hfail).
    rewrite E. eexists. split; [reflexivity|]. split; [reflexivity|].
    split; [reflexivity|]. intros res' [= <-] Hf. now apply Hfail.
Qed.

(** The turn that settles the request of task [t]. *)
Lemma step_settle (w : World) (i : nat) (x : Settlement) (t : Task)
    (routine : Eff unit) :
  nth_error (pending w) i = Some t ->
  resume_ t x = Some routine ->
  step_ w (Settle i x)
  = Some
      (let w2 := mkWorld (snd (routine (store w))) (mounted w)
                   (remove_nth i (pending w)) (history w ++ [Finished t]) in
       match caller t with
       | Awaited => initializeData_resume (fetcher t) w2
       | Detached => w2
       end).
Proof.
  intros Hnth Hres. unfold step. rewrite Hnth, Hres.
  destruct (resume_returns t x routine (store w) Hres) as (s' & E & _).
  unfold exec. cbn [store mounted pending history]. rewrite E.
  cbn [snd]. destruct (caller t); reflexivity.
Qed.

Lemma only_awaited (st : Stage) (w : World) (i : nat) (t : Task) :
  at_stage st w -> nth_error (pending w) i = Some t -> caller t = Awaited ->
  (st = AwaitingQuote /\ t = quote_task) \/
  (st = AwaitingChart /\ t = chart_task) \/
  (st = AwaitingHistory /\ t = history_task).
Proof.
  intros (_ & _ & Hp & _) Hnth Hc.
  assert (Ht : is_awaited t = true) by (unfold is_awaited; now rewrite Hc).
  destruct st; cbn [stage_pending] in Hp;
    try (rewrite (filter_nil_nth _ _ _ _ Hp Hnth) in Ht; discriminate);
    destruct (filter_remove_nth_only _ _ _ _ _ Hnth Ht Hp) as [-> _]; auto.
Qed.

Lemma awaited_actions_snoc (h : list Action) (a : Action) :
  awaited_actions (h ++ [a])
  = awaited_actions h ++ (if is_awaited (task_of a) then [a] else []).
Proof. unfold awaited_actions. now rewrite filter_snoc. Qed.

(** Mounting starts the awaited Quote routine and a detached chart
    routine. *)
Lemma stage_mount (st : Stage) (w w' : World) :
  at_stage st w -> step_ w Mount = Some w' ->
  st = NotMounted /\ at_stage AwaitingQuote w'.
Proof.
  intros (Hm & Ha & Hp & Hh & Hl & Hlh & Hd) Hstep.
  unfold step in Hstep. destruct (mounted w) eqn:Hmounted; [discriminate|].
  assert (st = NotMounted) as -> by (destruct st; congruence).
  split; [reflexivity|]. injection Hstep as <-.
  destruct Hd as [Hd|Hd]; [discriminate|].
  unfold at_stage, start, exec, setLoading, update.
  cbn [fetcher store mounted pending history state fst snd loading loadingHistory
       historicalData].
  rewrite !awaited_actions_snoc, !filter_snoc, Ha, Hp. cbn.
  repeat split; auto.
  intros t Hin Hf. rewrite <- app_assoc in Hin. apply in_app_or in Hin as [Hin|Hin].
  - now apply Hh.
  - destruct Hin as [<-|[<-|[]]]; [reflexivity|discriminate].
Qed.

(** A detached Quote or chart routine can start at any stage. *)
Lemma stage_start_detached (st : Stage) (w : World) (t : Task) :
  at_stage st w -> caller t = Detached -> fetcher t <> HistoricalFetcher ->
  at_stage st (start t w).
Proof.
  intros (Hm & Ha & Hp & Hh & Hl & Hlh & Hd) Hc Hf.
  assert (Hstart : start t w
                   = mkWorld (store w) (mounted w) (pending w ++ [t])
                       (history w ++ [Started t])).
  { unfold start. destruct (fetcher t); congruence. }
  rewrite Hstart. unfold at_stage.
  cbn [store mounted pending history].
  rewrite awaited_actions_snoc, filter_snoc. cbn [task_of].
  unfold is_awaited. rewrite Hc, !app_nil_r.
  repeat split; auto.
  intros t' Hin Hf'. apply in_app_or in Hin as [Hin|[<-|[]]]; [now apply Hh|congruence].
Qed.

(** Settling a detached request leaves the stage as it is. *)
Lemma stage_settle_detached (st : Stage) (w : World) (i : nat) (x : Settlement)
    (t : Task) (routine : Eff unit) :
  at_stage st w -> nth_error (pending w) i = Some t ->
  resume_ t x = Some routine -> caller t = Detached ->
  at_stage st
    (mkWorld (snd (routine (store w))) (mounted w) (remove_nth i (pending w))
       (history w ++ [Finished t])).
Proof.
  intros (Hm & Ha & Hp & Hh & Hl & Hlh & Hd) Hnth Hres Hc.
  destruct (resume_returns t x routine (store w) Hres) as (s' & E & Hload & Hrest).
  assert (Hf : fetcher t <> HistoricalFetcher).
  { intros Hf. apply nth_error_In in Hnth. specialize (Hh t Hnth Hf). congruence. }
  assert (Hkeep : loadingHistory (state s') = loadingHistory (state (store w)) /\
                  historicalData (state s') = historicalData (state (store w))).
  { destruct (fetcher t); [exact Hrest|exact Hrest|congruence]. }
  destruct Hkeep as [Hk1 Hk2].
  assert (Ht : is_awaited t = false) by (unfold is_awaited; now rewrite Hc).
  rewrite E. unfold at_stage. cbn [store mounted pending history snd].
  rewrite awaited_actions_snoc. cbn [task_of]. rewrite Ht, app_nil_r.
  rewrite (filter_remove_nth_other _ _ _ _ Hnth Ht), Hload, Hk1, Hk2.
  repeat split; auto.
  intros t' Hin. apply Hh. eapply In_remove_nth; eassumption.
Qed.

(** Settling the request [initializeData] is suspended on moves it to the
    next stage, whatever the settlement: the routine is recorded as
    finished and the next one is started (or, after the last, the
    top-level loading flag is cleared). *)
Lemma stage_settle_awaited (st : Stage) (w : World) (i : nat) (x : Settlement)
    (t : Task) (routine : Eff unit) :
  at_stage st w -> nth_error (pending w) i = Some t ->
  resume_ t x = Some routine -> caller t = Awaited ->
  let w' := initializeData_resume (fetcher t)
              (mkWorld (snd (routine (store w))) (mounted w)
                 (remove_nth i (pending w)) (history w ++ [Finished t])) in
  at_stage (next_stage st) w' /\
  awaited_actions (history w')
  = awaited_actions (history w) ++ Finished t :: started_next t /\
  (forall res, fetcher t = HistoricalFetcher -> x = SeriesSettled res ->
     series_fetch_fails res = true -> historicalData (state (store w')) = []).
Proof.
  intros Hst Hnth Hres Hc w'.
  pose proof (only_awaited st w i t Hst Hnth Hc) as Hcases.
  destruct Hst as (Hm & Ha & Hp & Hh & Hl & Hlh & Hd).
  destruct (resume_returns t x routine (store w) Hres) as (s' & E & Hload & Hrest).
  assert (Ht : is_awaited t = true) by (unfold is_awaited; now rewrite Hc).
  assert (Hin : forall t', In t' (remove_nth i (pending w)) ->
                  fetcher t' = HistoricalFetcher -> caller t' = Awaited).
  { intros t' Hin'. apply Hh. eapply In_remove_nth; eassumption. }
  unfold w'. rewrite E. cbn [snd].
  destruct Hcases as [[-> ->]|[[-> ->]|[-> ->]]];
    destruct (filter_remove_nth_only _ _ _ _ _ Hnth Ht Hp) as [_ Hgone];
    unfold quote_task, chart_task, history_task, startup_sequence in *;
    cbn [stage_actions firstn] in Ha;
    cbn [fetcher] in Hrest;
    unfold at_stage, initializeData_resume, start, exec, fetchHistoricalData_begin,
      setLoadingHistory, setLoading, update;
    cbn [fetcher store mounted pending history state fst snd loading loadingHistory
         historicalData next_stage stage_actions stage_pending started_next
         timeframe initialState];
    rewrite ?awaited_actions_snoc, ?filter_snoc, ?Ha, ?Hgone; cbn [task_of];
    cbn [is_awaited caller quote_task chart_task history_task app firstn
         startup_sequence stage_actions].
  - destruct Hrest as [Hk1 Hk2]. destruct Hd as [Hd|Hd]; [discriminate|].
    rewrite Hload, Hk1, Hk2, Hl, Hlh.
    repeat split; auto; try discriminate.
    intros t' Hin' Hf. apply in_app_or in Hin' as [Hin'|[<-|[]]]; auto; discriminate.
  - destruct Hrest as [Hk1 Hk2]. destruct Hd as [Hd|Hd]; [discriminate|].
    rewrite Hload, Hk2, Hl.
    repeat split; auto; try discriminate.
    intros t' Hin' Hf. apply in_app_or in Hin' as [Hin'|[<-|[]]]; auto.
  - destruct Hrest as [Hk1 Hk2]. destruct Hd as [Hd|Hd]; [discriminate|].
    repeat split; auto.
    intros res _ -> Hfail. now rewrite (Hk2 res eq_refl Hfail).
Qed.

Lemma stage_initial : at_stage NotMounted initialWorld.
Proof. unfold at_stage. cbn. repeat split; auto. intros t []. Qed.

Lemma stage_step (st : Stage) (w w' : World) (e : Event) :
  at_stage st w -> step_ w e = Some w' -> exists st', at_stage st' w'.
Proof.
  intros Hst Hstep. destruct e as [| | |tf|i x].
  - exists AwaitingQuote. eapply stage_mount; eassumption.
  - cbn [step] in Hstep. destruct (mounted w); [|discriminate].
    injection Hstep as <-. exists st. now apply stage_start_detached.
  - cbn [step] in Hstep. destruct (mounted w); [|discriminate].
    injection Hstep as <-. exists st. now apply stage_start_detached.
  - cbn [step] in Hstep.
    destruct (mounted w && is_timeframe tf); [|discriminate].
    injection Hstep as <-. exists st.
    assert (Hset : at_stage st (snd (exec (setTimeframe tf) w))).
    { destruct Hst as (Hm & Ha & Hp & Hh & Hl & Hlh & Hd).
      unfold at_stage, exec, setTimeframe, update.
      cbn [fst snd store mounted pending history state loading loadingHistory
           historicalData].
      repeat split; auto. }
    destruct (negb _); [|exact Hset].
    now apply stage_start_detached.
  - destruct (nth_error (pending w) i) as [t|] eqn:Hnth;
      [|cbn [step] in Hstep; rewrite Hnth in Hstep; discriminate].
    destruct (resume_ t x) as [routine|] eqn:Hres;
      [|cbn [step] in Hstep; rewrite Hnth, Hres in Hstep; discriminate].
    rewrite (step_settle w i x t routine Hnth Hres) in Hstep.
    injection Hstep as <-. cbv zeta.
    destruct (caller t) eqn:Hc.
    + exists (next_stage st).
      now apply (stage_settle_awaited st w i x t routine Hst Hnth Hres Hc).
    + exists st. now apply stage_settle_detached with (x := x).
Qed.

Lemma stage_run (events : list Event) : forall (st : Stage) (w w' : World),
  at_stage st w -> run_ w events = Some w' -> exists st', at_stage st' w'.
Proof.
  induction events as [|e rest IH]; intros st w w' Hst Hrun; cbn [run] in Hrun.
  - injection Hrun as <-. now exists st.
  - destruct (step_ w e) as [w1|] eqn:Hstep; [|discriminate].
    destruct (stage_step st w w1 e Hst Hstep) as [st1 Hst1].
    eapply IH; eassumption.
Qed.

(** Every reachable world is at one of the five stages. *)
Lemma reachable_stage (w : World) :
  reachable_ w -> exists st, at_stage st w.
Proof.
  intros [events Hrun]. eapply stage_run; [apply stage_initial|exact Hrun].
Qed.

Lemma stage_of_actions (st : Stage) :
  firstn (stage_actions st) startup_sequence = startup_sequence -> st = AllReturned.
Proof. destruct st; cbn; intros H; try discriminate; reflexivity. Qed.

(** C6.  In every reachable world the work of [initializeData] is an
    initial part of: Quote routine started, finished, Short-Term routine
    started, finished, Historical routine started, finished; at most one
    of its requests is in flight.  The top-level loading flag is clear
    exactly when all six have happened.  Settling the request
    [initializeData] is suspended on, with any settlement (success or
    failure), finishes that routine and starts the next one; after the
    Historical routine the flag is cleared. *)
Theorem startup_in_sequence (w : World) :
  reachable_ w ->
  (exists n, awaited_actions (history w) = firstn n startup_sequence) /\
  (List.length (filter is_awaited (pending w)) <= 1)%nat /\
  (loading (state (store w)) = false
   <-> awaited_actions (history w) = startup_sequence) /\
  (forall i t x,
     nth_error (pending w) i = Some t -> caller t = Awaited ->
     resume_ t x <> None ->
     exists w',
       step_ w (Settle i x) = Some w' /\
       awaited_actions (history w')
       = awaited_actions (history w) ++ Finished t :: started_next t /\
       (fetcher t = HistoricalFetcher -> loading (state (store w')) = false)).
Proof.
  intros Hreach. destruct (reachable_stage w Hreach) as [st Hst].
  pose proof Hst as (Hm & Ha & Hp & Hh & Hl & Hlh & Hd).
  split; [now exists (stage_actions st)|].
  split; [rewrite Hp; destruct st; cbn; lia|]. split.
  - rewrite Hl, Ha. split.
    + destruct st; try discriminate. reflexivity.
    + intros H. now rewrite (stage_of_actions st H).
  - intros i t x Hnth Hc Hres.
    destruct (resume_ t x) as [routine|] eqn:Hr; [clear Hres|congruence].
    eexists. split; [apply (step_settle w i x t routine Hnth Hr)|].
    cbv zeta. rewrite Hc.
    destruct (stage_settle_awaited st w i x t routine Hst Hnth Hr Hc)
      as (Hnext & Hact & _).
    split; [exact Hact|]. intros Hf.
    destruct (only_awaited st w i t Hst Hnth Hc) as [[-> ->]|[[-> ->]|[-> ->]]];
      try discriminate.
    now destruct Hnext as (_ & _ & _ & _ & Hl' & _).
Qed.

Lemma stage_history_in_flight (st : Stage) (w : World) :
  at_stage st w ->
  (loadingHistory (state (store w)) = true <-> In history_task (pending w)).
Proof.
  intros (Hm & Ha & Hp & Hh & Hl & Hlh & Hd). rewrite Hlh. split.
  - intros H. destruct st; try discriminate.
    assert (Hin : In history_task (filter is_awaited (pending w)))
      by (rewrite Hp; now left).
    now apply filter_In in Hin.
  - intros Hin.
    assert (Hin' : In history_task (filter is_awaited (pending w)))
      by (apply filter_In; now split).
    rewrite Hp in Hin'.
    destruct st; cbn in Hin'; try tauto;
      destruct Hin' as [Hin'|[]]; discriminate.
Qed.

Lemma rendered_history_with_price (s : State) (p : number) :
  ethPrice s = JNumber p -> change_formats (priceChange24h s) = true ->
  rendered_history s = Some (historicalSection s).
Proof.
  unfold rendered_history, render. intros -> Hc.
  cbn [price_formats andb]. now rewrite Hc.
Qed.

(** C8, amended.  The loading flag of the history is set exactly while the
    historical request is in flight, and is clear once the request has
    settled, with success or failure.  After a failed fetch the historical
    series is empty.  Whenever a price is stored, so that the view renders
    its data block, the historical section shows the loading text while
    the request is in flight and the failure message after a failed fetch.
    (With no price stored the block, and the section with it, is not
    rendered.)  The block is rendered for a stored price that is a number
    when the stored 24h change is one that the comparison of line 150
    accepts, as every number, [null] and [undefined] is: with an object
    that has an own [toString] for the change the render throws. *)
Theorem history_loading_flag (w : World) :
  reachable_ w ->
  (loadingHistory (state (store w)) = true <-> In history_task (pending w)) /\
  (forall p, ethPrice (state (store w)) = JNumber p ->
     change_formats (priceChange24h (state (store w))) = true ->
     In history_task (pending w) ->
     rendered_history (state (store w)) = Some HistoryLoading) /\
  (ethPrice (state (store w)) = JNull ->
     rendered_history (state (store w)) = None) /\
  (forall i res,
     nth_error (pending w) i = Some history_task ->
     exists w',
       step_ w (Settle i (SeriesSettled res)) = Some w' /\
       loadingHistory (state (store w')) = false /\
       (series_fetch_fails res = true ->
        historicalData (state (store w')) = [] /\
        (forall p, ethPrice (state (store w')) = JNumber p ->
           change_formats (priceChange24h (state (store w'))) = true ->
           rendered_history (state (store w')) = Some HistoryFailed))).
Proof.
  intros Hreach. destruct (reachable_stage w Hreach) as [st Hst].
  pose proof (stage_history_in_flight st w Hst) as Hflag.
  split; [exact Hflag|]. split; [|split].
  - intros p Hp Hc Hin. rewrite (rendered_history_with_price _ p Hp Hc).
    unfold historicalSection. now rewrite (proj2 Hflag Hin).
  - intros Hnull. unfold rendered_history, render. now rewrite Hnull.
  - intros i res Hnth.
    assert (Hr : resume_ history_task (SeriesSettled res)
                 = Some (fetchHistoricalData toLocaleDateString res)) by reflexivity.
    eexists. split; [apply (step_settle w i _ _ _ Hnth Hr)|].
    cbv zeta. cbn [caller history_task].
    destruct (stage_settle_awaited st w i _ _ _ Hst Hnth Hr eq_refl)
      as (Hnext & _ & Hempty).
    destruct (only_awaited st w i _ Hst Hnth eq_refl) as [[-> E]|[[-> E]|[-> _]]];
      try discriminate.
    destruct Hnext as (_ & _ & _ & _ & _ & Hlh' & _).
    split; [exact Hlh'|]. intros Hfail.
    specialize (Hempty res eq_refl eq_refl Hfail).
    split; [exact Hempty|].
    intros p Hp Hc. rewrite (rendered_history_with_price _ p Hp Hc).
    unfold historicalSection.
    cbn [fetcher history_task] in Hlh', Hempty |- *.
    now rewrite Hlh', Hempty.
Qed.

(** The stored Quote fields after a turn: as before, or both read from
    the [ethereum] member of the body that the turn delivered. *)
Lemma step_quote (w w' : World) (e : Event) :
  step_ w e = Some w' ->
  (ethPrice (state (store w')) = ethPrice (state (store w)) /\
   priceChange24h (state (store w')) = priceChange24h (state (store w)))
  \/ quote_from e (state (store w')).
Proof.
  assert (Hstart : forall t w0,
            ethPrice (state (store (start t w0))) = ethPrice (state (store w0)) /\
            priceChange24h (state (store (start t w0)))
            = priceChange24h (state (store w0))).
  { intros [[|tf|] c] w0; split; reflexivity. }
  assert (Hinit : forall f w0,
            ethPrice (state (store (initializeData_resume f w0)))
            = ethPrice (state (store w0)) /\
            priceChange24h (state (store (initializeData_resume f w0)))
            = priceChange24h (state (store w0))).
  { intros [|tf|] w0; split; reflexivity. }
  intros Hstep. destruct e as [| | |tf|i x]; [cbn [step] in Hstep ..|].
  - left. destruct (mounted w); [discriminate|]. injection Hstep as <-.
    split; reflexivity.
  - left. destruct (mounted w); [|discriminate]. injection Hstep as <-.
    apply Hstart.
  - left. destruct (mounted w); [|discriminate]. injection Hstep as <-.
    apply Hstart.
  - left. destruct (mounted w && is_timeframe tf); [|discriminate].
    injection Hstep as <-. destruct (negb _); split; reflexivity.
  - destruct (nth_error (pending w) i) as [t|] eqn:Hnth;
      [|cbn [step] in Hstep; rewrite Hnth in Hstep; discriminate].
    destruct (resume_ t x) as [routine|] eqn:Hres;
      [|cbn [step] in Hstep; rewrite Hnth, Hres in Hstep; discriminate].
    rewrite (step_settle w i x t routine Hnth Hres) in Hstep.
    injection Hstep as <-. cbv zeta. unfold quote_from.
    set (w2 := mkWorld _ _ _ _).
    assert (Hw' : ethPrice (state (store (match caller t with
                                          | Awaited => initializeData_resume (fetcher t) w2
                                          | Detached => w2
                                          end)))
                  = ethPrice (state (snd (routine (store w)))) /\
                  priceChange24h (state (store (match caller t with
                                          | Awaited => initializeData_resume (fetcher t) w2
                                          | Detached => w2
                                          end)))
                  = priceChange24h (state (snd (routine (store w))))).
    { destruct (caller t); [apply Hinit|split; reflexivity]. }
    destruct Hw' as [-> ->]. clear w2.
    unfold resume in Hres.
    destruct t as [[|tf|] c]; destruct x as [res now|res]; cbn [fetcher] in Hres;
      try discriminate; injection Hres as <-.
    + destruct (quote_fetch_throws res) eqn:Hthrows.
      * left. destruct (fetchEthPrice_throws cannotRead res now (store w) Hthrows)
          as [err E]. rewrite E. split; reflexivity.
      * right.
        destruct (fetchEthPrice_reads cannotRead res now (store w) Hthrows)
          as (r & data & eth & p & c' & -> & Hok & Hbody & Hget & Hp & Hc & E).
        rewrite E. cbn [snd state ethPrice priceChange24h].
        exists i, r, data, eth, now. auto 6.
    + left. destruct (fetchChartData_frame res (store w)) as (cd & lg & E).
      rewrite E. split; reflexivity.
    + left. destruct (fetchHistoricalData_frame toLocaleDateString res (store w))
        as (hd & lg & E & _).
      rewrite E. split; reflexivity.
Qed.

Lemma declared_shape_populates (data ethereum price change : JSValue) :
  as_quote_payload data <> None ->
  get data "ethereum" = Some ethereum ->
  get ethereum "usd" = Some price ->
  get ethereum "usd_24h_change" = Some change ->
  exists p c, price = JNumber p /\ change = JNumber c.
Proof.
  unfold as_quote_payload. intros H Hget Hp Hc. rewrite Hget, Hp, Hc in H.
  destruct price; try congruence. destruct change; try congruence. eauto.
Qed.

Lemma quote_from_populated (e : Event) (s : State) :
  of_declared_shape e -> quote_from e s -> quote_populated s.
Proof.
  intros Hshape (i & r & data & eth & now & -> & Hok & Hbody & Hget & Hu & Hch).
  cbn [of_declared_shape] in Hshape. rewrite Hbody in Hshape.
  apply (declared_shape_populates data eth _ _ (Hshape Hok) Hget Hu Hch).
Qed.

Lemma quote_run (events : list Event) : forall (pre : list Event) (w w' : World),
  run_ w events = Some w' ->
  (quote_absent (state (store w))
   \/ (exists e, In e pre /\ quote_from e (state (store w))) ->
   quote_absent (state (store w'))
   \/ (exists e, In e (pre ++ events) /\ quote_from e (state (store w')))) /\
  (Forall of_declared_shape events ->
   quote_absent (state (store w)) \/ quote_populated (state (store w)) ->
   quote_absent (state (store w')) \/ quote_populated (state (store w'))).
Proof.
  induction events as [|e rest IH]; intros pre w w' Hrun; cbn [run] in Hrun.
  - injection Hrun as <-. rewrite app_nil_r. auto.
  - destruct (step_ w e) as [w1|] eqn:Hstep; [|discriminate].
    destruct (IH (pre ++ [e]) w1 w' Hrun) as [IH1 IH2].
    rewrite <- app_assoc in IH1. cbn [app] in IH1.
    destruct (step_quote w w1 e Hstep) as [[Hp Hc]|Hfrom].
    + split.
      * intros H. apply IH1. unfold quote_absent, quote_from in *.
        rewrite Hp, Hc. destruct H as [H|(e0 & Hin & H)]; [now left|right].
        exists e0. split; [apply in_or_app; now left|exact H].
      * intros Hall H. inversion Hall; subst. apply IH2; [assumption|].
        unfold quote_absent, quote_populated in *. now rewrite Hp, Hc.
    + split.
      * intros _. apply IH1. right. exists e.
        split; [apply in_or_app; right; now left|exact Hfrom].
      * intros Hall _. inversion Hall as [|? ? Hshape Hrest]; subst.
        apply IH2; [assumption|]. right.
        now apply (quote_from_populated e).
Qed.

(** C9, amended.  In every reachable state the Quote is absent (both
    fields null) or both fields hold what the [ethereum] member of the body
    of one delivered response gave for [usd] and [usd_24h_change]: no turn
    writes one field without the other, and the two never come from
    different responses.  When every Quote body delivered has the declared
    shape, the Quote is absent or fully populated: both fields are
    numbers. *)
Theorem quote_written_together (events : list Event) (w : World) :
  run_ initialWorld events = Some w ->
  (quote_absent (state (store w))
   \/ (exists e, In e events /\ quote_from e (state (store w)))) /\
  (Forall of_declared_shape events ->
   quote_absent (state (store w)) \/ quote_populated (state (store w))).
Proof.
  intros Hrun. destruct (quote_run events [] initialWorld w Hrun) as [H1 H2].
  assert (H0 : quote_absent (state (store initialWorld))) by (split; reflexivity).
  split; [apply H1; now left|]. intros Hall. apply H2; [assumption|now left].
Qed.

End EventLoop.

(* ===================================================================== *)
(** * The properties on sample runs                                       *)
(* ===================================================================== *)

Lemma reachable_world_after (events : list Event) :
  run sample_cannotRead sample_toLocaleDateString initialWorld events <> None ->
  reachable sample_cannotRead sample_toLocaleDateString (world_after events).
Proof.
  intros H. exists events. unfold world_after.
  destruct (run _ _ _ events); [reflexivity|congruence].
Defined.

(** Startup with the network down: the rejected Quote request does not
    stop [initializeData], which goes on to the Short-Term routine; every
    routine fails in turn, and the loading flag is cleared at the end. *)
Lemma startup_in_sequence_witness :
  reachable sample_cannotRead sample_toLocaleDateString (world_after [Mount]) /\
  nth_error (pending (world_after [Mount])) 0 = Some quote_task /\
  (exists w',
     step sample_cannotRead sample_toLocaleDateString (world_after [Mount])
       (Settle 0 (QuoteSettled connection_lost (of_Z 1700000000000))) = Some w' /\
     awaited_actions (history w')
     = [Started quote_task; Finished quote_task; Started chart_task]) /\
  reachable sample_cannotRead sample_toLocaleDateString (world_after offline_startup) /\
  loading (state (store (world_after offline_startup))) = false /\
  awaited_actions (history (world_after offline_startup)) = startup_sequence.
Proof.
  assert (Hmounted : reachable sample_cannotRead sample_toLocaleDateString
                       (world_after [Mount]))
    by (apply reachable_world_after; vm_compute; discriminate).
  assert (Hnth : nth_error (pending (world_after [Mount])) 0 = Some quote_task)
    by (vm_compute; reflexivity).
  pose proof (startup_in_sequence sample_cannotRead sample_toLocaleDateString
                (world_after [Mount]) Hmounted) as (_ & _ & _ & Hnext).
  destruct (Hnext 0%nat quote_task
              (QuoteSettled connection_lost (of_Z 1700000000000)) Hnth eq_refl
              ltac:(discriminate))
    as (w' & Hstep & Hactions & _).
  assert (Hreach : reachable sample_cannotRead sample_toLocaleDateString
                     (world_after offline_startup))
    by (apply reachable_world_after; vm_compute; discriminate).
  pose proof (startup_in_sequence sample_cannotRead sample_toLocaleDateString
                (world_after offline_startup) Hreach) as (_ & _ & Hiff & _).
  assert (Hclear : loading (state (store (world_after offline_startup))) = false)
    by (vm_compute; reflexivity).
  split; [exact Hmounted|]. split; [exact Hnth|].
  split; [exists w'; split; [exact Hstep|exact Hactions]|].
  split; [exact Hreach|]. split; [exact Hclear|].
  apply Hiff. exact Hclear.
Defined.

(** C8, as stated, fails: after the startup with the network down the
    historical fetch has failed, its loading flag is clear and the series
    is empty, but the view renders no data block, and so no failure
    message for the history. *)
Lemma history_failure_counterexample :
  let w := world_after offline_startup in
  run sample_cannotRead sample_toLocaleDateString initialWorld offline_startup = Some w /\
  In (Finished history_task) (history w) /\
  loadingHistory (state (store w)) = false /\
  historicalData (state (store w)) = [] /\
  render (state (store w))
  = Some {| loading_banner := false;
            error_banner := Some "Error: Failed to fetch. Retrying..."%string;
            data_block := None |} /\
  rendered_history (state (store w)) <> Some HistoryFailed.
Proof.
  cbv zeta. split; [vm_compute; reflexivity|].
  split; [vm_compute; tauto|].
  split; [vm_compute; reflexivity|]. split; [vm_compute; reflexivity|].
  split; [vm_compute; reflexivity|].
  vm_compute. discriminate.
Qed.

(** While the historical request is in flight the section shows the
    loading text; when the request is rejected it shows the failure
    message. *)
Lemma history_loading_flag_witness :
  let w := world_after history_in_flight_startup in
  reachable sample_cannotRead sample_toLocaleDateString w /\
  nth_error (pending w) 1 = Some history_task /\
  loadingHistory (state (store w)) = true /\
  rendered_history (state (store w)) = Some HistoryLoading /\
  exists w',
    step sample_cannotRead sample_toLocaleDateString w
      (Settle 1 (SeriesSettled connection_lost)) = Some w' /\
    loadingHistory (state (store w')) = false /\
    historicalData (state (store w')) = [] /\
    rendered_history (state (store w')) = Some HistoryFailed.
Proof.
  cbv zeta.
  assert (Hreach : reachable sample_cannotRead sample_toLocaleDateString
                     (world_after history_in_flight_startup))
    by (apply reachable_world_after; vm_compute; discriminate).
  assert (Hnth : nth_error (pending (world_after history_in_flight_startup)) 1
                 = Some history_task) by (vm_compute; reflexivity).
  assert (Hin : In history_task (pending (world_after history_in_flight_startup)))
    by (eapply nth_error_In; exact Hnth).
  pose proof (history_loading_flag sample_cannotRead sample_toLocaleDateString
                (world_after history_in_flight_startup) Hreach)
    as (Hflag & Hloading & _ & Hsettle).
  split; [exact Hreach|]. split; [exact Hnth|].
  split; [exact (proj2 Hflag Hin)|].
  assert (Hprice : ethPrice (state (store (world_after history_in_flight_startup)))
                   = JNumber n3000_5) by (vm_compute; reflexivity).
  assert (Hchange : change_formats
                      (priceChange24h
                         (state (store (world_after history_in_flight_startup))))
                    = true) by (vm_compute; reflexivity).
  split; [exact (Hloading n3000_5 Hprice Hchange Hin)|].
  destruct (Hsettle 1%nat connection_lost Hnth) as (w' & Hstep & Hclear & Hfail).
  exists w'. split; [exact Hstep|]. split; [exact Hclear|].
  destruct (Hfail eq_refl) as [Hempty Hview].
  split; [exact Hempty|].
  apply (Hview n3000_5); injection Hstep as <-; vm_compute; reflexivity.
Defined.

(** The render with a Quote outside the declared shape.  A price that is
    the string ["3000"] is formatted, and the data block is rendered with
    the historical section.  A 24h change that is an object with an own
    [toString] cannot be compared with 0: the render throws, although the
    price is a number. *)
Lemma render_undeclared_quote :
  (let w := world_after (history_in_flight_after string_price_payload) in
   ethPrice (state (store w)) = JString "3000" /\
   In history_task (pending w) /\
   rendered_history (state (store w)) = Some HistoryLoading) /\
  (let w := world_after (history_in_flight_after unformattable_change_payload) in
   ethPrice (state (store w)) = JNumber n3000_5 /\
   In history_task (pending w) /\
   change_formats (priceChange24h (state (store w))) = false /\
   render (state (store w)) = None).
Proof.
  cbv zeta. split.
  - split; [vm_compute; reflexivity|]. split; [vm_compute; tauto|].
    vm_compute. reflexivity.
  - split; [vm_compute; reflexivity|]. split; [vm_compute; tauto|].
    split; vm_compute; reflexivity.
Qed.

(** C9, as stated, fails: the body [{ ethereum: { usd: 3000.5 } }] is
    taken as a success; the price is set and the 24h change is
    [undefined]. *)
Lemma partial_quote_counterexample :
  let w := world_after partial_quote_startup in
  run sample_cannotRead sample_toLocaleDateString initialWorld partial_quote_startup
  = Some w /\
  ethPrice (state (store w)) = JNumber n3000_5 /\
  priceChange24h (state (store w)) = JUndefined /\
  ~ (quote_absent (state (store w)) \/ quote_populated (state (store w))).
Proof.
  cbv zeta. split; [vm_compute; reflexivity|].
  split; [vm_compute; reflexivity|]. split; [vm_compute; reflexivity|].
  intros [[H _]|(p & c & _ & H)]; vm_compute in H; discriminate.
Qed.

Lemma quote_written_together_witness :
  let w := world_after quote_only_startup in
  run sample_cannotRead sample_toLocaleDateString initialWorld quote_only_startup
  = Some w /\
  Forall of_declared_shape quote_only_startup /\
  (quote_absent (state (store w)) \/ quote_populated (state (store w))).
Proof.
  cbv zeta.
  assert (Hrun : run sample_cannotRead sample_toLocaleDateString initialWorld
                   quote_only_startup = Some (world_after quote_only_startup))
    by (vm_compute; reflexivity).
  assert (Hshape : Forall of_declared_shape quote_only_startup).
  { repeat constructor. cbn. intros _. discriminate. }
  split; [exact Hrun|]. split; [exact Hshape|].
  exact (proj2 (quote_written_together sample_cannotRead sample_toLocaleDateString
                  quote_only_startup (world_after quote_only_startup) Hrun) Hshape).
Defined.

(* ===================================================================== *)
(** * More about the Quote fetcher                                        *)
(* ===================================================================== *)

Lemma declared_shape_reads (data : JSValue) (pd : PriceData) :
  as_quote_payload data = Some pd ->
  exists ethereum,
    get data "ethereum" = Some ethereum /\
    get ethereum "usd" = Some (JNumber (usd pd)) /\
    get ethereum "usd_24h_change" = Some (JNumber (usd_24h_change pd)).
Proof.
  unfold as_quote_payload. intros H.
  destruct (get data "ethereum") as [eth|]; [|discriminate].
  exists eth.
  destruct (get eth "usd") as [[]|]; destruct (get eth "usd_24h_change") as [[]|];
    try discriminate.
  injection H as <-. repeat split.
Qed.

(** X1.  A 2xx response whose body has the declared shape replaces the
    Quote: the price and the 24h change become the numbers of the body,
    the time of the last update becomes the current time and any error
    message is cleared, whatever was stored before; nothing is logged and
    the other slices are untouched. *)
Theorem quote_success_replaces_quote (cannotRead : string -> string)
    (st : nat) (data : JSValue) (pd : PriceData) (now : number) (s : Store) :
  ok (mkResponse st (Parsed data)) = true ->
  as_quote_payload data = Some pd ->
  fetchEthPrice cannotRead (Resolved (mkResponse st (Parsed data))) now s
  = (Normal tt,
     mkStore
       (mkState (JNumber (usd pd)) (JNumber (usd_24h_change pd))
          (loading (state s)) None (chartData (state s)) (timeframe (state s))
          (Some now) (historicalData (state s)) (loadingHistory (state s)))
       (console s)).
Proof.
  intros Hok Hshape.
  destruct (declared_shape_reads data pd Hshape) as (eth & Hget & Hu & Hc).
  run_routine. rewrite Hok. cbn [body]. rewrite Hget, Hu, Hc. reflexivity.
Qed.

(** The scenario of the specification: the body
    [{ ethereum: { usd: 3000.5, usd_24h_change: -2.25 } }] arrives while an
    error message is shown. *)
Lemma quote_success_replaces_quote_witness :
  let failed := snd (fetchEthPrice sample_cannotRead too_many_requests
                       (of_Z 1700000015000) store_with_quote) in
  let s' := snd (fetchEthPrice sample_cannotRead (ok_response full_quote_payload)
                   (of_Z 1700000030000) failed) in
  error (state failed) <> None /\
  ethPrice (state s') = JNumber n3000_5 /\
  priceChange24h (state s') = JNumber n_2_25 /\
  lastUpdate (state s') = Some (of_Z 1700000030000) /\
  error (state s') = None.
Proof.
  cbv zeta.
  assert (Hok : ok (mkResponse 200 (Parsed full_quote_payload)) = true) by reflexivity.
  assert (Hshape : as_quote_payload full_quote_payload
                   = Some (mkPriceData n3000_5 n_2_25)) by reflexivity.
  unfold ok_response.
  rewrite (quote_success_replaces_quote sample_cannotRead 200 full_quote_payload
             _ (of_Z 1700000030000) _ Hok Hshape).
  cbn [snd state ethPrice priceChange24h lastUpdate error usd usd_24h_change].
  repeat split. vm_compute. discriminate.
Defined.

(** X2.  The status is checked before the body is read: for a response with
    a status outside 200-299 each routine ends in its [catch] block with
    the error "HTTP error! status: <status>", whatever the body is. *)
Theorem status_checked_before_body (cannotRead : string -> string)
    (toLocaleDateString : number -> string) (st : nat) (now : number) (s : Store) :
  ((200 <=? st) && (st <=? 299))%nat = false ->
  let err := ErrorObject ("HTTP error! status: " ++ string_of_nat st)%string in
  (forall b : Body JSValue,
     fetchEthPrice cannotRead (Resolved (mkResponse st b)) now s
     = (Normal tt,
        mkStore
          (mkState (ethPrice (state s)) (priceChange24h (state s)) (loading (state s))
             (Some ("Error: HTTP error! status: " ++ string_of_nat st
                    ++ ". Retrying...")%string)
             (chartData (state s)) (timeframe (state s)) (lastUpdate (state s))
             (historicalData (state s)) (loadingHistory (state s)))
          (console s ++ [mkLogEntry "Fetch error:" err]))) /\
  (forall b : Body MarketChart,
     fetchChartData (Resolved (mkResponse st b)) s
     = (Normal tt,
        mkStore (state s)
          (console s ++ [mkLogEntry "Failed to fetch chart data:" err]))) /\
  (forall b : Body MarketChart,
     fetchHistoricalData toLocaleDateString (Resolved (mkResponse st b)) s
     = (Normal tt,
        mkStore
          (mkState (ethPrice (state s)) (priceChange24h (state s)) (loading (state s))
             (error (state s)) (chartData (state s)) (timeframe (state s))
             (lastUpdate (state s)) (historicalData (state s)) false)
          (console s ++ [mkLogEntry "Failed to fetch historical data:" err]))).
Proof.
  intros Hst err.
  assert (Hok : forall P (b : Body P), ok (mkResponse st b) = false)
    by (intros P b; exact Hst).
  repeat split; intros b; run_routine; rewrite Hok; reflexivity.
Qed.

(** A 503 whose body happens to be a well-formed quote: the body is not
    looked at. *)
Lemma status_checked_before_body_witness :
  ((200 <=? 503) && (503 <=? 299))%nat = false /\
  error (state (snd (fetchEthPrice sample_cannotRead
                       (Resolved (mkResponse 503 (Parsed full_quote_payload)))
                       (of_Z 1700000015000) store_with_quote)))
  = Some "Error: HTTP error! status: 503. Retrying..."%string /\
  ethPrice (state (snd (fetchEthPrice sample_cannotRead
                       (Resolved (mkResponse 503 (Parsed full_quote_payload)))
                       (of_Z 1700000015000) store_with_quote)))
  = ethPrice (state store_with_quote).
Proof.
  assert (H : ((200 <=? 503) && (503 <=? 299))%nat = false) by reflexivity.
  split; [exact H|].
  rewrite (proj1 (status_checked_before_body sample_cannotRead
                    sample_toLocaleDateString 503 (of_Z 1700000015000)
                    store_with_quote H) (Parsed full_quote_payload)).
  split; reflexivity.
Defined.

(** X3.  A failing Historical Series fetch (a network error, a status
    outside 200-299, a body that is no JSON text or has no [prices] array)
    returns normally, clears the loading flag of the history in its
    [finally] block, logs one diagnostic labelled
    "Failed to fetch historical data:" and changes nothing else: the
    historical series, the Quote and the error message stay as they were. *)
Theorem history_failure_only_clears_flag (toLocaleDateString : number -> string)
    (res : FetchResult MarketChart) (s : Store) :
  series_fetch_fails res = true ->
  let result := fetchHistoricalData toLocaleDateString res s in
  let s' := snd result in
  fst result = Normal tt /\
  loadingHistory (state s') = false /\
  historicalData (state s') = historicalData (state s) /\
  error (state s') = error (state s) /\
  ethPrice (state s') = ethPrice (state s) /\
  priceChange24h (state s') = priceChange24h (state s) /\
  chartData (state s') = chartData (state s) /\
  timeframe (state s') = timeframe (state s) /\
  loading (state s') = loading (state s) /\
  lastUpdate (state s') = lastUpdate (state s) /\
  (exists err,
     console s' = console s ++ [mkLogEntry "Failed to fetch historical data:" err]).
Proof.
  intros H result s'.
  destruct (fetchHistoricalData_fails toLocaleDateString res s H) as [err E].
  unfold s', result. rewrite E. cbn.
  repeat (split; [reflexivity|]). now exists err.
Qed.

Lemma history_failure_only_clears_flag_witness :
  let s := snd (fetchHistoricalData_begin store_with_quote) in
  let s' := snd (fetchHistoricalData sample_toLocaleDateString connection_lost s) in
  series_fetch_fails (@connection_lost MarketChart) = true /\
  loadingHistory (state s) = true /\
  loadingHistory (state s') = false /\
  historicalData (state s') = [] /\
  error (state s') = None.
Proof.
  cbv zeta.
  assert (H : series_fetch_fails (@connection_lost MarketChart) = true) by reflexivity.
  pose proof (history_failure_only_clears_flag sample_toLocaleDateString
                connection_lost (snd (fetchHistoricalData_begin store_with_quote)) H)
    as (_ & Hflag & Hseries & Herr & _).
  split; [exact H|]. split; [reflexivity|]. split; [exact Hflag|].
  split; [rewrite Hseries; reflexivity|rewrite Herr; reflexivity].
Defined.

(* ===================================================================== *)
(** * More about the derived statistics                                   *)
(* ===================================================================== *)

Lemma fold_add_nan (xs : list number) : fold_left add xs NaN = NaN.
Proof. induction xs as [|x xs IH]; [reflexivity|exact IH]. Qed.

Lemma fold_add_poisoned (xs : list number) : forall acc,
  Exists (fun x => is_nan x = true) xs -> fold_left add xs acc = NaN.
Proof.
  induction xs as [|x xs IH]; intros acc H; inversion H as [? ? Hx|? ? Hxs]; subst.
  - destruct x; try discriminate. cbn [fold_left].
    replace (add acc S754_nan) with NaN by (destruct acc; reflexivity).
    apply fold_add_nan.
  - cbn [fold_left]. now apply IH.
Qed.

(** X4.  One price that is NaN makes all three statistics NaN. *)
Theorem nan_price_poisons_statistics (S : list ChartData) :
  Exists (fun d => is_nan (price d) = true) S ->
  minPrice S = NaN /\ maxPrice S = NaN /\ avgPrice S = NaN.
Proof.
  intros H.
  assert (Hne : S <> []) by (intros ->; inversion H).
  assert (Hex : Exists (fun x => is_nan x = true) (map price S)).
  { apply Exists_exists in H as (d & Hin & Hd). apply Exists_exists.
    exists (price d). split; [now apply in_map|exact Hd]. }
  rewrite minPrice_nonempty, maxPrice_nonempty, avgPrice_nonempty by assumption.
  destruct (Math_min_max_nan _ Hex) as [-> ->].
  repeat split. now rewrite fold_add_poisoned.
Qed.

Lemma nan_price_poisons_statistics_witness :
  let S := [ point (of_Z 1700000000000) (of_Z 100);
             point (of_Z 1700003600000) NaN;
             point (of_Z 1700007200000) (of_Z 110) ] in
  Exists (fun d => is_nan (price d) = true) S /\
  minPrice S = NaN /\ maxPrice S = NaN /\ avgPrice S = NaN.
Proof.
  cbv zeta.
  assert (H : Exists (fun d => is_nan (price d) = true)
                [ point (of_Z 1700000000000) (of_Z 100);
                  point (of_Z 1700003600000) NaN;
                  point (of_Z 1700007200000) (of_Z 110) ])
    by (apply Exists_cons_tl, Exists_cons_hd; reflexivity).
  split; [exact H|]. exact (nan_price_poisons_statistics _ H).
Defined.

(* ===================================================================== *)
(** * The coordinates of the short-term chart                             *)
(* ===================================================================== *)

Section Polyline.






Lemma div_eucl_mul (m : positive) (k : Z) :
  Z.div_eucl (Z.pos m * k) (Z.pos m) = (k, 0%Z).
Proof.
  pose proof (Z_div_mult_full k (Z.pos m) ltac:(discriminate)) as Hq.
  pose proof (Z_mod_mult k (Z.pos m)) as Hr.
  unfold Z.div, Z.modulo in Hq, Hr. rewrite (Z.mul_comm k) in Hq, Hr.
  destruct (Z.div_eucl (Z.pos m * k) (Z.pos m)) as [q r]. cbn in *. congruence.
Qed.

(** A finite number that is not zero, divided by itself, is 1. *)
Lemma div_self (s : bool) (m : positive) (e : Z) :
  div (S754_finite s m e) (S754_finite s m e) = of_Z 1.
Proof.
  unfold div, SFdiv, SFdiv_core_binary.
  replace (Zdigits2 (Zpos m) + e - (Zdigits2 (Zpos m) + e))%Z with 0%Z by lia.
  rewrite Z.sub_diag, xorb_nilpotent.
  change (Z.min (fexp prec emax 0) 0) with (-53)%Z.
  change (0 - -53)%Z with 53%Z. cbv iota beta.
  rewrite Z.shiftl_mul_pow2 by lia. rewrite div_eucl_mul.
  assert (Hloc : new_location (Z.pos m) 0 = loc_Exact).
  { unfold new_location, new_location_even, new_location_odd.
    now destruct (Z.even (Z.pos m)). }
  rewrite Hloc. vm_compute. reflexivity.
Qed.

(** The difference of a finite number and itself is [+0]. *)
Lemma sub_self_finite (p : number) :
  is_finite p = true -> sub p p = S754_zero false.
Proof.
  destruct p as [[|]|[|]| |s m e]; try discriminate; try reflexivity.
  intros _. unfold sub, SFsub. rewrite Z.sub_diag. reflexivity.
Qed.

Lemma sub_finite_operand (x y : number) (s : bool) (m : positive) (e : Z) :
  sub x y = S754_finite s m e -> is_finite y = true.
Proof.
  destruct x as [sx|[|]| |sx mx ex], y as [sy|[|]| |sy my ey];
    try reflexivity; try discriminate.
Qed.

(** X17.  When the greatest and the least price of the series differ (the
    denominator [maxPrice - minPrice] is a finite number other than zero),
    the chart spans the height of its 100 by 50 view box exactly: every
    point with the least price gets [y = 50], the bottom edge, every point
    with the greatest price gets [y = 0], the top edge, and the series has
    a point of each kind. *)
Theorem polyline_spans_height (S : list ChartData) (s : bool) (m : positive)
    (e : Z) :
  S <> [] -> no_nan (map price S) ->
  sub (maxPrice S) (minPrice S) = S754_finite s m e ->
  (forall d, price d = minPrice S -> polyline_y S d = of_Z 50) /\
  (forall d, price d = maxPrice S -> polyline_y S d = S754_zero false) /\
  (exists d, In d S /\ price d = minPrice S) /\
  (exists d, In d S /\ price d = maxPrice S).
Proof.
  intros Hne Hnan Hd. split; [|split; [|split]].
  - intros d Hp. unfold polyline_y. rewrite Hp, Hd.
    rewrite (sub_self_finite _ (sub_finite_operand _ _ s m e Hd)).
    destruct s; vm_compute; reflexivity.
  - intros d Hp. unfold polyline_y. rewrite Hp, Hd, div_self.
    vm_compute. reflexivity.
  - assert (Hne' : map price S <> []) by (destruct S; [congruence|discriminate]).
    destruct (Math_min_is_minimum _ Hne' Hnan) as [Hin _].
    apply in_map_iff in Hin as (d & Hp & Hin). exists d.
    rewrite minPrice_nonempty by assumption. now split.
  - assert (Hne' : map price S <> []) by (destruct S; [congruence|discriminate]).
    destruct (Math_max_is_maximum _ Hne' Hnan) as [Hin _].
    apply in_map_iff in Hin as (d & Hp & Hin). exists d.
    rewrite maxPrice_nonempty by assumption. now split.
Qed.

End Polyline.

(** The prices 100 and 110: the first point is drawn at the bottom edge,
    the second at the top edge. *)
Lemma polyline_spans_height_witness :
  two_point_series <> [] /\
  no_nan (map price two_point_series) /\
  sub (maxPrice two_point_series) (minPrice two_point_series) = of_Z 10 /\
  map snd (polyline_points two_point_series) = [of_Z 50; S754_zero false].
Proof.
  assert (Hne : two_point_series <> []) by discriminate.
  assert (Hnan : no_nan (map price two_point_series)) by (repeat constructor).
  assert (Hd : sub (maxPrice two_point_series) (minPrice two_point_series)
               = S754_finite false 5629499534213120 (-49))
    by (vm_compute; reflexivity).
  split; [exact Hne|]. split; [exact Hnan|]. split; [vm_compute; reflexivity|].
  destruct (polyline_spans_height two_point_series _ _ _ Hne Hnan Hd)
    as (Hlo & Hhi & _).
  unfold polyline_points, map_idx, two_point_series.
  cbn [map_from map snd]. fold two_point_series.
  rewrite (Hlo (point (of_Z 1700000000000) (of_Z 100)))
    by (vm_compute; reflexivity).
  rewrite (Hhi (point (of_Z 1700003600000) (of_Z 110)))
    by (vm_compute; reflexivity).
  reflexivity.
Defined.


(* ===================================================================== *)
(** * More about downsampling                                             *)
(* ===================================================================== *)

(** X6.  Downsampling keeps the first point, so the result is empty only
    for an empty series; the last point kept is the one at the greatest
    index that is a multiple of 30, which lies [(N - 1) mod 30] positions
    before the newest point. *)
Theorem downsample_newest_point {A : Type} (l : list A) :
  (downsample l = [] <-> l = []) /\
  hd_error (downsample l) = hd_error l /\
  (l <> [] ->
   nth_error (downsample l) (List.length (downsample l) - 1)
   = nth_error l (List.length l - 1 - (List.length l - 1) mod 30)).
Proof.
  split; [|split].
  - split; [|now intros ->].
    destruct l as [|x rest]; [reflexivity|].
    rewrite downsample_cons. discriminate.
  - destruct l as [|x rest]; [reflexivity|]. now rewrite downsample_cons.
  - intros Hne. rewrite downsample_nth_error, downsample_length. f_equal.
    assert (Hlen : (1 <= List.length l)%nat)
      by (destruct l; [congruence|cbn; lia]).
    unfold ceil_div.
    set (N := List.length l) in *.
    replace (N + (30 - 1))%nat with ((N - 1) + 1 * 30)%nat by lia.
    rewrite Nat.div_add by lia.
    pose proof (Nat.div_mod_eq (N - 1) 30). lia.
Qed.

(** Of 3650 daily points the last one kept is the point of index 3630: the
    chart ends 19 days before the newest point. *)
Lemma downsample_newest_point_witness :
  daily_prices <> [] /\
  nth_error (downsample daily_prices) 121 = nth_error daily_prices 3630.
Proof.
  assert (Hne : daily_prices <> []) by discriminate.
  split; [exact Hne|].
  pose proof (proj2 (proj2 (downsample_newest_point daily_prices)) Hne) as H.
  rewrite downsample_length in H. exact H.
Defined.



(* ===================================================================== *)
(** * The view after a failed refresh                                     *)
(* ===================================================================== *)

(** X8.  A failing Quote fetch writes the error message and nothing else
    that the view is computed from: the state after it is the state before
    with the error replaced by a text containing "Retrying".  So whatever
    the page showed, for any stored price, the next page differs from it in
    the error banner only.  In the view model the next view is the previous
    one with the new text in its banner (with its Retry button); the data
    block with the last price, if there was one, is still rendered, and a
    render that threw throws again. *)
Theorem failed_refresh_keeps_view (cannotRead : string -> string)
    (res : FetchResult JSValue) (now : number) (s : Store) :
  quote_fetch_throws res = true ->
  let s' := state (snd (fetchEthPrice cannotRead res now s)) in
  exists text,
    contains "Retrying" text /\
    s' = mkState (ethPrice (state s)) (priceChange24h (state s))
           (loading (state s)) (Some text) (chartData (state s))
           (timeframe (state s)) (lastUpdate (state s))
           (historicalData (state s)) (loadingHistory (state s)) /\
    render s'
    = option_map
        (fun v => {| loading_banner := loading_banner v;
                     error_banner := Some text;
                     data_block := data_block v |})
        (render (state s)).
Proof.
  intros H. cbv zeta.
  destruct (fetchEthPrice_throws cannotRead res now s H) as [err E].
  rewrite E. cbn [snd state].
  exists ("Error: " ++ shown_message err ++ ". Retrying...")%string.
  split; [apply retrying_message|]. split; [reflexivity|].
  unfold render. cbn [ethPrice priceChange24h error loading chartData].
  unfold historicalSection. cbn [loadingHistory historicalData].
  destruct (ethPrice (state s));
    try destruct (price_formats _ && change_formats _); reflexivity.
Qed.

(** A rate-limited refresh while a Quote is shown. *)
Lemma failed_refresh_keeps_view_witness :
  quote_fetch_throws (@too_many_requests JSValue) = true /\
  exists v text,
    render (state store_with_quote) = Some v /\
    data_block v <> None /\
    contains "Retrying" text /\
    render (state (snd (fetchEthPrice sample_cannotRead too_many_requests
                          (of_Z 1700000015000) store_with_quote)))
    = Some {| loading_banner := loading_banner v;
              error_banner := Some text;
              data_block := data_block v |}.
Proof.
  assert (H : quote_fetch_throws (@too_many_requests JSValue) = true) by reflexivity.
  split; [exact H|].
  destruct (failed_refresh_keeps_view sample_cannotRead too_many_requests
              (of_Z 1700000015000) store_with_quote H) as (text & Hc & _ & E).
  eexists. exists text.
  split; [vm_compute; reflexivity|]. split; [discriminate|].
  split; [exact Hc|]. rewrite E. vm_compute. reflexivity.
Defined.

(* ===================================================================== *)
(** * More about the component over time                                  *)
(* ===================================================================== *)

Section MoreListFacts.

Context {A : Type}.

Lemma nth_error_remove_nth_before (l : list A) : forall i j,
  (i < j)%nat -> nth_error (remove_nth j l) i = nth_error l i.
Proof.
  induction l as [|x l IH]; intros [|i] [|j] H; try lia; cbn; try reflexivity;
    try (now destruct i).
  apply IH. lia.
Qed.

Lemma nth_error_remove_nth_after (l : list A) : forall i j,
  (i <= j)%nat -> nth_error (remove_nth i l) j = nth_error l (S j).
Proof.
  induction l as [|x l IH]; intros [|i] [|j] H; try lia; cbn; try reflexivity;
    try (now destruct j).
  apply IH. lia.
Qed.

Lemma nth_error_app_some (l l' : list A) (i : nat) (x : A) :
  nth_error l i = Some x -> nth_error (l ++ l') i = Some x.
Proof.
  intros H. rewrite nth_error_app1; [exact H|].
  apply nth_error_Some. congruence.
Qed.

Lemma Forall_remove_nth (P : A -> Prop) (l : list A) (i : nat) :
  Forall P l -> Forall P (remove_nth i l).
Proof.
  rewrite !Forall_forall. intros H x Hx. apply H.
  eapply In_remove_nth; eassumption.
Qed.

Lemma filter_filter_implied (f g : A -> bool) (l : list A) :
  (forall a, In a l -> f a = true -> g a = true) ->
  filter f (filter g l) = filter f l.
Proof.
  induction l as [|x l IH]; intros H; [reflexivity|]. cbn [filter].
  destruct (g x) eqn:Hg.
  - cbn [filter]. rewrite IH; [reflexivity|]. intros a Ha. apply H. now right.
  - destruct (f x) eqn:Hf.
    + rewrite (H x (or_introl eq_refl) Hf) in Hg. discriminate.
    + apply IH. intros a Ha. apply H. now right.
Qed.

End MoreListFacts.

Section MoreEventLoop.

Variable cannotRead : string -> string.
Variable toLocaleDateString : number -> string.

Local Abbreviation step_ := (step cannotRead toLocaleDateString).
Local Abbreviation run_ := (run cannotRead toLocaleDateString).
Local Abbreviation resume_ := (resume cannotRead toLocaleDateString).
Local Abbreviation reachable_ := (reachable cannotRead toLocaleDateString).

(** The world after the turn that settles the request of task [t]: the
    slices that only the routines write are as the routine left them, the
    request is gone from those in flight, and what [initializeData] starts
    next is appended. *)
Lemma settled_world (w : World) (i : nat) (x : Settlement) (t : Task)
    (routine : Eff unit) :
  nth_error (pending w) i = Some t ->
  resume_ t x = Some routine ->
  exists w',
    step_ w (Settle i x) = Some w' /\
    let s1 := state (snd (routine (store w))) in
    ethPrice (state (store w')) = ethPrice s1 /\
    priceChange24h (state (store w')) = priceChange24h s1 /\
    error (state (store w')) = error s1 /\
    chartData (state (store w')) = chartData s1 /\
    timeframe (state (store w')) = timeframe s1 /\
    lastUpdate (state (store w')) = lastUpdate s1 /\
    mounted w' = mounted w /\
    pending w' = remove_nth i (pending w) ++ next_tasks t /\
    history w' = history w ++ Finished t :: map Started (next_tasks t).
Proof.
  intros Hnth Hres. eexists. split; [apply (step_settle _ _ w i x t routine Hnth Hres)|].
  cbv zeta. unfold next_tasks.
  destruct t as [[|tf|] [|]]; cbn; rewrite ?app_nil_r; repeat split;
    now rewrite <- app_assoc.
Qed.

(** What a resumed routine leaves alone, slice by slice. *)
Lemma resume_frame (t : Task) (x : Settlement) (routine : Eff unit) (s : Store) :
  resume_ t x = Some routine ->
  let s' := state (snd (routine s)) in
  timeframe s' = timeframe (state s) /\
  match fetcher t with
  | QuoteFetcher => chartData s' = chartData (state s)
  | ShortTermFetcher _ =>
      ethPrice s' = ethPrice (state s) /\
      priceChange24h s' = priceChange24h (state s) /\
      error s' = error (state s) /\ lastUpdate s' = lastUpdate (state s)
  | HistoricalFetcher =>
      ethPrice s' = ethPrice (state s) /\
      priceChange24h s' = priceChange24h (state s) /\
      error s' = error (state s) /\ lastUpdate s' = lastUpdate (state s) /\
      chartData s' = chartData (state s)
  end.
Proof.
  unfold resume. destruct t as [[|tf|] c]; destruct x as [res now|res];
    cbn [fetcher]; intros H; try discriminate; injection H as <-; cbv zeta.
  - destruct (fetchEthPrice_frame cannotRead res now s) as (p & ch & e & u & lg & E).
    rewrite E. repeat split.
  - destruct (fetchChartData_frame res s) as (cd & lg & E).
    rewrite E. repeat split.
  - destruct (fetchHistoricalData_frame toLocaleDateString res s)
      as (hd & lg & E & _).
    rewrite E. repeat split.
Qed.

(** The world after a turn that settles nothing: only the selected
    timeframe and the top-level loading flag can have been written, and the
    routines the event calls are in flight. *)
Lemma unsettled_world (w w' : World) (e : Event) :
  step_ w e = Some w' ->
  (forall i x, e <> Settle i x) ->
  ethPrice (state (store w')) = ethPrice (state (store w)) /\
  priceChange24h (state (store w')) = priceChange24h (state (store w)) /\
  error (state (store w')) = error (state (store w)) /\
  chartData (state (store w')) = chartData (state (store w)) /\
  lastUpdate (state (store w')) = lastUpdate (state (store w)) /\
  historicalData (state (store w')) = historicalData (state (store w)) /\
  loadingHistory (state (store w')) = loadingHistory (state (store w)) /\
  console (store w') = console (store w) /\
  timeframe (state (store w'))
  = match e with
    | ClickTimeframe tf => tf
    | _ => timeframe (state (store w))
    end /\
  match e with
  | ClickTimeframe tf => is_timeframe tf = true
  | _ => True
  end /\
  mounted w' = true /\
  pending w' = pending w ++ started_by w e /\
  history w' = history w ++ map Started (started_by w e) /\
  mounted w = match e with Mount => false | _ => true end /\
  (e <> Mount -> loading (state (store w')) = loading (state (store w))).
Proof.
  intros Hstep Hns. destruct e as [| | |tf|i x]; cbn [step] in Hstep.
  - destruct (mounted w) eqn:Hm; [discriminate|]. injection Hstep as <-.
    cbn. rewrite <- !app_assoc. repeat split; congruence.
  - destruct (mounted w) eqn:Hm; [|discriminate]. injection Hstep as <-.
    cbn. repeat split; exact Hm.
  - destruct (mounted w) eqn:Hm; [|discriminate]. injection Hstep as <-.
    cbn. repeat split; exact Hm.
  - destruct (mounted w) eqn:Hm; [|discriminate].
    destruct (is_timeframe tf) eqn:Htf; [|discriminate]. cbn [andb] in Hstep.
    injection Hstep as <-. cbn [started_by].
    destruct (String.eqb tf (timeframe (state (store w)))); cbn;
      rewrite ?app_nil_r; repeat split; assumption.
  - now specialize (Hns i x).
Qed.

Lemma Forall_snoc_list {A : Type} (P : A -> Prop) (l l' : list A) :
  Forall P l -> Forall P l' -> Forall P (l ++ l').
Proof. intros H H'. apply Forall_app. now split. Qed.

(** A property of tasks that holds of the tasks the source starts is kept
    by every turn. *)
Lemma tasks_satisfy_step (P : Task -> bool) (w w' : World) (e : Event) :
  P quote_task = true -> P chart_task = true -> P history_task = true ->
  P detached_quote = true ->
  (forall tf, is_timeframe tf = true ->
     P (mkTask (ShortTermFetcher tf) Detached) = true) ->
  step_ w e = Some w' -> tasks_satisfy P w -> tasks_satisfy P w'.
Proof.
  intros Pq Pc Ph Pd Ptf Hstep (Htf & Hp & Hh).
  assert (Hnext : forall t, Forall (fun t' => P t' = true) (next_tasks t)).
  { intros [[|tf|] [|]]; cbn; repeat constructor; assumption. }
  destruct e as [| | |tf|i x].
  5:{ destruct (nth_error (pending w) i) as [t|] eqn:Hnth;
        [|cbn [step] in Hstep; rewrite Hnth in Hstep; discriminate].
      destruct (resume_ t x) as [routine|] eqn:Hres;
        [|cbn [step] in Hstep; rewrite Hnth, Hres in Hstep; discriminate].
      destruct (settled_world w i x t routine Hnth Hres)
        as (w1 & Hstep1 & _ & _ & _ & _ & Htf1 & _ & _ & Hp1 & Hh1).
      rewrite Hstep1 in Hstep. injection Hstep as <-.
      cbv zeta in Htf1.
      rewrite (proj1 (resume_frame t x routine (store w) Hres)) in Htf1.
      assert (Pt : P t = true).
      { rewrite Forall_forall in Hp. apply Hp. eapply nth_error_In; eassumption. }
      unfold tasks_satisfy. rewrite Htf1, Hp1, Hh1. split; [exact Htf|]. split.
      - apply Forall_snoc_list; [now apply Forall_remove_nth|apply Hnext].
      - apply Forall_snoc_list; [exact Hh|]. constructor; [exact Pt|].
        apply Forall_map. cbn [task_of]. apply Hnext. }
  all: destruct (unsettled_world w w' _ Hstep ltac:(discriminate))
         as (_ & _ & _ & _ & _ & _ & _ & _ & Htf' & Hguard & _ & Hp' & Hh' & _);
       unfold tasks_satisfy; rewrite Htf', Hp', Hh'; cbn [started_by].
  - repeat split; [exact Htf| |]; apply Forall_snoc_list; auto;
      repeat constructor; cbn [task_of]; auto.
  - repeat split; [exact Htf| |]; apply Forall_snoc_list; auto;
      repeat constructor; cbn [task_of]; auto.
  - repeat split; [exact Htf| |]; apply Forall_snoc_list; auto;
      repeat constructor; cbn [task_of]; auto.
  - split; [exact Hguard|].
    destruct (String.eqb tf _); cbn [map]; rewrite ?app_nil_r; split; auto;
      apply Forall_snoc_list; auto; repeat constructor; cbn [task_of]; auto.
Qed.

Lemma tasks_satisfy_run (P : Task -> bool) (events : list Event) :
  P quote_task = true -> P chart_task = true -> P history_task = true ->
  P detached_quote = true ->
  (forall tf, is_timeframe tf = true ->
     P (mkTask (ShortTermFetcher tf) Detached) = true) ->
  forall w w', run_ w events = Some w' -> tasks_satisfy P w -> tasks_satisfy P w'.
Proof.
  intros Pq Pc Ph Pd Ptf.
  induction events as [|e rest IH]; intros w w' Hrun Hw; cbn [run] in Hrun.
  - now injection Hrun as <-.
  - destruct (step_ w e) as [w1|] eqn:Hstep; [|discriminate].
    apply (IH w1 w' Hrun). eapply tasks_satisfy_step; eassumption.
Qed.

Lemma tasks_satisfy_reachable (P : Task -> bool) (w : World) :
  P quote_task = true -> P chart_task = true -> P history_task = true ->
  P detached_quote = true ->
  (forall tf, is_timeframe tf = true ->
     P (mkTask (ShortTermFetcher tf) Detached) = true) ->
  reachable_ w -> tasks_satisfy P w.
Proof.
  intros Pq Pc Ph Pd Ptf [events Hrun].
  apply (tasks_satisfy_run P events Pq Pc Ph Pd Ptf initialWorld w Hrun).
  repeat split; constructor.
Qed.

(** Who writes the error slice in one turn: a settled Quote request, and
    nothing else. *)
Lemma step_error (w w' : World) (e : Event) :
  step_ w e = Some w' ->
  match e with
  | Settle _ (QuoteSettled res _) => banner_of res (error (state (store w')))
  | _ => error (state (store w')) = error (state (store w))
  end.
Proof.
  intros Hstep. destruct e as [| | |tf|i x].
  5:{ destruct (nth_error (pending w) i) as [t|] eqn:Hnth;
        [|cbn [step] in Hstep; rewrite Hnth in Hstep; discriminate].
      destruct (resume_ t x) as [routine|] eqn:Hres;
        [|cbn [step] in Hstep; rewrite Hnth, Hres in Hstep; discriminate].
      destruct (settled_world w i x t routine Hnth Hres)
        as (w1 & Hstep1 & _ & _ & Herr & _).
      rewrite Hstep1 in Hstep. injection Hstep as <-. rewrite Herr.
      pose proof (resume_frame t x routine (store w) Hres) as Hframe.
      cbv zeta in Hframe. destruct Hframe as [_ Hframe].
      unfold resume in Hres.
      destruct t as [[|tf|] c]; destruct x as [res now|res]; cbn [fetcher] in *;
        try discriminate; injection Hres as <-.
      - unfold banner_of. destruct (quote_fetch_throws res) eqn:Hthrows.
        + destruct (fetchEthPrice_throws cannotRead res now (store w) Hthrows)
            as [err E].
          rewrite E. now exists err.
        + destruct (fetchEthPrice_reads cannotRead res now (store w) Hthrows)
            as (r & data & eth & p & c' & _ & _ & _ & _ & _ & _ & E).
          now rewrite E.
      - apply Hframe.
      - apply Hframe. }
  all: now destruct (unsettled_world w w' _ Hstep ltac:(discriminate))
         as (_ & _ & Herr & _).
Qed.

Lemma run_error (events : list Event) : forall (w w' : World),
  run_ w events = Some w' ->
  match last_quote_result events with
  | Some res => banner_of res (error (state (store w')))
  | None => error (state (store w')) = error (state (store w))
  end.
Proof.
  induction events as [|e rest IH]; intros w w' Hrun; cbn [run] in Hrun.
  - now injection Hrun as <-.
  - destruct (step_ w e) as [w1|] eqn:Hstep; [|discriminate].
    specialize (IH w1 w' Hrun). pose proof (step_error w w1 e Hstep) as He.
    cbn [last_quote_result].
    destruct (last_quote_result rest) as [res|]; [exact IH|].
    rewrite IH. destruct e as [| | |tf|i [res now|res]]; exact He.
Qed.

(** X9.  The error banner follows the Quote request that settled last,
    whatever else happened in the run (the effects, the interval, clicks on
    Retry or on a timeframe, series requests that succeed or fail): it holds
    the "Error: ... Retrying..." text when that request failed in a way the
    routine notices, and it is clear when that request gave a Quote or when
    no Quote request has settled yet.  So a failing chart or historical
    request never shows in the banner, and a click on Retry does not clear
    it before the answer is there. *)
Theorem error_banner_follows_last_quote (events : list Event) (w : World) :
  run_ initialWorld events = Some w ->
  match last_quote_result events with
  | Some res =>
      banner_of res (error (state (store w))) /\
      (quote_fetch_throws res = true ->
       exists text, error (state (store w)) = Some text /\
                    contains "Retrying" text /\
                    truthy (error (state (store w))) = Some text)
  | None => error (state (store w)) = None
  end.
Proof.
  intros Hrun. pose proof (run_error events initialWorld w Hrun) as H.
  destruct (last_quote_result events) as [res|]; [|exact H].
  split; [exact H|]. intros Hthrows. unfold banner_of in H.
  rewrite Hthrows in H. destruct H as [err ->].
  eexists. split; [reflexivity|]. split; [apply retrying_message|reflexivity].
Qed.

(** One turn either leaves the Quote and the time of its update alone or
    writes all three from the response the event delivers. *)
Lemma step_stamp (w w' : World) (e : Event) :
  step_ w e = Some w' ->
  (ethPrice (state (store w')) = ethPrice (state (store w)) /\
   priceChange24h (state (store w')) = priceChange24h (state (store w)) /\
   lastUpdate (state (store w')) = lastUpdate (state (store w)))
  \/ quote_stamped_by e (state (store w')).
Proof.
  intros Hstep. destruct e as [| | |tf|i x].
  5:{ destruct (nth_error (pending w) i) as [t|] eqn:Hnth;
        [|cbn [step] in Hstep; rewrite Hnth in Hstep; discriminate].
      destruct (resume_ t x) as [routine|] eqn:Hres;
        [|cbn [step] in Hstep; rewrite Hnth, Hres in Hstep; discriminate].
      destruct (settled_world w i x t routine Hnth Hres)
        as (w1 & Hstep1 & Hp & Hc & _ & _ & _ & Hu & _).
      rewrite Hstep1 in Hstep. injection Hstep as <-.
      unfold quote_stamped_by, quote_from. rewrite Hp, Hc, Hu.
      pose proof (resume_frame t x routine (store w) Hres) as Hframe.
      cbv zeta in Hframe. destruct Hframe as [_ Hframe].
      unfold resume in Hres.
      destruct t as [[|tf|] c]; destruct x as [res now|res]; cbn [fetcher] in *;
        try discriminate; injection Hres as <-.
      - destruct (quote_fetch_throws res) eqn:Hthrows.
        + left.
          destruct (fetchEthPrice_throws cannotRead res now (store w) Hthrows)
            as [err E].
          rewrite E. repeat split.
        + right.
          destruct (fetchEthPrice_reads cannotRead res now (store w) Hthrows)
            as (r & data & eth & p & c' & -> & Hok & Hbody & Hget & Hpr & Hch & E).
          rewrite E. cbn [snd state ethPrice priceChange24h lastUpdate].
          exists i, r, now. repeat split.
          exists i, r, data, eth, now. auto 6.
      - left. tauto.
      - left. tauto. }
  all: left; destruct (unsettled_world w w' _ Hstep ltac:(discriminate))
         as (Hp & Hc & _ & _ & Hu & _); auto.
Qed.

Lemma stamp_run (events : list Event) : forall (pre : list Event) (w w' : World),
  run_ w events = Some w' ->
  (quote_absent (state (store w)) /\ lastUpdate (state (store w)) = None)
  \/ (exists e, In e pre /\ quote_stamped_by e (state (store w))) ->
  (quote_absent (state (store w')) /\ lastUpdate (state (store w')) = None)
  \/ (exists e, In e (pre ++ events) /\ quote_stamped_by e (state (store w'))).
Proof.
  induction events as [|e rest IH]; intros pre w w' Hrun H; cbn [run] in Hrun.
  - injection Hrun as <-. now rewrite app_nil_r.
  - destruct (step_ w e) as [w1|] eqn:Hstep; [|discriminate].
    specialize (IH (pre ++ [e]) w1 w' Hrun).
    rewrite <- app_assoc in IH. cbn [app] in IH. apply IH.
    destruct (step_stamp w w1 e Hstep) as [(Hp & Hc & Hu)|Hfrom].
    + unfold quote_absent, quote_stamped_by, quote_from in *.
      rewrite Hp, Hc, Hu. destruct H as [H|(e0 & Hin & H)]; [now left|right].
      exists e0. split; [apply in_or_app; now left|exact H].
    + right. exists e. split; [apply in_or_app; right; now left|exact Hfrom].
Qed.

(** X10.  In every reachable state the time of the last update belongs to
    the stored Quote: either no Quote has been stored and there is no time
    of update, or the price, the 24h change and the time of update were
    written in one turn, from one delivered response and the clock read
    when it arrived.  So whenever the data block is rendered with a price,
    its "Last updated" line is rendered too. *)
Theorem quote_time_stamp (events : list Event) (w : World) :
  run_ initialWorld events = Some w ->
  ((quote_absent (state (store w)) /\ lastUpdate (state (store w)) = None)
   \/ (exists e, In e events /\ quote_stamped_by e (state (store w)))) /\
  (forall p, ethPrice (state (store w)) = JNumber p ->
     lastUpdate (state (store w)) <> None).
Proof.
  intros Hrun.
  assert (H : (quote_absent (state (store w)) /\ lastUpdate (state (store w)) = None)
              \/ (exists e, In e events /\ quote_stamped_by e (state (store w)))).
  { apply (stamp_run events [] initialWorld w Hrun). left. repeat split. }
  split; [exact H|]. intros p Hp.
  destruct H as [[[Hnull _] _]|(e & _ & i & r & now & _ & Hu & _)]; congruence.
Qed.

(** X18.  The startup when all goes well.  When the Quote endpoint
    answers with a body of the declared shape and the market-chart endpoint
    answers the two requests of [initializeData] with a [prices] array (all
    three with a 2xx status), then after the three answers the Quote and its
    time are stored, the short-term series is the one of the chart answer,
    the historical series is the downsampled answer with formatted dates and
    rounded prices, both loading flags are clear, no error is shown and
    nothing was logged.  The view shows the data block with the statistics
    of the chart answer and the historical chart (the failure message when
    the historical answer is an empty array).  The chart request of the
    [timeframe] effect is still in flight. *)
Theorem successful_startup (stq stc sth : nat) (data : JSValue) (pd : PriceData)
    (now : number) (ps hs : list (number * number)) :
  ok (mkResponse stq (Parsed data)) = true ->
  as_quote_payload data = Some pd ->
  ok (mkResponse stc (Parsed (Prices ps))) = true ->
  ok (mkResponse sth (Parsed (Prices hs))) = true ->
  let series := downsample (map (historical_point toLocaleDateString) hs) in
  exists w,
    run_ initialWorld
      (startup_answered (Resolved (mkResponse stq (Parsed data))) now
         (chart_response stc ps) (chart_response sth hs)) = Some w /\
    store w
    = mkStore
        (mkState (JNumber (usd pd)) (JNumber (usd_24h_change pd)) false None
           (series_of ps) "24h" (Some now) series false)
        [] /\
    pending w = [mkTask (ShortTermFetcher "24h") Detached] /\
    render (state (store w))
    = Some {| loading_banner := false;
              error_banner := None;
              data_block :=
                Some {| high := maxPrice (series_of ps);
                        low := minPrice (series_of ps);
                        average := avgPrice (series_of ps);
                        history_section :=
                          match hs with
                          | [] => HistoryFailed
                          | _ :: _ => HistoryChart series
                          end |} |}.
Proof.
  intros Hokq Hshape Hokc Hokh series.
  destruct (declared_shape_reads data pd Hshape) as (eth & Hget & Hu & Hc).
  assert (Hq : forall s,
             fetchEthPrice cannotRead (Resolved (mkResponse stq (Parsed data))) now s
             = (Normal tt,
                mkStore
                  (mkState (JNumber (usd pd)) (JNumber (usd_24h_change pd))
                     (loading (state s)) None (chartData (state s))
                     (timeframe (state s)) (Some now) (historicalData (state s))
                     (loadingHistory (state s)))
                  (console s))).
  { intros s. run_routine. rewrite Hokq. cbn [body]. rewrite Hget, Hu, Hc.
    reflexivity. }
  exists (mkWorld
            (mkStore
               (mkState (JNumber (usd pd)) (JNumber (usd_24h_change pd)) false None
                  (series_of ps) "24h" (Some now) series false)
               [])
            true
            [mkTask (ShortTermFetcher "24h") Detached]
            [Started quote_task; Started (mkTask (ShortTermFetcher "24h") Detached);
             Finished quote_task; Started chart_task; Finished chart_task;
             Started history_task; Finished history_task]).
  split; [|split; [reflexivity|split; [reflexivity|]]].
  - unfold startup_answered, chart_response. cbn [run].
    change (step_ initialWorld Mount) with
      (Some (mkWorld (mkStore (mkState JNull JNull true None [] "24h" None [] false) [])
               true
               [quote_task; mkTask (ShortTermFetcher "24h") Detached]
               [Started quote_task;
                Started (mkTask (ShortTermFetcher "24h") Detached)])).
    cbv iota beta.
    match goal with
    | |- context [step cannotRead toLocaleDateString ?w (Settle 0 ?x)] =>
        rewrite (step_settle _ _ w 0 x quote_task _ eq_refl eq_refl)
    end.
    cbv zeta. rewrite Hq.
    cbn [caller quote_task fetcher initializeData_resume start store mounted
         pending history app snd remove_nth state loading chartData timeframe
         historicalData loadingHistory console initialState].
    match goal with
    | |- context [step cannotRead toLocaleDateString ?w (Settle 1 ?x)] =>
        rewrite (step_settle _ _ w 1 x chart_task _ eq_refl eq_refl)
    end.
    cbv zeta. cbn [store]. rewrite (fetchChartData_success stc ps _ Hokc).
    cbn [caller chart_task fetcher initializeData_resume start store mounted
         pending history app snd fst remove_nth state loading chartData timeframe
         historicalData loadingHistory console ethPrice priceChange24h error
         lastUpdate exec fetchHistoricalData_begin setLoadingHistory update].
    match goal with
    | |- context [step cannotRead toLocaleDateString ?w (Settle 1 ?x)] =>
        rewrite (step_settle _ _ w 1 x history_task _ eq_refl eq_refl)
    end.
    cbv zeta. cbn [store].
    rewrite (fetchHistoricalData_success toLocaleDateString sth hs _ Hokh).
    reflexivity.
  - unfold render, historicalSection.
    cbn [store state ethPrice loading error truthy chartData loadingHistory
         historicalData].
    subst series. destruct hs as [|h rest]; [reflexivity|].
    cbn [map]. rewrite downsample_cons. reflexivity.
Qed.

Lemma is_timeframe_cases (tf : string) :
  is_timeframe tf = true ->
  tf = "24h"%string \/ tf = "7d"%string \/ tf = "30d"%string.
Proof.
  unfold is_timeframe. rewrite !orb_true_iff, !String.eqb_eq. tauto.
Qed.

(** The Historical routines started in a reachable world are those of the
    startup sequence. *)
Lemma history_starts (w : World) :
  reachable_ w ->
  exists st,
    at_stage st w /\
    filter starts_history (history w)
    = filter starts_history (firstn (stage_actions st) startup_sequence).
Proof.
  intros Hr. destruct (reachable_stage cannotRead toLocaleDateString w Hr) as [st Hst].
  exists st. split; [exact Hst|].
  destruct Hst as (_ & Ha & _). rewrite <- Ha. unfold awaited_actions.
  symmetry. apply filter_filter_implied. intros a Hin Hs.
  destruct (tasks_satisfy_reachable no_detached_history w) as (_ & _ & Hh);
    try reflexivity; [exact Hr|].
  rewrite Forall_forall in Hh. specialize (Hh a Hin).
  destruct a as [[[|tf|] [|]]|t]; cbn in *; congruence.
Qed.

(** X11.  The 10-year endpoint is requested at most once after the mount,
    and only by [initializeData]: in every reachable world the Historical
    routines started so far are none or the one of the startup sequence,
    whatever the interval, the Retry button and the timeframe buttons have
    done. *)
Theorem historical_requested_once (w : World) :
  reachable_ w ->
  filter starts_history (history w) = []
  \/ filter starts_history (history w) = [Started history_task].
Proof.
  intros Hr. destruct (history_starts w Hr) as (st & _ & ->).
  destruct st; cbn; auto.
Qed.




(** X13.  While [initializeData] still waits for the Quote or for the
    Short-Term series, no Historical routine has been started; with a price
    stored and the data block rendered (the price is a number and the 24h
    change one that line 150 can compare, as every number is) the
    historical section then shows the failure message, although no
    historical request has been sent, let alone failed. *)
Theorem history_failure_shown_before_fetch (w : World) (p : number) :
  reachable_ w ->
  In quote_task (pending w) \/ In chart_task (pending w) ->
  ethPrice (state (store w)) = JNumber p ->
  change_formats (priceChange24h (state (store w))) = true ->
  filter starts_history (history w) = [] /\
  rendered_history (state (store w)) = Some HistoryFailed.
Proof.
  intros Hr Hin Hp Hc. destruct (history_starts w Hr) as (st & Hst & ->).
  pose proof Hst as (_ & _ & Hpend & _ & _ & Hlh & Hd).
  assert (Hstage : st = AwaitingQuote \/ st = AwaitingChart).
  { destruct Hin as [Hin|Hin]; destruct (In_nth_error _ _ Hin) as [i Hnth];
      destruct (only_awaited st w i _ Hst Hnth eq_refl)
        as [[-> E]|[[-> E]|[-> E]]]; try discriminate E; auto. }
  rewrite (rendered_history_with_price _ p Hp Hc). unfold historicalSection.
  destruct Hstage as [-> | ->]; (destruct Hd as [Hd|Hd]; [discriminate|]);
    rewrite Hlh, Hd; split; reflexivity.
Qed.

(** Settling a Short-Term request with a successful response stores the
    series of the response, whichever timeframe the request was for. *)
Lemma chart_settles (w : World) (i : nat) (tf : string) (c : Caller)
    (st : nat) (ps : list (number * number)) :
  nth_error (pending w) i = Some (mkTask (ShortTermFetcher tf) c) ->
  ok (mkResponse st (Parsed (Prices ps))) = true ->
  exists w',
    step_ w (Settle i (SeriesSettled (chart_response st ps))) = Some w' /\
    chartData (state (store w')) = series_of ps /\
    timeframe (state (store w')) = timeframe (state (store w)) /\
    pending w'
    = remove_nth i (pending w) ++ next_tasks (mkTask (ShortTermFetcher tf) c).
Proof.
  intros Hnth Hok.
  destruct (settled_world w i (SeriesSettled (chart_response st ps)) _
              (fetchChartData (chart_response st ps)) Hnth eq_refl)
    as (w' & Hstep & _ & _ & _ & Hcd & Htf & _ & _ & Hp & _).
  exists w'. split; [exact Hstep|]. rewrite Hcd, Htf. unfold chart_response.
  rewrite (fetchChartData_success st ps (store w) Hok). now split.
Qed.

(** X14.  The chart shows the series of the Short-Term response that
    arrived last, not the one of the request sent last or of the selected
    timeframe: with two Short-Term requests in flight, the series stored
    after both have been answered is the one answered second, in either
    order, and the selected timeframe is not touched. *)
Theorem last_settled_chart_wins (w : World) (i j : nat) (tfi tfj : string)
    (ci cj : Caller) (sti stj : nat) (psi psj : list (number * number)) :
  (i < j)%nat ->
  nth_error (pending w) i = Some (mkTask (ShortTermFetcher tfi) ci) ->
  nth_error (pending w) j = Some (mkTask (ShortTermFetcher tfj) cj) ->
  ok (mkResponse sti (Parsed (Prices psi))) = true ->
  ok (mkResponse stj (Parsed (Prices psj))) = true ->
  (exists w',
     run_ w [ Settle i (SeriesSettled (chart_response sti psi));
              Settle (j - 1) (SeriesSettled (chart_response stj psj)) ] = Some w' /\
     chartData (state (store w')) = series_of psj /\
     timeframe (state (store w')) = timeframe (state (store w))) /\
  (exists w',
     run_ w [ Settle j (SeriesSettled (chart_response stj psj));
              Settle i (SeriesSettled (chart_response sti psi)) ] = Some w' /\
     chartData (state (store w')) = series_of psi /\
     timeframe (state (store w')) = timeframe (state (store w))).
Proof.
  intros Hij Hi Hj Hoki Hokj. split.
  - destruct (chart_settles w i tfi ci sti psi Hi Hoki)
      as (w1 & Hstep1 & _ & Htf1 & Hp1).
    assert (Hj1 : nth_error (pending w1) (j - 1)
                  = Some (mkTask (ShortTermFetcher tfj) cj)).
    { rewrite Hp1. apply nth_error_app_some.
      rewrite nth_error_remove_nth_after by lia.
      now replace (S (j - 1)) with j by lia. }
    destruct (chart_settles w1 (j - 1) tfj cj stj psj Hj1 Hokj)
      as (w2 & Hstep2 & Hcd2 & Htf2 & _).
    exists w2. cbn [run]. rewrite Hstep1, Hstep2. repeat split; congruence.
  - destruct (chart_settles w j tfj cj stj psj Hj Hokj)
      as (w1 & Hstep1 & _ & Htf1 & Hp1).
    assert (Hi1 : nth_error (pending w1) i
                  = Some (mkTask (ShortTermFetcher tfi) ci)).
    { rewrite Hp1. apply nth_error_app_some.
      now rewrite nth_error_remove_nth_before by lia. }
    destruct (chart_settles w1 i tfi ci sti psi Hi1 Hoki)
      as (w2 & Hstep2 & Hcd2 & Htf2 & _).
    exists w2. cbn [run]. rewrite Hstep1, Hstep2. repeat split; congruence.
Qed.

(** X15.  The interval does not wait for the request of the tick before:
    [n] ticks, with nothing settled in between, put [n] further Quote
    requests in flight and leave the store alone. *)
Theorem ticks_accumulate_requests (w : World) (n : nat) :
  mounted w = true ->
  exists w',
    run_ w (repeat Tick n) = Some w' /\
    store w' = store w /\
    mounted w' = true /\
    pending w' = pending w ++ repeat detached_quote n /\
    history w' = history w ++ repeat (Started detached_quote) n.
Proof.
  revert w. induction n as [|n IH]; intros w Hm.
  - exists w. cbn. rewrite !app_nil_r. auto.
  - cbn [repeat run step]. rewrite Hm.
    destruct (IH (start (mkTask QuoteFetcher Detached) w) Hm)
      as (w' & Hrun & Hs & Hm' & Hp & Hh).
    exists w'. split; [exact Hrun|]. rewrite Hs, Hp, Hh.
    cbn. rewrite <- !app_assoc. auto.
Qed.

Lemma timeframe_requested_step (w w' : World) (e : Event) :
  timeframe_requested w -> step_ w e = Some w' -> timeframe_requested w'.
Proof.
  intros Hinv Hstep. right. destruct e as [| | |tf|i x].
  5:{ destruct (nth_error (pending w) i) as [t|] eqn:Hnth;
        [|cbn [step] in Hstep; rewrite Hnth in Hstep; discriminate].
      destruct (resume_ t x) as [routine|] eqn:Hres;
        [|cbn [step] in Hstep; rewrite Hnth, Hres in Hstep; discriminate].
      destruct (settled_world w i x t routine Hnth Hres)
        as (w1 & Hstep1 & _ & _ & _ & _ & Htf1 & _ & Hm1 & _ & Hh1).
      rewrite Hstep1 in Hstep. injection Hstep as <-.
      cbv zeta in Htf1.
      rewrite (proj1 (resume_frame t x routine (store w) Hres)) in Htf1.
      rewrite Htf1, Hh1. apply in_or_app. left.
      destruct Hinv as [[_ Hnil]|Hin]; [|exact Hin].
      rewrite Hnil in Hnth. destruct i; discriminate. }
  all: destruct (unsettled_world w w' _ Hstep ltac:(discriminate))
         as (_ & _ & _ & _ & _ & _ & _ & _ & Htf' & _ & _ & _ & Hh' & Hm0 & _);
       rewrite Htf', Hh'; cbn [started_by]; apply in_or_app.
  - right. cbn. auto.
  - left. destruct Hinv as [[Hm _]|Hin]; [congruence|exact Hin].
  - left. destruct Hinv as [[Hm _]|Hin]; [congruence|exact Hin].
  - destruct (String.eqb tf (timeframe (state (store w)))) eqn:Heq.
    + left. apply String.eqb_eq in Heq. rewrite Heq.
      destruct Hinv as [[Hm _]|Hin]; [congruence|exact Hin].
    + right. cbn. auto.
Qed.

Lemma timeframe_requested_run (events : list Event) : forall (w w' : World),
  timeframe_requested w -> run_ w events = Some w' -> timeframe_requested w'.
Proof.
  induction events as [|e rest IH]; intros w w' Hw Hrun; cbn [run] in Hrun.
  - now injection Hrun as <-.
  - destruct (step_ w e) as [w1|] eqn:Hstep; [|discriminate].
    apply (IH w1 w'); [|exact Hrun]. eapply timeframe_requested_step; eassumption.
Qed.

(** X16.  In every reachable world the selected timeframe is one of
    ["24h"], ["7d"], ["30d"], and once the component is mounted the chart
    request of the selected timeframe has been sent: a click on another
    timeframe sends it, a click on the selected one sends nothing.  Every
    Short-Term request ever sent is for one of the three timeframes, so the
    default branch of the day count is only reached with ["30d"]. *)
Theorem selected_timeframe_requested (w : World) :
  reachable_ w ->
  is_timeframe (timeframe (state (store w))) = true /\
  (mounted w = true ->
   In (Started (mkTask (ShortTermFetcher (timeframe (state (store w)))) Detached))
      (history w)) /\
  (forall tf c, In (Started (mkTask (ShortTermFetcher tf) c)) (history w) ->
     is_timeframe tf = true /\
     (days tf <> 1%nat -> days tf <> 7%nat -> tf = "30d"%string)).
Proof.
  intros Hr.
  destruct (tasks_satisfy_reachable holds_timeframe w) as (Htf & _ & Hh);
    try reflexivity; [intros tf H; exact H|exact Hr|].
  split; [exact Htf|]. split.
  - intros Hm. destruct Hr as [events Hrun].
    destruct (timeframe_requested_run events initialWorld w) as [[Hm' _]|Hin];
      [left; split; reflexivity|exact Hrun|congruence|exact Hin].
  - intros tf c Hin. rewrite Forall_forall in Hh. specialize (Hh _ Hin).
    cbn in Hh. split; [exact Hh|].
    destruct (is_timeframe_cases tf Hh) as [-> | [-> | ->]]; cbn; congruence.
Qed.

End MoreEventLoop.


(** A rate-limited refresh after the startup: the banner stays through the
    click on Retry and through the chart request that succeeds. *)
Lemma error_banner_follows_last_quote_witness :
  let w := world_after failed_refresh_run in
  run sample_cannotRead sample_toLocaleDateString initialWorld failed_refresh_run
  = Some w /\
  last_quote_result failed_refresh_run = Some too_many_requests /\
  exists text,
    error (state (store w)) = Some text /\ contains "Retrying" text.
Proof.
  cbv zeta.
  assert (Hrun : run sample_cannotRead sample_toLocaleDateString initialWorld
                   failed_refresh_run = Some (world_after failed_refresh_run))
    by (vm_compute; reflexivity).
  assert (Hlast : last_quote_result failed_refresh_run = Some too_many_requests)
    by (vm_compute; reflexivity).
  split; [exact Hrun|]. split; [exact Hlast|].
  pose proof (error_banner_follows_last_quote sample_cannotRead
                sample_toLocaleDateString failed_refresh_run
                (world_after failed_refresh_run) Hrun) as H.
  rewrite Hlast in H. destruct H as [_ H].
  destruct (H eq_refl) as (text & E & Hc & _).
  exists text. split; [exact E|exact Hc].
Defined.

Lemma quote_time_stamp_witness :
  let w := world_after quote_only_startup in
  run sample_cannotRead sample_toLocaleDateString initialWorld quote_only_startup
  = Some w /\
  ethPrice (state (store w)) = JNumber n3000_5 /\
  lastUpdate (state (store w)) <> None.
Proof.
  cbv zeta.
  assert (Hrun : run sample_cannotRead sample_toLocaleDateString initialWorld
                   quote_only_startup = Some (world_after quote_only_startup))
    by (vm_compute; reflexivity).
  assert (Hprice : ethPrice (state (store (world_after quote_only_startup)))
                   = JNumber n3000_5) by (vm_compute; reflexivity).
  split; [exact Hrun|]. split; [exact Hprice|].
  exact (proj2 (quote_time_stamp sample_cannotRead sample_toLocaleDateString
                  quote_only_startup (world_after quote_only_startup) Hrun)
           n3000_5 Hprice).
Defined.

Lemma historical_requested_once_witness :
  let w := world_after (quote_only_startup ++ after_startup_events) in
  reachable sample_cannotRead sample_toLocaleDateString w /\
  (filter starts_history (history w) = []
   \/ filter starts_history (history w) = [Started history_task]).
Proof.
  cbv zeta.
  assert (Hreach : reachable sample_cannotRead sample_toLocaleDateString
                     (world_after (quote_only_startup ++ after_startup_events)))
    by (apply reachable_world_after; vm_compute; discriminate).
  split; [exact Hreach|].
  exact (historical_requested_once sample_cannotRead sample_toLocaleDateString
           _ Hreach).
Defined.


(** The quote has arrived and the chart request of [initializeData] is in
    flight: the section already shows the failure message. *)
Lemma history_failure_shown_before_fetch_witness :
  let w := world_after quote_arrived_startup in
  reachable sample_cannotRead sample_toLocaleDateString w /\
  In chart_task (pending w) /\
  ethPrice (state (store w)) = JNumber n3000_5 /\
  priceChange24h (state (store w)) = JNumber n_2_25 /\
  filter starts_history (history w) = [] /\
  rendered_history (state (store w)) = Some HistoryFailed.
Proof.
  cbv zeta.
  assert (Hreach : reachable sample_cannotRead sample_toLocaleDateString
                     (world_after quote_arrived_startup))
    by (apply reachable_world_after; vm_compute; discriminate).
  assert (Hnth : nth_error (pending (world_after quote_arrived_startup)) 1
                 = Some chart_task) by (vm_compute; reflexivity).
  assert (Hin : In chart_task (pending (world_after quote_arrived_startup)))
    by (eapply nth_error_In; exact Hnth).
  assert (Hprice : ethPrice (state (store (world_after quote_arrived_startup)))
                   = JNumber n3000_5) by (vm_compute; reflexivity).
  assert (Hchange : priceChange24h (state (store (world_after quote_arrived_startup)))
                    = JNumber n_2_25) by (vm_compute; reflexivity).
  split; [exact Hreach|]. split; [exact Hin|]. split; [exact Hprice|].
  split; [exact Hchange|].
  apply (history_failure_shown_before_fetch sample_cannotRead
           sample_toLocaleDateString _ n3000_5 Hreach (or_intror Hin) Hprice).
  now rewrite Hchange.
Defined.

(** 7d and then 30d are picked; the answer for 30d arrives first and the
    one for 7d second: the chart shows the week under the 30d button. *)
Lemma last_settled_chart_wins_witness :
  let w := world_after two_timeframes_startup in
  nth_error (pending w) 2 = Some (mkTask (ShortTermFetcher "7d") Detached) /\
  nth_error (pending w) 3 = Some (mkTask (ShortTermFetcher "30d") Detached) /\
  timeframe (state (store w)) = "30d"%string /\
  exists w',
    run sample_cannotRead sample_toLocaleDateString w
      [ Settle 3 (SeriesSettled (chart_response 200 month_prices));
        Settle 2 (SeriesSettled (chart_response 200 week_prices)) ] = Some w' /\
    chartData (state (store w')) = series_of week_prices /\
    timeframe (state (store w')) = "30d"%string.
Proof.
  cbv zeta.
  assert (H2 : nth_error (pending (world_after two_timeframes_startup)) 2
               = Some (mkTask (ShortTermFetcher "7d") Detached))
    by (vm_compute; reflexivity).
  assert (H3 : nth_error (pending (world_after two_timeframes_startup)) 3
               = Some (mkTask (ShortTermFetcher "30d") Detached))
    by (vm_compute; reflexivity).
  assert (Htf : timeframe (state (store (world_after two_timeframes_startup)))
                = "30d"%string) by (vm_compute; reflexivity).
  split; [exact H2|]. split; [exact H3|]. split; [exact Htf|].
  destruct (last_settled_chart_wins sample_cannotRead sample_toLocaleDateString
              (world_after two_timeframes_startup) 2 3 "7d" "30d"
              Detached Detached 200 200 week_prices month_prices
              ltac:(lia) H2 H3 eq_refl eq_refl)
    as [_ (w' & Hrun & Hcd & Htf')].
  exists w'. split; [exact Hrun|]. split; [exact Hcd|].
  rewrite Htf'. exact Htf.
Defined.

Lemma ticks_accumulate_requests_witness :
  let w := world_after [Mount] in
  mounted w = true /\
  exists w',
    run sample_cannotRead sample_toLocaleDateString w [Tick; Tick; Tick] = Some w' /\
    store w' = store w /\
    pending w' = pending w ++ [detached_quote; detached_quote; detached_quote].
Proof.
  cbv zeta.
  assert (Hm : mounted (world_after [Mount]) = true) by (vm_compute; reflexivity).
  split; [exact Hm|].
  destruct (ticks_accumulate_requests sample_cannotRead sample_toLocaleDateString
              (world_after [Mount]) 3 Hm) as (w' & Hrun & Hs & _ & Hp & _).
  exists w'. split; [exact Hrun|]. split; [exact Hs|exact Hp].
Defined.

Lemma selected_timeframe_requested_witness :
  let w := world_after two_timeframes_startup in
  reachable sample_cannotRead sample_toLocaleDateString w /\
  mounted w = true /\
  timeframe (state (store w)) = "30d"%string /\
  In (Started (mkTask (ShortTermFetcher "30d") Detached)) (history w).
Proof.
  cbv zeta.
  assert (Hreach : reachable sample_cannotRead sample_toLocaleDateString
                     (world_after two_timeframes_startup))
    by (apply reachable_world_after; vm_compute; discriminate).
  assert (Hm : mounted (world_after two_timeframes_startup) = true)
    by (vm_compute; reflexivity).
  assert (Htf : timeframe (state (store (world_after two_timeframes_startup)))
                = "30d"%string) by (vm_compute; reflexivity).
  split; [exact Hreach|]. split; [exact Hm|]. split; [exact Htf|].
  destruct (selected_timeframe_requested sample_cannotRead
              sample_toLocaleDateString _ Hreach) as (_ & Hin & _).
  rewrite <- Htf. exact (Hin Hm).
Defined.

(** All three endpoints answer at the first try. *)
Lemma successful_startup_witness :
  ok (mkResponse 200 (Parsed full_quote_payload)) = true /\
  as_quote_payload full_quote_payload = Some (mkPriceData n3000_5 n_2_25) /\
  exists w,
    run sample_cannotRead sample_toLocaleDateString initialWorld
      (startup_answered (ok_response full_quote_payload) (of_Z 1700000000000)
         (chart_response 200 week_prices) (chart_response 200 month_prices))
    = Some w /\
    ethPrice (state (store w)) = JNumber n3000_5 /\
    loading (state (store w)) = false /\
    chartData (state (store w)) = series_of week_prices /\
    rendered_history (state (store w))
    = Some (HistoryChart
              (downsample (map (historical_point sample_toLocaleDateString)
                             month_prices))).
Proof.
  assert (Hok : ok (mkResponse 200 (Parsed full_quote_payload)) = true)
    by reflexivity.
  assert (Hshape : as_quote_payload full_quote_payload
                   = Some (mkPriceData n3000_5 n_2_25)) by reflexivity.
  split; [exact Hok|]. split; [exact Hshape|].
  destruct (successful_startup sample_cannotRead sample_toLocaleDateString
              200 200 200 full_quote_payload (mkPriceData n3000_5 n_2_25)
              (of_Z 1700000000000) week_prices month_prices
              Hok Hshape eq_refl eq_refl) as (w & Hrun & Hstore & _ & Hview).
  exists w. split; [exact Hrun|]. unfold rendered_history.
  rewrite Hview, Hstore. repeat split.
Defined.
